(** * Discord embed designer: data model, serialization and history

    A shallow embedding of the data-model layer of [discord_webhook.py]:
    the dataclasses [EmbedField], [Embed], [MessageButton],
    [SelectOption] and [SelectMenu] with their [validate] and [to_dict]
    methods, the history codec ([save_history] / [load_history]),
    [send_webhook], the field dialogs, the colour entry, the status
    bar, the JSON export and the templates, with the user and the
    network as parameters.

    Conventions.
    - A Python [str] is a [string]; one [ascii] stands for one character
      with a code point from 0 to 255. Character classes (whitespace,
      case, hexadecimal digits) are those of Python on that range.
    - A Python [dict] with string keys is a [gmap string _]: equality of
      dictionaries does not depend on insertion order, as in Python.
    - A Python exception is a value [Raise e] of the [result] type.
    - A JSON file is the document it holds: [json.dump] followed by
      [json.load] gives back the same lists, dictionaries, strings,
      numbers and booleans. *)

From stdpp Require Import gmap strings list fin_maps pretty.
From Stdlib Require Import ZArith Ascii.

Local Open Scope string_scope.
Local Open Scope Z_scope.
Local Open Scope list_scope.

(** ** Exceptions and results *)

Inductive exn :=
| ValueError
| TypeError
| AttributeError.

Inductive result (A : Type) :=
| Ok (a : A)
| Raise (e : exn).
Arguments Ok {A} a.
Arguments Raise {A} e.

#[global] Instance result_ret : MRet result := fun _ a => Ok a.
#[global] Instance result_bind : MBind result := fun _ _ f m =>
  match m with
  | Ok a => f a
  | Raise e => Raise e
  end.

Definition returns {A} (m : result A) : Prop := ∃ a, m = Ok a.
Definition raises {A} (m : result A) : Prop := ∃ e, m = Raise e.

(** ** JSON values, as [json.load] produces them *)

#[warnings="-register-all"]
Inductive json :=
| JNull
| JBool (b : bool)
| JInt (z : Z)
| JFloat (literal : string)
| JStr (s : string)
| JArr (l : list json)
| JObj (m : gmap string json).

(** ** Python built-ins used by the data model *)

Module Py.

(** [bool(s)] for a string: the empty string is falsy. *)
Definition truthy (s : string) : bool :=
  match s with
  | EmptyString => false
  | String _ _ => true
  end.

(** [str.isspace] for one character, which is what [str.strip]
    removes: the controls 9 to 13 and 28 to 31, the space, the next-line
    control (133) and the no-break space (160). *)
Definition is_space (c : ascii) : bool :=
  let n := nat_of_ascii c in
  ((9 <=? n)%nat && (n <=? 13)%nat)
  || ((28 <=? n)%nat && (n <=? 32)%nat)
  || (n =? 133)%nat || (n =? 160)%nat.

Fixpoint lstrip (s : string) : string :=
  match s with
  | String c s' => if is_space c then lstrip s' else s
  | EmptyString => EmptyString
  end.

Fixpoint rstrip (s : string) : string :=
  match s with
  | String c s' =>
      match rstrip s' with
      | EmptyString => if is_space c then EmptyString else String c EmptyString
      | r => String c r
      end
  | EmptyString => EmptyString
  end.

(** [s.strip()] *)
Definition strip (s : string) : string := rstrip (lstrip s).

(** [s.lstrip(c)] for a one-character argument. *)
Fixpoint lstrip_char (c : ascii) (s : string) : string :=
  match s with
  | String c' s' => if Ascii.eqb c' c then lstrip_char c s' else s
  | EmptyString => EmptyString
  end.

(** [s.startswith(p)] *)
Definition startswith (s p : string) : bool := String.prefix p s.

(** [needle in hay] *)
Fixpoint contains (needle hay : string) : bool :=
  String.prefix needle hay
  || match hay with
     | String _ hay' => contains needle hay'
     | EmptyString => false
     end.

Fixpoint map_chars (f : ascii → ascii) (s : string) : string :=
  match s with
  | String c s' => String (f c) (map_chars f s')
  | EmptyString => EmptyString
  end.

(** The lower-case form of one character: the capital letters are
    [A] to [Z] and the codes 192 to 222 except the multiplication sign
    (215). *)
Definition lower_char (c : ascii) : ascii :=
  let n := nat_of_ascii c in
  if ((65 <=? n)%nat && (n <=? 90)%nat)
     || ((192 <=? n)%nat && (n <=? 222)%nat && negb (n =? 215)%nat)
  then ascii_of_nat (n + 32) else c.

(** [s.lower()] *)
Definition lower (s : string) : string := map_chars lower_char s.

(** [s.replace(a, b)] for one-character [a] and [b]. *)
Definition replace_char (a b : ascii) (s : string) : string :=
  map_chars (fun c => if Ascii.eqb c a then b else c) s.

(** [s[:n]] *)
Definition take (n : nat) (s : string) : string := String.substring 0 n s.

(** Value of a character as a digit in base 16, if it is one. *)
Definition digit_value16 (c : ascii) : option Z :=
  let n := Z.of_nat (nat_of_ascii c) in
  if (48 <=? n) && (n <=? 57) then Some (n - 48)
  else if (97 <=? n) && (n <=? 102) then Some (n - 87)
  else if (65 <=? n) && (n <=? 70) then Some (n - 55)
  else None.

Definition is_underscore (c : ascii) : bool := Ascii.eqb c "_"%char.

(** The digit loop of [int(_, 16)]: hexadecimal digits, with single
    underscores between them; stops at the first other character and
    returns the value, the number of digits and the rest. [None] is a
    syntax error (two underscores in a row, or one at the end). *)
Fixpoint long_from_binary_base (prev : ascii) (acc : Z) (digits : nat)
    (p : string) : option (Z * nat * string) :=
  match p with
  | String c p' =>
      if is_underscore c then
        if is_underscore prev then None
        else long_from_binary_base c acc digits p'
      else
        match digit_value16 c with
        | Some d => long_from_binary_base c (16 * acc + d) (S digits) p'
        | None => if is_underscore prev then None else Some (acc, digits, p)
        end
  | EmptyString => if is_underscore prev then None else Some (acc, digits, p)
  end.

(** White space as [int] takes it around a number: the controls 9 to
    13 and the space, and the next-line control and the no-break space,
    which it reads as spaces; not the controls 28 to 31. *)
Definition is_int_space (c : ascii) : bool :=
  let n := nat_of_ascii c in
  ((9 <=? n)%nat && (n <=? 13)%nat)
  || (n =? 32)%nat || (n =? 133)%nat || (n =? 160)%nat.

Fixpoint skip_int_space (s : string) : string :=
  match s with
  | String c s' => if is_int_space c then skip_int_space s' else s
  | EmptyString => EmptyString
  end.

(** [int(s, 16)]: optional surrounding whitespace, an optional sign, an
    optional [0x] / [0X] prefix (after which one underscore may
    follow), then at least one digit. Anything else is a
    [ValueError]. *)
Definition int16 (s : string) : result Z :=
  let s := skip_int_space s in
  let '(sign, s) :=
    match s with
    | String c s' =>
        if Ascii.eqb c "+" then (1, s')
        else if Ascii.eqb c "-" then (-1, s')
        else (1, s)
    | EmptyString => (1, s)
    end in
  let s :=
    match s with
    | String c0 (String c1 s') =>
        if Ascii.eqb c0 "0" && (Ascii.eqb c1 "x" || Ascii.eqb c1 "X") then
          match s' with
          | String c2 s'' => if is_underscore c2 then s'' else s'
          | EmptyString => s'
          end
        else s
    | _ => s
    end in
  let starts_with_underscore :=
    match s with
    | String c _ => is_underscore c
    | EmptyString => false
    end in
  if starts_with_underscore then Raise ValueError
  else
    match long_from_binary_base "000" 0 0%nat s with
    | Some (z, digits, rest) =>
        if (digits =? 0)%nat then Raise ValueError
        else
          match skip_int_space rest with
          | EmptyString => Ok (sign * z)
          | String _ _ => Raise ValueError
          end
    | None => Raise ValueError
    end.

(** [for x in v] over a JSON value: a list gives its elements, a
    string its characters, a dictionary its keys; the other values
    are not iterable. *)
Definition iter (v : json) : result (list json) :=
  match v with
  | JArr l => Ok l
  | JStr s => Ok ((fun c => JStr (String c "")) <$> String.list_ascii_of_string s)
  | JObj m => Ok (JStr <$> (map_to_list m).*1)
  | JNull | JBool _ | JInt _ | JFloat _ => Raise TypeError
  end.

(** [v.get(k, d)]: only a dictionary has the method. *)
Definition get (v : json) (k : string) (d : json) : result json :=
  match v with
  | JObj m => Ok (default d (m !! k))
  | _ => Raise AttributeError
  end.

(** [[f(x) for x in l]] where [f] may raise. *)
Fixpoint comprehension {A B} (f : A → result B) (l : list A) : result (list B) :=
  match l with
  | [] => Ok []
  | x :: l' => y ← f x; ys ← comprehension f l'; Ok (y :: ys)
  end.

(** [sep.join(l)] *)
Fixpoint join (sep : string) (l : list string) : string :=
  match l with
  | [] => ""
  | [x] => x
  | x :: l' => x +:+ sep +:+ join sep l'
  end.

(** The newline character, as a string. *)
Definition nl : string := String (ascii_of_nat 10) "".

(** [if c: d[k] = v] *)
Definition set_if {V} (c : bool) (k : string) (v : V) (d : gmap string V)
    : gmap string V :=
  if c then <[k := v]> d else d.

(** [if c: l.append(x)] *)
Definition append_if {A} (c : bool) (x : A) (l : list A) : list A :=
  if c then l ++ [x] else l.

(** [bool(l)] for a list: the empty list is falsy. *)
Definition nonempty {A} (l : list A) : bool :=
  match l with
  | [] => false
  | _ :: _ => true
  end.

(** [enumerate(l)] *)
Definition enumerate {A} (l : list A) : list (nat * A) :=
  zip (seq 0 (length l)) l.

(** [l[-n:]] for a positive [n] *)
Definition last_n {A} (n : nat) (l : list A) : list A :=
  drop (length l - n) l.

(** [s[n:]] *)
Fixpoint drop_chars (n : nat) (s : string) : string :=
  match n, s with
  | O, _ => s
  | S n', String _ s' => drop_chars n' s'
  | S _, EmptyString => EmptyString
  end.

(** [l.remove(x)] when [x in l]: the first occurrence goes. *)
Fixpoint remove_first (x : string) (l : list string) : list string :=
  match l with
  | [] => []
  | y :: l' => if String.eqb y x then l' else y :: remove_first x l'
  end.

(** [x in l] *)
Definition mem (x : string) (l : list string) : bool :=
  existsb (String.eqb x) l.

End Py.

(** ** Configuration constants *)

Definition MAX_TITLE : nat := 256.
Definition MAX_DESC : nat := 4096.
Definition MAX_FIELDS : nat := 25.
Definition MAX_FIELD_NAME : nat := 256.
Definition MAX_FIELD_VALUE : nat := 1024.
Definition MAX_FOOTER : nat := 2048.
Definition MAX_AUTHOR : nat := 256.

(** [f"{what} too long ({n}/{limit})"] *)
Definition too_long (what : string) (n limit : nat) : string :=
  what +:+ " too long (" +:+ pretty n +:+ "/" +:+ pretty limit +:+ ")".

(** ** EmbedField *)

Module EmbedField.

(** The dataclass. [S] and [B] are the types of the values held by
    the string and boolean attributes: [string] and [bool] for an
    object built by the editor, [json] for one built from a stored
    document by keyword expansion, which does not check them. *)
Record t_ (S B : Type) := mk { name : S; value : S; inline : B }.
Arguments mk {S B} _ _ _.
Arguments name {S B} _.
Arguments value {S B} _.
Arguments inline {S B} _.

Abbreviation t := (t_ string bool).
Abbreviation obj := (t_ json json).

Definition validate (self : t) : list string :=
  let errors := [] in
  let errors :=
    Py.append_if (negb (Py.truthy (Py.strip (name self))))
      "Field name cannot be empty" errors in
  let errors :=
    Py.append_if (MAX_FIELD_NAME <? String.length (name self))%nat
      (too_long "Field name" (String.length (name self)) MAX_FIELD_NAME)
      errors in
  let errors :=
    Py.append_if (negb (Py.truthy (Py.strip (value self))))
      "Field value cannot be empty" errors in
  let errors :=
    Py.append_if (MAX_FIELD_VALUE <? String.length (value self))%nat
      (too_long "Field value" (String.length (value self)) MAX_FIELD_VALUE)
      errors in
  errors.

(** The attributes as Python values. *)
Definition to_obj (f : t) : obj :=
  mk (JStr (name f)) (JStr (value f)) (JBool (inline f)).

(** [dataclasses.asdict] *)
Definition asdict (f : obj) : json :=
  JObj (<["inline" := inline f]> (<["value" := value f]> (<["name" := name f]> ∅))).

Definition attribute_names : gset string := {["name"; "value"; "inline"]}.

(** [EmbedField] called with the keywords [f]: [f] has to be a
    dictionary, every key has to be an attribute name, [name] and
    [value] have no default. The values are stored as they are. *)
Definition init (f : json) : result obj :=
  match f with
  | JObj kw =>
      if decide (dom kw ⊆ attribute_names) then
        match kw !! "name", kw !! "value" with
        | Some n, Some v => Ok (mk n v (default (JBool false) (kw !! "inline")))
        | _, _ => Raise TypeError
        end
      else Raise TypeError
  | _ => Raise TypeError
  end.

End EmbedField.


(** ** Embed *)

Module Embed.

Record t_ (S B : Type) := mk {
  title : S;
  description : S;
  color : S;
  url : S;
  footer : S;
  footer_icon : S;
  author : S;
  author_icon : S;
  author_url : S;
  thumbnail : S;
  image : S;
  timestamp : B;
  fields : list (EmbedField.t_ S B)
}.
Arguments mk {S B} _ _ _ _ _ _ _ _ _ _ _ _ _.
Arguments title {S B} _.
Arguments description {S B} _.
Arguments color {S B} _.
Arguments url {S B} _.
Arguments footer {S B} _.
Arguments footer_icon {S B} _.
Arguments author {S B} _.
Arguments author_icon {S B} _.
Arguments author_url {S B} _.
Arguments thumbnail {S B} _.
Arguments image {S B} _.
Arguments timestamp {S B} _.
Arguments fields {S B} _.

Abbreviation t := (t_ string bool).
Abbreviation obj := (t_ json json).

(** [Embed()] *)
Definition fresh : t :=
  mk "" "" "#5865F2" "" "" "" "" "" "" "" "" false [].

Definition validate (self : t) : list string :=
  let errors := [] in
  let errors :=
    Py.append_if
      (Py.truthy (title self) && (MAX_TITLE <? String.length (title self))%nat)
      (too_long "Title" (String.length (title self)) MAX_TITLE) errors in
  let errors :=
    Py.append_if
      (Py.truthy (description self)
       && (MAX_DESC <? String.length (description self))%nat)
      (too_long "Description" (String.length (description self)) MAX_DESC)
      errors in
  let errors :=
    Py.append_if
      (Py.truthy (footer self) && (MAX_FOOTER <? String.length (footer self))%nat)
      (too_long "Footer" (String.length (footer self)) MAX_FOOTER) errors in
  let errors :=
    Py.append_if
      (Py.truthy (author self) && (MAX_AUTHOR <? String.length (author self))%nat)
      (too_long "Author" (String.length (author self)) MAX_AUTHOR) errors in
  let errors :=
    Py.append_if (MAX_FIELDS <? length (fields self))%nat
      ("Too many fields (" +:+ pretty (length (fields self))
         +:+ "/" +:+ pretty MAX_FIELDS +:+ ")")
      errors in
  fold_left
    (fun errors '(i, f) =>
       let field_errors := EmbedField.validate f in
       fold_left
         (fun errors err =>
            errors ++ ["Field " +:+ pretty (i + 1)%nat +:+ ": " +:+ err])
         field_errors errors)
    (Py.enumerate (fields self)) errors.

(** [s.startswith('http://') or s.startswith('https://')] *)
Definition is_http (s : string) : bool :=
  Py.startswith s "http://" || Py.startswith s "https://".

Definition field_to_dict (f : EmbedField.t) : json :=
  JObj (<["inline" := JBool (EmbedField.inline f)]>
        (<["value" := JStr (EmbedField.value f)]>
         (<["name" := JStr (EmbedField.name f)]> ∅))).

(** [to_dict]. [utcnow] is the text of
    [datetime.utcnow().isoformat()] at the time of the call. *)
Definition to_dict (self : t) (utcnow : string) : result (gmap string json) :=
  let result : gmap string json := ∅ in
  let result :=
    Py.set_if (Py.truthy (title self)) "title" (JStr (title self)) result in
  let result :=
    Py.set_if (Py.truthy (description self))
              "description" (JStr (description self)) result in
  let result :=
    Py.set_if (Py.truthy (url self) && is_http (url self))
              "url" (JStr (url self)) result in
  result ←
    (if Py.truthy (color self) then
       c ← (if Py.startswith (color self) "#"
            then Py.int16 (Py.lstrip_char "#" (color self))
            else Ok 0);
       Ok (<["color" := JInt c]> result)
     else Ok result);
  let result :=
    Py.set_if (Py.truthy (footer self) || Py.truthy (footer_icon self))
      "footer"
      (let d : gmap string json := ∅ in
       let d := Py.set_if (Py.truthy (footer self)) "text" (JStr (footer self)) d in
       let d :=
         Py.set_if (Py.truthy (footer_icon self) && is_http (footer_icon self))
                   "icon_url" (JStr (footer_icon self)) d in
       JObj d)
      result in
  let result :=
    Py.set_if (Py.truthy (author self) || Py.truthy (author_icon self)
               || Py.truthy (author_url self))
      "author"
      (let d : gmap string json := ∅ in
       let d := Py.set_if (Py.truthy (author self)) "name" (JStr (author self)) d in
       let d :=
         Py.set_if (Py.truthy (author_icon self) && is_http (author_icon self))
                   "icon_url" (JStr (author_icon self)) d in
       let d :=
         Py.set_if (Py.truthy (author_url self) && is_http (author_url self))
                   "url" (JStr (author_url self)) d in
       JObj d)
      result in
  let result :=
    Py.set_if (Py.truthy (thumbnail self) && is_http (thumbnail self))
              "thumbnail" (JObj {["url" := JStr (thumbnail self)]}) result in
  let result :=
    Py.set_if (Py.truthy (image self) && is_http (image self))
              "image" (JObj {["url" := JStr (image self)]}) result in
  let result :=
    Py.set_if (timestamp self) "timestamp" (JStr utcnow) result in
  let result :=
    Py.set_if (Py.nonempty (fields self))
              "fields" (JArr (field_to_dict <$> fields self)) result in
  Ok result.

(** The attributes as Python values. *)
Definition to_obj (e : t) : obj :=
  mk (JStr (title e)) (JStr (description e)) (JStr (color e)) (JStr (url e))
     (JStr (footer e)) (JStr (footer_icon e)) (JStr (author e))
     (JStr (author_icon e)) (JStr (author_url e)) (JStr (thumbnail e))
     (JStr (image e)) (JBool (timestamp e))
     (EmbedField.to_obj <$> fields e).

(** [dataclasses.asdict]: attribute names to values, the fields
    converted in turn, in order. *)
Definition asdict (e : obj) : json :=
  JObj (<["fields" := JArr (EmbedField.asdict <$> fields e)]>
        (<["timestamp" := timestamp e]>
         (<["image" := image e]>
          (<["thumbnail" := thumbnail e]>
           (<["author_url" := author_url e]>
            (<["author_icon" := author_icon e]>
             (<["author" := author e]>
              (<["footer_icon" := footer_icon e]>
               (<["footer" := footer e]>
                (<["url" := url e]>
                 (<["color" := color e]>
                  (<["description" := description e]>
                   (<["title" := title e]> ∅))))))))))))).

Definition attribute_names : gset string :=
  {["title"; "description"; "color"; "url"; "footer"; "footer_icon";
    "author"; "author_icon"; "author_url"; "thumbnail"; "image";
    "timestamp"; "fields"]}.

(** [Embed] called with the keywords [item], a dictionary whose
    entry [fields] is the list [fs] of objects and whose other entries
    are [kw]: every key has to be an attribute name; an absent
    attribute takes its default; the values are stored as they are. *)
Definition init (kw : gmap string json) (fs : list EmbedField.obj) : result obj :=
  if decide ({["fields"]} ∪ dom kw ⊆ attribute_names) then
    let arg k d := default (JStr d) (kw !! k) in
    Ok (mk (arg "title" "") (arg "description" "") (arg "color" "#5865F2")
           (arg "url" "") (arg "footer" "") (arg "footer_icon" "")
           (arg "author" "") (arg "author_icon" "") (arg "author_url" "")
           (arg "thumbnail" "") (arg "image" "")
           (default (JBool false) (kw !! "timestamp")) fs)
  else Raise TypeError.

End Embed.

(** ** MessageButton *)

Module MessageButton.

Record t := mk {
  label : string;
  url : string;
  style : string;
  emoji : string;
  disabled : bool
}.

(** [style_map.get(style, 1)] *)
Definition style_map_get (style : string) : Z :=
  if String.eqb style "primary" then 1
  else if String.eqb style "secondary" then 2
  else if String.eqb style "success" then 3
  else if String.eqb style "danger" then 4
  else 1.

(** [f"btn_{label.lower().replace(' ', '_')}"] *)
Definition custom_id (label : string) : string :=
  "btn_" +:+ Py.replace_char " " "_" (Py.lower label).

Definition to_dict (self : t) : gmap string json :=
  let result : gmap string json := {["type" := JInt 2]} in
  let result :=
    Py.set_if (Py.truthy (label self)) "label" (JStr (label self)) result in
  let result :=
    if String.eqb (style self) "link" && Py.truthy (url self) then
      let result := <["style" := JInt 5]> result in
      <["url" := JStr (url self)]> result
    else
      let result := <["style" := JInt (style_map_get (style self))]> result in
      <["custom_id" := JStr (custom_id (label self))]> result in
  let result :=
    Py.set_if (Py.truthy (emoji self) && Py.truthy (Py.strip (emoji self)))
              "emoji" (JObj {["name" := JStr (emoji self)]}) result in
  let result :=
    Py.set_if (disabled self) "disabled" (JBool true) result in
  result.

Definition validate (self : t) : list string :=
  let errors := [] in
  let errors :=
    Py.append_if (negb (Py.truthy (label self)))
      "Button label is required" errors in
  let errors :=
    Py.append_if (80 <? String.length (label self))%nat
      ("Button label too long (" +:+ pretty (String.length (label self))
         +:+ "/80)")
      errors in
  let errors :=
    Py.append_if (String.eqb (style self) "link" && negb (Py.truthy (url self)))
      "Link buttons require a URL" errors in
  errors.

End MessageButton.


(** ** SelectOption *)

Module SelectOption.

Record t := mk {
  label : string;
  value : string;
  description : string;
  emoji : string;
  default : bool
}.

Definition to_dict (self : t) : gmap string json :=
  let result : gmap string json :=
    <["value" := JStr (value self)]> {["label" := JStr (label self)]} in
  let result :=
    Py.set_if (Py.truthy (description self))
              "description" (JStr (description self)) result in
  let result :=
    Py.set_if (Py.truthy (emoji self))
              "emoji" (JObj {["name" := JStr (emoji self)]}) result in
  let result :=
    Py.set_if (default self) "default" (JBool true) result in
  result.

End SelectOption.

(** ** SelectMenu *)

Module SelectMenu.

Record t := mk {
  placeholder : string;
  options : list SelectOption.t;
  min_values : Z;
  max_values : Z
}.

Definition to_dict (self : t) : gmap string json :=
  <["options" := JArr ((fun opt => JObj (SelectOption.to_dict opt)) <$> options self)]>
    (<["max_values" := JInt (max_values self)]>
     (<["min_values" := JInt (min_values self)]>
      (<["placeholder" := JStr (placeholder self)]>
       (<["custom_id" := JStr "select_menu"]> {["type" := JInt 3]})))).

Definition validate (self : t) : list string :=
  let errors := [] in
  let errors :=
    Py.append_if (negb (Py.nonempty (options self)))
      "Select menu must have at least one option" errors in
  let errors :=
    Py.append_if (25 <? length (options self))%nat
      ("Too many options (" +:+ pretty (length (options self)) +:+ "/25)")
      errors in
  errors.

End SelectMenu.


(** ** The application: history, persistence and dispatch *)

Module PremiumEmbedDesigner.

(** What is found at the path of a JSON file: nothing, something that
    cannot be opened or parsed, or a document. *)
Inductive file :=
| Missing
| Unreadable
| Stored (data : json).

Record settings := mk_settings {
  s_url : string;
  s_username : string;
  s_avatar_url : string
}.

(** The part of the application object the methods below use, and the
    two files they write. *)
Record state := mk_state {
  current_embed : Embed.t;
  history : list Embed.obj;
  webhook_settings : settings;
  history_file : file;
  webhook_settings_file : file
}.

Definition set_current_embed (e : Embed.t) (self : state) : state :=
  mk_state e (history self) (webhook_settings self)
           (history_file self) (webhook_settings_file self).
Definition set_history (h : list Embed.obj) (self : state) : state :=
  mk_state (current_embed self) h (webhook_settings self)
           (history_file self) (webhook_settings_file self).
Definition set_history_file (f : file) (self : state) : state :=
  mk_state (current_embed self) (history self) (webhook_settings self)
           f (webhook_settings_file self).
Definition set_webhook_settings (w : settings) (self : state) : state :=
  mk_state (current_embed self) (history self) w
           (history_file self) (webhook_settings_file self).
Definition set_webhook_settings_file (f : file) (self : state) : state :=
  mk_state (current_embed self) (history self) (webhook_settings self)
           (history_file self) f.

(** The state after [__init__], before any file is read. *)
Definition init : state :=
  mk_state Embed.fresh [] (mk_settings "" "" "") Missing Missing.

(** What the user sees and what goes out, in order. *)
Inductive event :=
| ShowInfo (title message : string)
| ShowWarning (title message : string)
| ShowError (title message : string)
| AskYesNoCancel (title message : string)
| Post (url : string) (payload : json).

(** *** Persistence *)

(** The document [save_history] writes. *)
Definition history_document (h : list Embed.obj) : json :=
  JArr (Embed.asdict <$> Py.last_n 50 h).

(** [save_history]. The file is taken to be writable. *)
Definition save_history (self : state) : state :=
  let data := history_document (history self) in
  set_history_file (Stored data) self.

(** One pass of the loop of [load_history]. *)
Definition load_item (item : json) : result Embed.obj :=
  fs ← Py.get item "fields" (JArr []);
  fs ← Py.iter fs;
  fields ← Py.comprehension EmbedField.init fs;
  match item with
  | JObj m => Embed.init (delete "fields" m) fields
  | _ => Raise TypeError
  end.

Fixpoint load_items (data : list json) (history : list Embed.obj)
    : result (list Embed.obj) :=
  match data with
  | [] => Ok history
  | item :: data' =>
      e ← load_item item;
      load_items data' (history ++ [e])
  end.

(** [load_history]: any exception empties the history. *)
Definition load_history (self : state) : state :=
  match history_file self with
  | Missing => self
  | Unreadable => set_history [] self
  | Stored data =>
      match (items ← Py.iter data; load_items items []) with
      | Ok h => set_history h self
      | Raise _ => set_history [] self
      end
  end.

Definition save_webhook_settings (self : state) : state :=
  let w := webhook_settings self in
  set_webhook_settings_file
    (Stored (JObj (<["avatar_url" := JStr (s_avatar_url w)]>
                   (<["username" := JStr (s_username w)]>
                    (<["url" := JStr (s_url w)]> ∅)))))
    self.

(** *** The editor form *)

Record form := mk_form {
  title_entry : string;
  desc_text : string;
  url_entry : string;
  color_entry : string;
  author_entry : string;
  author_icon_entry : string;
  author_url_entry : string;
  footer_entry : string;
  footer_icon_entry : string;
  thumbnail_entry : string;
  image_entry : string;
  timestamp_var : bool
}.

(** [x or d] on strings *)
Definition or_else (x d : string) : string := if Py.truthy x then x else d.

Definition sync_embed_from_ui (ui : form) (self : state) : state :=
  let e := current_embed self in
  set_current_embed
    (Embed.mk (Py.strip (title_entry ui))
              (Py.strip (desc_text ui))
              (or_else (Py.strip (color_entry ui)) "#5865F2")
              (Py.strip (url_entry ui))
              (Py.strip (footer_entry ui))
              (Py.strip (footer_icon_entry ui))
              (Py.strip (author_entry ui))
              (Py.strip (author_icon_entry ui))
              (Py.strip (author_url_entry ui))
              (Py.strip (thumbnail_entry ui))
              (Py.strip (image_entry ui))
              (timestamp_var ui)
              (Embed.fields e))
    self.

(** *** The send dialog *)

Record entries := mk_entries {
  d_url_entry : string;
  d_username_entry : string;
  d_avatar_entry : string;
  d_remember : bool
}.

Record result_data := mk_result_data {
  r_url : string;
  r_username : string;
  r_avatar_url : string;
  r_remember : bool
}.

(** The [send] callback of the dialog: one press of the button. *)
Definition dialog_send (en : entries) : option result_data * list event :=
  let url := Py.strip (d_url_entry en) in
  if negb (Py.truthy url) then
    (None, [ShowWarning "Required" "Webhook URL is required"])
  else if negb (Py.contains "discord.com/api/webhooks/" url)
          && negb (Py.contains "discordapp.com/api/webhooks/" url) then
    (None, [ShowError "Invalid URL" "Please enter a valid Discord webhook URL"])
  else
    let avatar_url := Py.strip (d_avatar_entry en) in
    if Py.truthy avatar_url && negb (Embed.is_http avatar_url) then
      (None, [ShowError "Invalid URL"
                "Avatar URL must start with http:// or https://"])
    else
      (Some (mk_result_data url (Py.strip (d_username_entry en)) avatar_url
                            (d_remember en)), []).

(** The dialog stays open until a press is accepted; when the presses
    run out the user has closed it. *)
Fixpoint wait_window (presses : list entries) : option result_data * list event :=
  match presses with
  | [] => (None, [])
  | en :: presses' =>
      match dialog_send en with
      | (Some r, ev) => (Some r, ev)
      | (None, ev) =>
          let '(r, ev') := wait_window presses' in (r, ev ++ ev')
      end
  end.

(** *** Dispatch *)

Record response := mk_response {
  status_code : Z;
  text : string;
  (** [response.json()], [None] when it raises *)
  json_body : option json
}.

(** The outcome of [requests.post]: a response, or an exception with
    its text. *)
Inductive post_outcome :=
| Responded (r : response)
| Failed (cause : string).

Section dispatch.

(** [str(v)] for a value that is not a string, and
    [json.dumps(v, indent=2)]. *)
Variable str_of : json → string.
Variable json_dumps : json → string.

(** The network: what a POST of a payload to a URL meets. *)
Variable post : string → json → post_outcome.

(** [datetime.utcnow().isoformat()] at the time of the call. *)
Variable utcnow : string.

(** [f"{v}"] *)
Definition format (v : json) : string :=
  match v with
  | JStr s => s
  | _ => str_of v
  end.

(** The text shown when Discord answers with an error. *)
Definition error_message (r : response) : string :=
  let error_msg := "❌ Discord returned an error:" +:+ Py.nl +:+ Py.nl in
  let error_msg :=
    error_msg +:+ "Status Code: " +:+ pretty (status_code r)
              +:+ Py.nl +:+ Py.nl in
  match json_body r with
  | Some (JObj error_json) =>
      let error_msg :=
        error_msg +:+ "Error: "
          +:+ format (default (JStr "Unknown error") (error_json !! "message"))
          +:+ Py.nl +:+ Py.nl in
      match error_json !! "errors" with
      | Some errors =>
          error_msg +:+ "Details:" +:+ Py.nl +:+ json_dumps errors
      | None => error_msg
      end
  | _ => error_msg +:+ "Response: " +:+ Py.take 300 (text r)
  end.

(** The end of [send_webhook], from "Build payload" on. The window
    that shows the payload on request is display only and left
    out. A raised exception is the one of [to_dict]: it is not
    inside the [try]. *)
Definition dispatch (url username avatar_url : string) (self : state)
    : result (state * list event) :=
  embed ← Embed.to_dict (current_embed self) utcnow;
  let payload : gmap string json := {["embeds" := JArr [JObj embed]]} in
  let payload :=
    Py.set_if (Py.truthy username) "username" (JStr username) payload in
  let payload :=
    Py.set_if (Py.truthy avatar_url) "avatar_url" (JStr avatar_url) payload in
  Ok match post url (JObj payload) with
     | Responded response =>
         if (status_code response =? 200) || (status_code response =? 204)
         then
           let self :=
             set_history (history self ++ [Embed.to_obj (current_embed self)])
                         self in
           (save_history self,
            [Post url (JObj payload);
             ShowInfo "Success"
               ("✅ Embed sent successfully!" +:+ Py.nl +:+ Py.nl
                +:+ "Check your Discord channel.")])
         else
           (self,
            [Post url (JObj payload);
             ShowError "Discord Error" (error_message response)])
     | Failed cause =>
         (self,
          [Post url (JObj payload);
           ShowError "Network Error"
             ("❌ Failed to send webhook:" +:+ Py.nl +:+ Py.nl +:+ cause
              +:+ Py.nl +:+ Py.nl
              +:+ "Check your internet connection and webhook URL.")])
     end.

(** What the user does during one [send_webhook]: the content of
    the form, the answer to "Send anyway?" (asked only when there
    are validation errors; [None] is Cancel) and the presses of
    the dialog's button. *)
Record user := mk_user {
  u_form : form;
  u_send_anyway : option bool;
  u_presses : list entries
}.

(** [send_webhook]. The last component is the exception that
    leaves the method, if any; the state is the one reached. *)
Definition send_webhook (u : user) (self : state)
    : state * list event * option exn :=
  let self := sync_embed_from_ui (u_form u) self in
  let errors := Embed.validate (current_embed self) in
  let '(go, ev1) :=
    match errors with
    | [] => (true, [])
    | _ :: _ =>
        (default false (u_send_anyway u),
         [AskYesNoCancel "Validation Errors"
            ("Found errors:" +:+ Py.nl +:+ Py.nl
             +:+ Py.join Py.nl (take 5 errors)
             +:+ Py.nl +:+ Py.nl +:+ "Send anyway?")])
    end in
  if negb go then (self, ev1, None)
  else
    let '(r, ev2) := wait_window (u_presses u) in
    match r with
    | None => (self, ev1 ++ ev2, None)
    | Some d =>
        let self :=
          if r_remember d then
            save_webhook_settings
              (set_webhook_settings
                 (mk_settings (r_url d) (r_username d) (r_avatar_url d)) self)
          else self in
        match dispatch (r_url d) (r_username d) (r_avatar_url d) self with
        | Ok (self', ev3) => (self', ev1 ++ ev2 ++ ev3, None)
        | Raise x => (self, ev1 ++ ev2, Some x)
        end
    end.

(** *** A session *)






End dispatch.

(** *** The colour entry and the recent colours *)

(** [on_color_entry_change]: the colour the picker and the preview are
    updated with, if any. *)
Definition on_color_entry_change (entry : string) : option string :=
  let color := Py.strip entry in
  if Py.startswith color "#" && (String.length color =? 7)%nat then
    match Py.int16 (Py.drop_chars 1 color) with
    | Ok _ => Some color
    | Raise _ => None
    end
  else None.

(** [add_color_to_history], on the list [self.color_history]. *)
Definition add_color_to_history (color : string) (color_history : list string)
    : list string :=
  let color_history :=
    if Py.mem color color_history
    then Py.remove_first color color_history else color_history in
  let color_history := color :: color_history in
  take 10 color_history.

(** *** The fields of the embed being edited *)

(** The methods below work on the list [self.current_embed.fields],
    which is what they take and give back; each change is followed by
    a redraw of the list and of the preview. *)

Record field_entries := mk_field_entries {
  f_name_entry : string;
  f_value_text : string;
  f_inline_var : bool
}.

(** The [add_field] callback of the dialog: the list when the field is
    added and the dialog closes, and what is shown. *)
Definition add_field (en : field_entries) (fields : list EmbedField.t)
    : option (list EmbedField.t) * list event :=
  let name := Py.strip (f_name_entry en) in
  let value := Py.strip (f_value_text en) in
  if negb (Py.truthy name) then
    (None, [ShowWarning "Required" "Field name is required"])
  else if negb (Py.truthy value) then
    (None, [ShowWarning "Required" "Field value is required"])
  else
    let field := EmbedField.mk name value (f_inline_var en) in
    let errors := EmbedField.validate field in
    if Py.nonempty errors then
      (None, [ShowError "Validation Error" (Py.join Py.nl errors)])
    else
      (Some (fields ++ [field]), []).

(** A dialog whose button runs [callback]: it stays open until a press
    is accepted; when the presses run out the user has closed it. *)
Fixpoint field_dialog
    (callback : field_entries → list EmbedField.t
                → option (list EmbedField.t) * list event)
    (presses : list field_entries) (fields : list EmbedField.t)
    : list EmbedField.t * list event :=
  match presses with
  | [] => (fields, [])
  | en :: presses' =>
      match callback en fields with
      | (Some fields', ev) => (fields', ev)
      | (None, ev) =>
          let '(fields', ev') := field_dialog callback presses' fields in
          (fields', ev ++ ev')
      end
  end.

Definition add_field_dialog (presses : list field_entries)
    (fields : list EmbedField.t) : list EmbedField.t * list event :=
  if (MAX_FIELDS <=? length fields)%nat then
    (fields, [ShowWarning "Limit Reached"
                ("Maximum " +:+ pretty MAX_FIELDS +:+ " fields allowed")])
  else field_dialog add_field presses fields.

(** The [save_field] callback of the edit dialog for position
    [index]. *)
Definition save_field (index : nat) (en : field_entries)
    (fields : list EmbedField.t) : option (list EmbedField.t) * list event :=
  let name := Py.strip (f_name_entry en) in
  let value := Py.strip (f_value_text en) in
  if negb (Py.truthy name) || negb (Py.truthy value) then
    (None, [ShowWarning "Required" "Both name and value are required"])
  else
    let new_field := EmbedField.mk name value (f_inline_var en) in
    let errors := EmbedField.validate new_field in
    if Py.nonempty errors then
      (None, [ShowError "Validation Error" (Py.join Py.nl errors)])
    else
      (Some (<[index := new_field]> fields), []).

(** [edit_field_dialog]. [None]: [fields[index]] raises [IndexError]
    and nothing is changed. *)
Definition edit_field_dialog (index : nat) (presses : list field_entries)
    (fields : list EmbedField.t) : option (list EmbedField.t * list event) :=
  match fields !! index with
  | Some _ => Some (field_dialog (save_field index) presses fields)
  | None => None
  end.

(** [delete_field], with the answer to "Delete this field?". [None]:
    [IndexError], nothing is changed. *)
Definition delete_field (index : nat) (answer : bool)
    (fields : list EmbedField.t) : option (list EmbedField.t) :=
  if answer then
    match fields !! index with
    | Some _ => Some (delete index fields)
    | None => None
    end
  else Some fields.

(** [l[i], l[j] = l[j], l[i]]: the right-hand side is read first.
    [None]: [IndexError], the list is as it was. *)
Definition swap_items {A} (i j : nat) (l : list A) : option (list A) :=
  match l !! j, l !! i with
  | Some y, Some x => Some (<[j := x]> (<[i := y]> l))
  | _, _ => None
  end.

Definition move_field_up (index : nat) (fields : list EmbedField.t)
    : option (list EmbedField.t) :=
  if (0 <? index)%nat then swap_items index (index - 1) fields
  else Some fields.

Definition move_field_down (index : nat) (fields : list EmbedField.t)
    : option (list EmbedField.t) :=
  if (index <? length fields - 1)%nat then swap_items index (index + 1) fields
  else Some fields.

(** *** Showing an embed in the form *)

(** [load_embed_to_ui], for an embed whose attributes have their
    declared types: the content of the form afterwards. *)
Definition load_embed_to_ui (e : Embed.t) : form :=
  mk_form (Embed.title e) (Embed.description e) (Embed.url e) (Embed.color e)
          (Embed.author e) (Embed.author_icon e) (Embed.author_url e)
          (Embed.footer e) (Embed.footer_icon e) (Embed.thumbnail e)
          (Embed.image e) (Embed.timestamp e).

(** *** History and templates *)

(** [clear_history], with the answer to "Clear all history?". *)
Definition clear_history (answer : bool) (self : state) : state * list event :=
  if answer then
    (save_history (set_history [] self),
     [ShowInfo "Cleared" "History cleared!"])
  else (self, []).

(** The entries [show_history] makes a card for, top card first. *)
Definition history_cards (self : state) : list Embed.obj :=
  reverse (Py.last_n 20 (history self)).

(** *** The status bar *)

Definition PREMIUM_SUCCESS : string := "#3ba55c".
Definition PREMIUM_WARNING : string := "#faa61a".
Definition PREMIUM_DANGER : string := "#ed4245".
Definition PREMIUM_TEXT_DIM : string := "#b9bbbe".

(** The labels of the status bar, each with its text and its colour,
    and [self.validation_errors]. *)
Record status_bar := mk_status_bar {
  status_title : string * string;
  status_desc : string * string;
  status_fields : string * string;
  status_validation : string * string;
  validation_errors : list string
}.

(** [update_status_bar], once the bar is built. The counters read the
    form, the validation what [sync_embed_from_ui] makes of it. *)
Definition update_status_bar (ui : form) (self : state) : state * status_bar :=
  let title_len := String.length (title_entry ui) in
  let desc_len := String.length (desc_text ui) in
  let fields_count := length (Embed.fields (current_embed self)) in
  let self := sync_embed_from_ui ui self in
  let errors := Embed.validate (current_embed self) in
  (self,
   mk_status_bar
     ("Title: " +:+ pretty title_len +:+ "/256",
      if (MAX_TITLE <? title_len)%nat then PREMIUM_DANGER else PREMIUM_TEXT_DIM)
     ("Description: " +:+ pretty desc_len +:+ "/4096",
      if (MAX_DESC <? desc_len)%nat then PREMIUM_DANGER else PREMIUM_TEXT_DIM)
     ("Fields: " +:+ pretty fields_count +:+ "/25",
      if (20 <? fields_count)%nat then PREMIUM_WARNING else PREMIUM_TEXT_DIM)
     (if Py.nonempty errors
      then ("⚠️ " +:+ pretty (length errors) +:+ " Error(s)", PREMIUM_WARNING)
      else ("✅ Valid", PREMIUM_SUCCESS))
     (if Py.nonempty errors then errors else [])).

(** *** Export *)

(** [export_json], with the path the file dialog gives (empty when it
    is cancelled): the document written to the file, if any, and the
    box shown. [to_dict] is called before the file is opened. *)
Definition export_json (utcnow : string) (ui : form) (file_path : string)
    (self : state) : state * result (option json * list event) :=
  let self := sync_embed_from_ui ui self in
  (self,
   if Py.truthy file_path then
     embed ← Embed.to_dict (current_embed self) utcnow;
     let payload : gmap string json := {["embeds" := JArr [JObj embed]]} in
     Ok (Some (JObj payload),
         [ShowInfo "Exported" ("Exported to:" +:+ Py.nl +:+ file_path)])
   else Ok (None, [])).

(** *** Templates *)

(** An element of [self.templates]: a dictionary as read from the file
    or built by [save_as_template], or one that [load_template] has
    been through. [load_template] replaces the list under [fields] of
    the template's own [embed] dictionary by the list of field objects
    it builds: [Loaded t kw fs] is the dictionary with the entries [t]
    and, under [embed], the dictionary with the entries [kw] and, under
    [fields], the objects [fs], the very list of the embed that was
    installed. *)
Inductive template :=
| Document (doc : json)
| Loaded (t : gmap string json) (kw : gmap string json)
    (fs : list EmbedField.obj).

(** [json.dump] of one template. A field object is not serializable:
    [None] is the [TypeError]. *)
Definition dump_template (t : template) : option json :=
  match t with
  | Document doc => Some doc
  | Loaded t kw [] => Some (JObj (<["embed" := JObj (<["fields" := JArr []]> kw)]> t))
  | Loaded _ _ (_ :: _) => None
  end.

Fixpoint dump_templates (l : list template) : option (list json) :=
  match l with
  | [] => Some []
  | t :: l' =>
      match dump_template t, dump_templates l' with
      | Some doc, Some docs => Some (doc :: docs)
      | _, _ => None
      end
  end.

(** [save_templates]: the file afterwards. It is opened for writing
    before anything is serialized, so that a failure leaves a file that
    is no JSON document. *)
Definition save_templates (templates : list template) : file :=
  match dump_templates templates with
  | Some docs => Stored (JArr docs)
  | None => Unreadable
  end.

(** [load_templates], for a file that holds a list or no document. *)
Definition load_templates (f : file) : list template :=
  match f with
  | Stored (JArr docs) => Document <$> docs
  | _ => []
  end.

(** The template [save_as_template] builds from the two texts the user
    is asked for ([None]: the dialog was closed) and the embed. No
    template is made without a name. *)
Definition new_template (name desc : option string) (e : Embed.t) : option json :=
  match name with
  | Some name =>
      if Py.truthy name then
        Some (JObj (<["embed" := Embed.asdict (Embed.to_obj e)]>
                    (<["description" := JStr (or_else (default "" desc) "")]>
                     {["name" := JStr name]})))
      else None
  | None => None
  end.

(** [save_as_template]: the state, the templates, and the templates
    file when it is written. *)
Definition save_as_template (name desc : option string) (ui : form)
    (self : state) (templates : list template)
    : state * list template * option file * list event :=
  match new_template name desc (current_embed (sync_embed_from_ui ui self)) with
  | Some doc =>
      let templates := templates ++ [Document doc] in
      (sync_embed_from_ui ui self, templates, Some (save_templates templates),
       [ShowInfo "Saved" "Template saved successfully!"])
  | None => (self, templates, None, [])
  end.

Section templates.

(** [str(v)] for a value that is not a string. *)
Variable str_of : json → string.

(** Whether [load_embed_to_ui] and [update_preview] run through for an
    embed object. *)
Variable shows : Embed.obj → bool.

Definition load_failed : event := ShowError "Error" "Failed to load template".

(** The end of [load_template], once [Embed] has been called with the
    keywords [kw] and the fields [fs]. *)
Definition install (name : option json) (kw : gmap string json)
    (fs : list EmbedField.obj) : option Embed.obj * event :=
  match Embed.init kw fs with
  | Ok e =>
      if shows e then
        match name with
        | Some name =>
            (Some e,
             ShowInfo "Loaded"
               ("Template '" +:+ format str_of name +:+ "' loaded!"))
        | None => (Some e, load_failed)
        end
      else (Some e, load_failed)
  | Raise _ => (None, load_failed)
  end.

(** [load_template]: the template afterwards, the embed installed as
    the current one, if any, and the box shown. *)
Definition load_template (item : template)
    : template * option Embed.obj * event :=
  match item with
  | Document (JObj t) =>
      match t !! "embed" with
      | Some (JObj m) =>
          match (fs ← Py.iter (default (JArr []) (m !! "fields"));
                 Py.comprehension EmbedField.init fs) with
          | Ok fs =>
              let '(e, box) := install (t !! "name") (delete "fields" m) fs in
              (Loaded (delete "embed" t) (delete "fields" m) fs, e, box)
          | Raise _ => (item, None, load_failed)
          end
      | _ => (item, None, load_failed)
      end
  | Document _ => (item, None, load_failed)
  | Loaded t kw [] =>
      let '(e, box) := install (t !! "name") kw [] in (item, e, box)
  | Loaded _ _ (_ :: _) => (item, None, load_failed)
  end.

End templates.

End PremiumEmbedDesigner.

(** * Vocabulary of the properties *)

(** The place of a character in a string, counted from 0. *)
Fixpoint position (c : ascii) (s : string) : option nat :=
  match s with
  | EmptyString => None
  | String c' s' => if Ascii.eqb c c' then Some 0%nat else S <$> position c s'
  end.

(** The value of a hexadecimal digit: its place among the sixteen
    digits, written with small or with capital letters. *)
Definition hex_digit (c : ascii) : option Z :=
  match position c "0123456789abcdef", position c "0123456789ABCDEF" with
  | Some n, _ | None, Some n => Some (Z.of_nat n)
  | None, None => None
  end.

(** The number a string of hexadecimal digits denotes, most significant
    digit first, continuing from [acc]. *)
Fixpoint hex_number_from (acc : Z) (s : string) : option Z :=
  match s with
  | EmptyString => Some acc
  | String c s' =>
      match hex_digit c with
      | Some d => hex_number_from (16 * acc + d) s'
      | None => None
      end
  end.

(** A non-empty string of hexadecimal digits read in base 16. *)
Definition hex_number (s : string) : option Z :=
  match s with
  | EmptyString => None
  | String _ _ => hex_number_from 0 s
  end.

(** The value starts with [http://] or [https://]. *)
Definition http_url (s : string) : Prop :=
  String.prefix "http://" s = true ∨ String.prefix "https://" s = true.

(** The violations of the field at (0-based) position [i], as
    [validate] reports them. *)
Definition numbered (i : nat) (f : EmbedField.t) : list string :=
  (λ err, "Field " +:+ pretty (S i) +:+ ": " +:+ err) <$> EmbedField.validate f.

(** A "too many fields" violation. *)
Definition is_too_many_fields (s : string) : bool :=
  String.prefix "Too many fields" s.

(** A violation of one field. *)
Definition is_field_violation (s : string) : bool := String.prefix "Field " s.

(** The first lines of every error text of Discord. *)
Definition error_header (r : PremiumEmbedDesigner.response) : string :=
  "❌ Discord returned an error:" +:+ Py.nl +:+ Py.nl
  +:+ "Status Code: " +:+ pretty (PremiumEmbedDesigner.status_code r)
  +:+ Py.nl +:+ Py.nl.

(** A field the editor accepts: name and value are not blank and
    within their limits. *)
Definition field_ok (f : EmbedField.t) : Prop :=
  Py.strip (EmbedField.name f) ≠ ""
  ∧ (String.length (EmbedField.name f) ≤ MAX_FIELD_NAME)%nat
  ∧ Py.strip (EmbedField.value f) ≠ ""
  ∧ (String.length (EmbedField.value f) ≤ MAX_FIELD_VALUE)%nat.

(** A list of fields the editor keeps: at most 25, each accepted. *)
Definition fields_ok (fields : list EmbedField.t) : Prop :=
  (length fields ≤ MAX_FIELDS)%nat ∧ Forall field_ok fields.

(** The field made from the entries of a field dialog. *)
Definition entered (en : PremiumEmbedDesigner.field_entries) : EmbedField.t :=
  EmbedField.mk (Py.strip (PremiumEmbedDesigner.f_name_entry en))
                (Py.strip (PremiumEmbedDesigner.f_value_text en))
                (PremiumEmbedDesigner.f_inline_var en).

(** The requests among the events: URL and payload of each POST, in
    order. *)
Definition posts (events : list PremiumEmbedDesigner.event) : list (string * json) :=
  omap (λ ev, match ev with
              | PremiumEmbedDesigner.Post url payload => Some (url, payload)
              | _ => None
              end) events.

(** The webhook URL names Discord's webhook endpoint somewhere. *)
Definition names_webhook (url : string) : Prop :=
  Py.contains "discord.com/api/webhooks/" url = true
  ∨ Py.contains "discordapp.com/api/webhooks/" url = true.

(** The document [save_webhook_settings] writes for the values of an
    accepted dialog. *)
Definition settings_document (r : PremiumEmbedDesigner.result_data) : json :=
  JObj (<["avatar_url" := JStr (PremiumEmbedDesigner.r_avatar_url r)]>
        (<["username" := JStr (PremiumEmbedDesigner.r_username r)]>
         (<["url" := JStr (PremiumEmbedDesigner.r_url r)]> ∅))).

(** The violation reported for a text of more than [limit]
    characters, if it is one. *)
Definition over_limit (what s : string) (limit : nat) : list string :=
  if decide (limit < String.length s)%nat
  then [what +:+ " too long (" +:+ pretty (String.length s) +:+ "/"
          +:+ pretty limit +:+ ")"]
  else [].

(** The characters [str.strip] removes, by code point. *)
Definition white_space (c : ascii) : bool :=
  bool_decide (nat_of_ascii c ∈ [9; 10; 11; 12; 13; 28; 29; 30; 31; 32; 133; 160]%nat).

(** Every character of the string satisfies [p]. *)
Fixpoint all_chars (p : ascii → bool) (s : string) : bool :=
  match s with
  | EmptyString => true
  | String c s' => p c && all_chars p s'
  end.

(** Nothing is left of the text when white space is trimmed. *)
Definition blank (s : string) : bool := all_chars white_space s.

(** The violations of the embed itself, in the order they are
    reported. *)
Definition embed_violations (e : Embed.t) : list string :=
  over_limit "Title" (Embed.title e) 256
  ++ over_limit "Description" (Embed.description e) 4096
  ++ over_limit "Footer" (Embed.footer e) 2048
  ++ over_limit "Author" (Embed.author e) 256
  ++ (if decide (25 < length (Embed.fields e))%nat
      then ["Too many fields (" +:+ pretty (length (Embed.fields e)) +:+ "/25)"]
      else []).

(** The violations of one field, in the order they are reported. *)
Definition field_violations (f : EmbedField.t) : list string :=
  (if blank (EmbedField.name f) then ["Field name cannot be empty"] else [])
  ++ over_limit "Field name" (EmbedField.name f) 256
  ++ (if blank (EmbedField.value f) then ["Field value cannot be empty"] else [])
  ++ over_limit "Field value" (EmbedField.value f) 1024.

(** A character that can be part of a text [int(_, 16)] accepts: a
    hexadecimal digit, an underscore, a sign, the [x] of a prefix, or
    white space as [int] takes it. *)
Definition int_literal_char (c : ascii) : bool :=
  match hex_digit c, position c "_+-xX" with
  | None, None =>
      bool_decide (nat_of_ascii c ∈ [9; 10; 11; 12; 13; 32; 133; 160]%nat)
  | _, _ => true
  end.

(** ** Sample values *)

Module Samples.

Import PremiumEmbedDesigner.

Definition now : string := "2026-01-01T00:00:00".

Definition webhook : string := "https://discord.com/api/webhooks/1/token".

(** An embed whose colour is not a hexadecimal number. *)
Definition off_colour : Embed.t :=
  Embed.mk "Hi" "" "#GGGGGG" "" "" "" "" "" "" "" "" false [].

(** An embed with a thumbnail that is no web address. *)
Definition ftp_thumbnail : Embed.t :=
  Embed.mk "Hi" "" "#5865F2" "" "" "" "" "" "" "ftp://x" "" false [].

(** An embed with 25 fields. *)
Definition full : Embed.t :=
  Embed.mk "Hi" "World" "#3BA55C" "" "" "" "" "" "" "" "" false
    (replicate 25 (EmbedField.mk "A" "B" true)).

(** An embed with 26 fields, all without name. *)
Definition overfull : Embed.t :=
  Embed.mk "" "" "" "" "" "" "" "" "" "" "" false
    (replicate 26 (EmbedField.mk "" "v" false)).

Definition link_button : MessageButton.t :=
  MessageButton.mk "Docs" "https://x" "link" "" false.
Definition link_button_no_url : MessageButton.t :=
  MessageButton.mk "Docs" "" "link" "" false.
Definition danger_button : MessageButton.t :=
  MessageButton.mk "Delete All" "" "danger" " " false.

(** A stored document with two fields and most keys missing. *)
Definition sparse_document : json :=
  JObj (<["fields" :=
            JArr [JObj (<["value" := JStr "B"]> {["name" := JStr "A"]});
                  JObj (<["inline" := JBool true]>
                        (<["value" := JStr "D"]> {["name" := JStr "C"]}))]]>
        {["title" := JStr "Hi"]}).

(** A stored document with a key this version does not know. *)
Definition newer_document : json :=
  JObj (<["schema_version" := JInt 2]> {["title" := JStr "Hi"]}).

Definition no_str (v : json) : string := "".

(** Discord rejects everything. *)
Definition invalid_form : response :=
  mk_response 400 "(body)" (Some (JObj {["message" := JStr "Invalid Form Body"]})).
Definition rejecting (url : string) (payload : json) : post_outcome :=
  Responded invalid_form.

(** Discord accepts everything. *)
Definition accepting (url : string) (payload : json) : post_outcome :=
  Responded (mk_response 204 "" None).

Definition blank_form : form :=
  mk_form "Hi" "" "" "" "" "" "" "" "" "" "" false.


(** The user types a colour that is no hexadecimal number. *)
Definition off_colour_user : user :=
  mk_user (mk_form "Hi" "" "" "#GGGGGG" "" "" "" "" "" "" "" false)
          None [mk_entries webhook "" "" false].

(** An embed whose colour is a minus sign and five digits. *)
Definition signed_colour : Embed.t :=
  Embed.mk "Hi" "" "#-12345" "" "" "" "" "" "" "" "" false [].

Definition three_fields : list EmbedField.t :=
  [EmbedField.mk "A" "1" false; EmbedField.mk "B" "2" false;
   EmbedField.mk "C" "3" true].

(** The user first leaves the name blank, then fills it in. *)
Definition two_presses : list field_entries :=
  [mk_field_entries "  " "4" false; mk_field_entries " D " "4" false].

(** The user ticks "remember" and sends. *)
Definition remembering_user : user :=
  mk_user blank_form None [mk_entries webhook "Bot" "" true].

(** The same with a colour that is no hexadecimal number. *)
Definition remembering_off_colour_user : user :=
  mk_user (mk_form "Hi" "" "" "#GGGGGG" "" "" "" "" "" "" "" false)
          None [mk_entries webhook "Bot" "" true].

(** A press with an address that only contains the webhook path. *)
Definition odd_press : entries :=
  mk_entries " ftp://example.org/discord.com/api/webhooks/ " " " "" false.

(** Every embed can be shown. *)
Definition showing (e : Embed.obj) : bool := true.

(** A template with one field, as stored. *)
Definition stored_template : template :=
  Document (JObj (<["embed" := sparse_document]> {["name" := JStr "News"]})).

(** An embed whose colour is the sign [#] alone. *)
Definition bare_hash : Embed.t :=
  Embed.mk "Hi" "" "#" "" "" "" "" "" "" "" "" false [].

(** An embed with every part filled in. *)
Definition complete : Embed.t :=
  Embed.mk "Hi" "World" "#3BA55C" "https://x" "F" "https://f" "A" "https://a"
           "http://u" "https://t" "https://i" true
           [EmbedField.mk "A" "1" false; EmbedField.mk "B" "2" true].

(** A title of 256 letters followed by a space. *)
Definition padded_title_form : form :=
  mk_form (String.concat "" (replicate 256 "a") +:+ " ")
          "" "" "" "" "" "" "" "" "" "" false.

(** An embed whose title has 257 characters, with one field whose value
    is a no-break space. *)
Definition long_title : Embed.t :=
  Embed.mk (String.concat "" (replicate 257 "a")) "" "" "" "" "" "" "" "" "" ""
           false [EmbedField.mk "A" (String (ascii_of_nat 160) "") false].

(** An embed whose colour has a control character (code 28) before
    the digits. *)
Definition control_colour : Embed.t :=
  Embed.mk "Hi" "" (String "#" (String (ascii_of_nat 28) "ff"))
           "" "" "" "" "" "" "" "" false [].

(** An embed whose colour has a no-break space (code 160) before the
    digits. *)
Definition no_break_colour : Embed.t :=
  Embed.mk "Hi" "" (String "#" (String (ascii_of_nat 160) "ff"))
           "" "" "" "" "" "" "" "" false [].

(** A button whose label is a capital E with acute accent (code 201)
    and whose emoji is a no-break space (code 160). *)
Definition accented_button : MessageButton.t :=
  MessageButton.mk (String (ascii_of_nat 201) "") "" "primary"
                   (String (ascii_of_nat 160) "") false.

End Samples.

(** * Properties *)

(** ** Dictionaries and strings *)

Lemma lookup_set_if_eq {V} (c : bool) (k : string) (v : V) (d : gmap string V) :
  Py.set_if c k v d !! k = if c then Some v else d !! k.
Proof. unfold Py.set_if. destruct c; [apply lookup_insert_eq | done]. Qed.

Lemma lookup_set_if_ne {V} (c : bool) (k k' : string) (v : V) (d : gmap string V) :
  k ≠ k' → Py.set_if c k v d !! k' = d !! k'.
Proof. intros Hk. unfold Py.set_if. destruct c; [by apply lookup_insert_ne | done]. Qed.

Lemma lookup_if {V} (c : bool) (k : string) (d1 d2 : gmap string V) :
  (if c then d1 else d2) !! k = if c then d1 !! k else d2 !! k.
Proof. by destruct c. Qed.

Lemma if_same {A} (c : bool) (x : A) : (if c then x else x) = x.
Proof. by destruct c. Qed.

(** Looks a literal key up in a dictionary built by a sequence of
    assignments. *)
Ltac dict_lookup :=
  repeat first
    [ rewrite lookup_set_if_ne by done
    | rewrite lookup_insert_ne by done
    | rewrite lookup_singleton_ne by done
    | rewrite lookup_set_if_eq
    | rewrite lookup_insert_eq
    | rewrite lookup_singleton_eq
    | rewrite lookup_empty ].

Lemma truthy_false (s : string) : Py.truthy s = false ↔ s = "".
Proof. destruct s; simpl; split; congruence. Qed.

Lemma truthy_true (s : string) : Py.truthy s = true ↔ s ≠ "".
Proof. destruct s; simpl; split; congruence. Qed.

(** ** Hexadecimal numbers *)

Lemma hex_digit_char (c : ascii) (d : Z) :
  hex_digit c = Some d →
  Py.digit_value16 c = Some d ∧ Py.is_underscore c = false
  ∧ Py.is_int_space c = false
  ∧ Ascii.eqb c "+" = false ∧ Ascii.eqb c "-" = false
  ∧ Ascii.eqb c "x" = false ∧ Ascii.eqb c "X" = false
  ∧ Ascii.eqb c "#" = false.
Proof.
  destruct c as [[] [] [] [] [] [] [] []]; vm_compute; intros H;
    first [discriminate H | injection H as <-; repeat split].
Qed.

Lemma long_from_binary_base_hex (s : string) :
  ∀ prev acc n v,
    hex_number_from acc s = Some v →
    (s = "" → Py.is_underscore prev = false) →
    Py.long_from_binary_base prev acc n s = Some (v, (n + String.length s)%nat, "").
Proof.
  induction s as [|c s IH]; intros prev acc n v Hv Hprev; simpl in *.
  - rewrite Hprev by done. simplify_eq. by rewrite Nat.add_0_r.
  - destruct (hex_digit c) as [d|] eqn:Hd; [|done].
    destruct (hex_digit_char c d Hd) as (-> & Hu & _). rewrite Hu.
    rewrite (IH c _ (S n) v Hv (λ _, Hu)). do 3 f_equal. lia.
Qed.

Lemma int16_hex (s : string) (v : Z) : hex_number s = Some v → Py.int16 s = Ok v.
Proof.
  destruct s as [|c s]; [done|]. intros Hv.
  unfold hex_number in Hv. pose proof Hv as Hv'. simpl in Hv'.
  destruct (hex_digit c) as [d|] eqn:Hd; [|done].
  destruct (hex_digit_char c d Hd) as (_ & Hu & Hsp & Hplus & Hminus & _).
  unfold Py.int16. simpl Py.skip_int_space. rewrite Hsp, Hplus, Hminus.
  assert (match s with
          | String c1 s' =>
              if Ascii.eqb c "0" && (Ascii.eqb c1 "x" || Ascii.eqb c1 "X")
              then match s' with
                   | String c2 s'' => if Py.is_underscore c2 then s'' else s'
                   | EmptyString => s'
                   end
              else String c s
          | EmptyString => String c s
          end = String c s) as ->.
  { destruct s as [|c1 s']; [done|]. simpl in Hv'.
    destruct (hex_digit c1) as [d1|] eqn:Hd1; [|done].
    destruct (hex_digit_char c1 d1 Hd1) as (_ & _ & _ & _ & _ & -> & -> & _).
    by rewrite andb_false_r. }
  rewrite Hu.
  rewrite (long_from_binary_base_hex (String c s) _ 0 0%nat v Hv) by done.
  simpl. f_equal. lia.
Qed.

Lemma lstrip_char_hex (s : string) (v : Z) :
  hex_number s = Some v → Py.lstrip_char "#" ("#" +:+ s) = s.
Proof.
  destruct s as [|c s]; [done|]. unfold hex_number. simpl. intros Hv.
  destruct (hex_digit c) as [d|] eqn:Hd; [|done].
  destruct (hex_digit_char c d Hd) as (_ & _ & _ & _ & _ & _ & _ & ->). done.
Qed.

(** ** Serialization of an embed *)

(** Splits [H : Embed.to_dict e now = Ok d] by the way the colour is
    handled and replaces [d] by the dictionary built. *)
Ltac to_dict_inv H :=
  unfold Embed.to_dict in H; cbv zeta in H;
  destruct (Py.truthy (Embed.color _)) eqn:?;
  [ destruct (Py.startswith (Embed.color _) "#") eqn:?;
    [ destruct (Py.int16 _) eqn:? | ] | ];
  cbn [mbind result_bind mret result_ret] in H;
  try discriminate H; injection H as <-.

Lemma is_http_spec (s : string) : Embed.is_http s = true ↔ http_url s.
Proof. unfold Embed.is_http, Py.startswith, http_url. apply orb_true_iff. Qed.

Lemma is_http_false (s : string) : ¬ http_url s → Embed.is_http s = false.
Proof. rewrite <- is_http_spec. by destruct (Embed.is_http s). Qed.

Lemma startswith_hash (h : string) : Py.startswith ("#" +:+ h) "#" = true.
Proof. by destruct h. Qed.

Lemma to_dict_hex_color (e : Embed.t) (now h : string) (v : Z) :
  Embed.color e = "#" +:+ h → hex_number h = Some v →
  ∃ d, Embed.to_dict e now = Ok d ∧ d !! "color" = Some (JInt v).
Proof.
  intros Hc Hv. unfold Embed.to_dict. cbv zeta. rewrite Hc.
  rewrite (lstrip_char_hex h v Hv), (int16_hex h v Hv).
  change (Py.truthy ("#" +:+ h)) with true.
  rewrite startswith_hash.
  cbn [mbind result_bind].
  eexists; split; [done|]. by dict_lookup.
Qed.

Lemma to_dict_empty_color (e : Embed.t) (now : string) :
  Embed.color e = "" →
  ∃ d, Embed.to_dict e now = Ok d ∧ d !! "color" = None.
Proof.
  intros Hc. unfold Embed.to_dict. cbv zeta. rewrite Hc.
  cbn [Py.truthy mbind result_bind].
  eexists; split; [done|]. by dict_lookup.
Qed.

(** [to_dict] returns unless the colour starts with [#] and what
    follows is not accepted by [int(_, 16)]. *)
Lemma to_dict_returns (e : Embed.t) (now : string) :
  returns (Embed.to_dict e now)
  ↔ Embed.color e = "" ∨ Py.startswith (Embed.color e) "#" = false
    ∨ returns (Py.int16 (Py.lstrip_char "#" (Embed.color e))).
Proof.
  unfold Embed.to_dict. cbv zeta.
  destruct (Py.truthy (Embed.color e)) eqn:Ht.
  - apply truthy_true in Ht.
    destruct (Py.startswith (Embed.color e) "#").
    + destruct (Py.int16 _) as [c|x]; cbn [mbind result_bind].
      * split; [intros _; right; right; by eexists | intros _; by eexists].
      * split; [by intros [? ?] | by intros [?|[?|[? ?]]]].
    + cbn [mbind result_bind]. split; [auto | intros _; by eexists].
  - apply truthy_false in Ht. cbn [mbind result_bind].
    split; [auto | intros _; by eexists].
Qed.

(** C9. A colour written as [#] followed by hexadecimal digits is
    emitted under [color] as the number the digits denote in base 16; in
    particular [#5865F2] gives 5793266. With an empty colour there is no
    [color] key. *)
Theorem to_dict_color (e : Embed.t) (now : string) :
  (∀ h v, Embed.color e = "#" +:+ h → hex_number h = Some v →
     ∃ d, Embed.to_dict e now = Ok d ∧ d !! "color" = Some (JInt v))
  ∧ (Embed.color e = "#5865F2" →
     ∃ d, Embed.to_dict e now = Ok d ∧ d !! "color" = Some (JInt 5793266))
  ∧ (Embed.color e = "" →
     ∃ d, Embed.to_dict e now = Ok d ∧ d !! "color" = None).
Proof.
  split_and!.
  - apply to_dict_hex_color.
  - intros Hc. by apply (to_dict_hex_color e now "5865F2").
  - apply to_dict_empty_color.
Qed.

Lemma to_dict_color_witness :
  (∃ d, Embed.to_dict Embed.fresh Samples.now = Ok d
        ∧ d !! "color" = Some (JInt 5793266))
  ∧ (∃ d, Embed.to_dict (Embed.mk "" "" "#ff" "" "" "" "" "" "" "" "" false [])
            Samples.now = Ok d
          ∧ d !! "color" = Some (JInt 255))
  ∧ (∃ d, Embed.to_dict (Embed.mk "" "" "" "" "" "" "" "" "" "" "" false [])
            Samples.now = Ok d
          ∧ d !! "color" = None).
Proof.
  split; [|split].
  - apply (proj1 (proj2 (to_dict_color Embed.fresh Samples.now))). reflexivity.
  - apply (proj1 (to_dict_color _ Samples.now) "ff" 255); reflexivity.
  - apply (proj2 (proj2 (to_dict_color _ Samples.now))). reflexivity.
Defined.

(** C10. A colour that is not empty and does not start with [#] is
    emitted as [color: 0]: [to_dict] returns, and the key is there. *)
Theorem to_dict_color_without_hash (e : Embed.t) (now : string) :
  Embed.color e ≠ "" → Py.startswith (Embed.color e) "#" = false →
  ∃ d, Embed.to_dict e now = Ok d ∧ d !! "color" = Some (JInt 0).
Proof.
  intros Hne Hs. apply truthy_true in Hne.
  unfold Embed.to_dict. cbv zeta. rewrite Hne, Hs.
  cbn [mbind result_bind].
  eexists; split; [done|]. by dict_lookup.
Qed.

Lemma to_dict_color_without_hash_witness :
  ∃ d, Embed.to_dict (Embed.mk "Hi" "" "red" "" "" "" "" "" "" "" "" false [])
         Samples.now = Ok d
       ∧ d !! "color" = Some (JInt 0).
Proof.
  apply to_dict_color_without_hash; [discriminate | reflexivity].
Defined.

(** C1. [to_dict] raises [ValueError] for the colour [#GGGGGG]: it does
    not return a payload for every embed. *)
Theorem to_dict_raises_on_non_hex_color (e : Embed.t) (now : string) :
  Embed.color e = "#GGGGGG" → Embed.to_dict e now = Raise ValueError.
Proof.
  intros Hc. unfold Embed.to_dict. cbv zeta. rewrite Hc. reflexivity.
Qed.

Lemma to_dict_raises_on_non_hex_color_witness :
  Embed.to_dict Samples.off_colour Samples.now = Raise ValueError.
Proof. apply to_dict_raises_on_non_hex_color. reflexivity. Defined.

(** The same through the editor: the colour entry is free text, and
    [send_webhook] ends with the exception before anything is posted. *)
Lemma send_webhook_raises_on_non_hex_color :
  PremiumEmbedDesigner.send_webhook Samples.no_str Samples.no_str
    Samples.accepting Samples.now Samples.off_colour_user PremiumEmbedDesigner.init
  = (PremiumEmbedDesigner.set_current_embed Samples.off_colour
       PremiumEmbedDesigner.init,
     [], Some ValueError).
Proof. by vm_compute. Qed.

Ltac dict_lookup_in H :=
  repeat first
    [ rewrite lookup_set_if_ne in H by done
    | rewrite lookup_insert_ne in H by done
    | rewrite lookup_singleton_ne in H by done
    | rewrite lookup_set_if_eq in H
    | rewrite lookup_insert_eq in H
    | rewrite lookup_singleton_eq in H
    | rewrite lookup_empty in H ].

(** C2. What [to_dict] leaves out. An empty scalar gives no key; the
    [footer] and [author] objects are there only if one of their parts
    is not empty, and hold no key for an empty part; [url], [thumbnail],
    [image], the icons and the author's URL are left out unless the
    value starts with [http://] or [https://]. *)
Theorem to_dict_omits (e : Embed.t) (now : string) (d : gmap string json) :
  Embed.to_dict e now = Ok d →
  (Embed.title e = "" → d !! "title" = None)
  ∧ (Embed.description e = "" → d !! "description" = None)
  ∧ (Embed.color e = "" → d !! "color" = None)
  ∧ (Embed.timestamp e = false → d !! "timestamp" = None)
  ∧ (Embed.fields e = [] → d !! "fields" = None)
  ∧ (Embed.footer e = "" → Embed.footer_icon e = "" → d !! "footer" = None)
  ∧ (Embed.author e = "" → Embed.author_icon e = "" → Embed.author_url e = "" →
     d !! "author" = None)
  ∧ (∀ o, d !! "footer" = Some o →
       (Embed.footer e ≠ "" ∨ Embed.footer_icon e ≠ "")
       ∧ ∃ m, o = JObj m
           ∧ (Embed.footer e = "" → m !! "text" = None)
           ∧ (¬ http_url (Embed.footer_icon e) → m !! "icon_url" = None))
  ∧ (∀ o, d !! "author" = Some o →
       (Embed.author e ≠ "" ∨ Embed.author_icon e ≠ "" ∨ Embed.author_url e ≠ "")
       ∧ ∃ m, o = JObj m
           ∧ (Embed.author e = "" → m !! "name" = None)
           ∧ (¬ http_url (Embed.author_icon e) → m !! "icon_url" = None)
           ∧ (¬ http_url (Embed.author_url e) → m !! "url" = None))
  ∧ (¬ http_url (Embed.url e) → d !! "url" = None)
  ∧ (¬ http_url (Embed.thumbnail e) → d !! "thumbnail" = None)
  ∧ (¬ http_url (Embed.image e) → d !! "image" = None).
Proof.
  intros H.
  assert (∀ s, ¬ http_url s → Py.truthy s && Embed.is_http s = false) as Hurl.
  { intros s Hs. by rewrite (is_http_false s Hs), andb_false_r. }
  split_and!.
  - to_dict_inv H; intros ->; by dict_lookup.
  - to_dict_inv H; intros ->; by dict_lookup.
  - intros Hc. destruct (to_dict_empty_color e now Hc) as (d' & Hd' & ?).
    congruence.
  - to_dict_inv H; intros ->; by dict_lookup.
  - to_dict_inv H; intros ->; by dict_lookup.
  - to_dict_inv H; intros -> ->; by dict_lookup.
  - to_dict_inv H; intros -> -> ->; by dict_lookup.
  - intros o Ho.
    assert ((if Py.truthy (Embed.footer e) || Py.truthy (Embed.footer_icon e)
             then Some (JObj
               (Py.set_if (Py.truthy (Embed.footer_icon e)
                           && Embed.is_http (Embed.footer_icon e))
                  "icon_url" (JStr (Embed.footer_icon e))
                  (Py.set_if (Py.truthy (Embed.footer e)) "text"
                     (JStr (Embed.footer e)) ∅)))
             else None) = Some o) as Ho'.
    { to_dict_inv H; by dict_lookup_in Ho. }
    clear H Ho. split.
    + rewrite <- !truthy_true.
      destruct (Py.truthy (Embed.footer e)), (Py.truthy (Embed.footer_icon e));
        simpl in Ho'; auto; discriminate.
    + destruct (_ || _); [|discriminate]. injection Ho' as <-.
      eexists; split; [done|]. split.
      * intros ->. by dict_lookup.
      * intros Hn. dict_lookup. by rewrite (Hurl _ Hn).
  - intros o Ho.
    assert ((if Py.truthy (Embed.author e) || Py.truthy (Embed.author_icon e)
                || Py.truthy (Embed.author_url e)
             then Some (JObj
               (Py.set_if (Py.truthy (Embed.author_url e)
                           && Embed.is_http (Embed.author_url e))
                  "url" (JStr (Embed.author_url e))
                  (Py.set_if (Py.truthy (Embed.author_icon e)
                              && Embed.is_http (Embed.author_icon e))
                     "icon_url" (JStr (Embed.author_icon e))
                     (Py.set_if (Py.truthy (Embed.author e)) "name"
                        (JStr (Embed.author e)) ∅))))
             else None) = Some o) as Ho'.
    { to_dict_inv H; by dict_lookup_in Ho. }
    clear H Ho. split.
    + rewrite <- !truthy_true.
      destruct (Py.truthy (Embed.author e)), (Py.truthy (Embed.author_icon e)),
        (Py.truthy (Embed.author_url e)); simpl in Ho'; auto; discriminate.
    + destruct (_ || _); [|discriminate]. injection Ho' as <-.
      eexists; split; [done|]. split_and!.
      * intros ->. by dict_lookup.
      * intros Hn. dict_lookup. by rewrite (Hurl _ Hn).
      * intros Hn. dict_lookup. by rewrite (Hurl _ Hn).
  - to_dict_inv H; intros Hn; dict_lookup; by rewrite (Hurl _ Hn).
  - to_dict_inv H; intros Hn; dict_lookup; by rewrite (Hurl _ Hn).
  - to_dict_inv H; intros Hn; dict_lookup; by rewrite (Hurl _ Hn).
Qed.

Lemma to_dict_omits_witness :
  Embed.to_dict Samples.ftp_thumbnail Samples.now
    = Ok (<["title" := JStr "Hi"]> {["color" := JInt 5793266]})
  ∧ (<["title" := JStr "Hi"]> {["color" := JInt 5793266]} : gmap string json)
      !! "thumbnail" = None
  ∧ (<["title" := JStr "Hi"]> {["color" := JInt 5793266]} : gmap string json)
      !! "footer" = None.
Proof.
  assert (Embed.to_dict Samples.ftp_thumbnail Samples.now
          = Ok (<["title" := JStr "Hi"]> {["color" := JInt 5793266]})) as H
    by reflexivity.
  split; [exact H|].
  destruct (to_dict_omits _ _ _ H)
    as (_ & _ & _ & _ & _ & Hfooter & _ & _ & _ & _ & Hthumb & _).
  split.
  - apply Hthumb. intros [Hp|Hp]; vm_compute in Hp; discriminate Hp.
  - by apply Hfooter.
Defined.

(** A footer whose only part is an icon that is no web address is
    emitted as an empty object. *)
Lemma to_dict_empty_footer :
  Embed.to_dict (Embed.mk "" "" "" "" "" "ftp://x" "" "" "" "" "" false [])
    Samples.now
  = Ok {["footer" := JObj ∅]}.
Proof. reflexivity. Qed.

(** ** Validation of an embed *)

Lemma fold_left_append {A B} (g : B → A) (l : list B) (acc : list A) :
  fold_left (λ errors err, errors ++ [g err]) l acc = acc ++ (g <$> l).
Proof.
  revert acc. induction l as [|x l IH]; intros acc; simpl.
  - by rewrite app_nil_r.
  - rewrite IH. by rewrite <- app_assoc.
Qed.

Lemma validate_fields_loop (l : list EmbedField.t) :
  ∀ k acc,
    fold_left
      (fun errors '(i, f) =>
         let field_errors := EmbedField.validate f in
         fold_left
           (fun errors err =>
              errors ++ ["Field " +:+ pretty (i + 1)%nat +:+ ": " +:+ err])
           field_errors errors)
      (zip (seq k (length l)) l) acc
    = acc ++ concat (imap (λ i, numbered (k + i)) l).
Proof.
  induction l as [|f l IH]; intros k acc; simpl.
  - by rewrite app_nil_r.
  - rewrite fold_left_append, IH. rewrite <- app_assoc. f_equal.
    unfold numbered at 2. rewrite Nat.add_0_r, Nat.add_1_r. f_equal. f_equal.
    apply imap_ext. intros i x _. simpl. f_equal. lia.
Qed.

Lemma numbered_not_too_many (i : nat) (f : EmbedField.t) :
  List.filter is_too_many_fields (numbered i f) = [].
Proof.
  unfold numbered. induction (EmbedField.validate f) as [|x l IH]; [done|].
  simpl. exact IH.
Qed.

Lemma numbered_is_field_violation (i : nat) (f : EmbedField.t) :
  Forall (λ s, is_field_violation s = true) (numbered i f).
Proof.
  unfold numbered. apply Forall_fmap, Forall_true. intros x. simpl.
  unfold is_field_violation. simpl.
  repeat (destruct (ascii_dec _ _); [|done]). by destruct (pretty (S i) +:+ _).
Qed.

Lemma append_if_app {A} (c : bool) (x : A) (l : list A) :
  Py.append_if c x l = l ++ (if c then [x] else []).
Proof. unfold Py.append_if. destruct c; [done | by rewrite app_nil_r]. Qed.

Lemma filter_concat_nil {A} (p : A → bool) (ls : list (list A)) :
  Forall (λ l, List.filter p l = []) ls → List.filter p (concat ls) = [].
Proof.
  induction 1 as [|l ls Hl _ IH]; [done|].
  simpl. by rewrite List.filter_app, Hl, IH.
Qed.

Lemma white_space_spec (c : ascii) : Py.is_space c = white_space c.
Proof. by destruct c as [[] [] [] [] [] [] [] []]. Qed.

Lemma lstrip_blank (s : string) : Py.lstrip s = "" ↔ blank s = true.
Proof.
  unfold blank. induction s as [|c s IH]; simpl; [done|].
  rewrite <- white_space_spec. destruct (Py.is_space c); simpl; [done|].
  split; done.
Qed.

Lemma rstrip_blank (s : string) : Py.rstrip s = "" ↔ blank s = true.
Proof.
  unfold blank. induction s as [|c s IH]; simpl; [done|].
  rewrite <- white_space_spec.
  destruct (Py.rstrip s) as [|a r].
  - destruct (Py.is_space c); simpl.
    + split; [intros _; by apply IH | done].
    + split; done.
  - split; [done|]. intros [_ Hs]%andb_true_iff. by apply IH in Hs.
Qed.

Lemma lstrip_keeps_blank (s : string) :
  blank (Py.lstrip s) = blank s.
Proof.
  unfold blank. induction s as [|c s IH]; simpl; [done|].
  rewrite <- white_space_spec. destruct (Py.is_space c) eqn:Hc; simpl; [done|].
  by rewrite <- white_space_spec, Hc.
Qed.

Lemma strip_blank (s : string) : Py.strip s = "" ↔ blank s = true.
Proof. unfold Py.strip. by rewrite rstrip_blank, lstrip_keeps_blank. Qed.

Lemma strip_blank_truthy (s : string) :
  negb (Py.truthy (Py.strip s)) = blank s.
Proof.
  destruct (blank s) eqn:Hb.
  - apply strip_blank in Hb. by rewrite Hb.
  - destruct (Py.strip s) eqn:Hs; [|done].
    apply strip_blank in Hs. congruence.
Qed.

Lemma over_limit_ltb (what s : string) (limit : nat) :
  (if (limit <? String.length s)%nat
   then [too_long what (String.length s) limit] else [])
  = over_limit what s limit.
Proof.
  unfold over_limit, too_long.
  destruct (decide (limit < String.length s)%nat) as [Hl|Hl].
  - apply Nat.ltb_lt in Hl. by rewrite Hl.
  - apply Nat.nlt_ge, Nat.ltb_ge in Hl. by rewrite Hl.
Qed.

Lemma over_limit_truthy (what s : string) (limit : nat) :
  (if Py.truthy s && (limit <? String.length s)%nat
   then [too_long what (String.length s) limit] else [])
  = over_limit what s limit.
Proof.
  rewrite <- over_limit_ltb. destruct s; [|done]. simpl.
  by destruct limit.
Qed.

Lemma EmbedField_validate_spec (f : EmbedField.t) :
  EmbedField.validate f = field_violations f.
Proof.
  unfold EmbedField.validate, field_violations. cbv zeta.
  rewrite !append_if_app, !strip_blank_truthy. simpl app at 1.
  rewrite !over_limit_ltb. by rewrite <- !app_assoc.
Qed.

Lemma Embed_validate_spec (e : Embed.t) :
  Embed.validate e
  = embed_violations e ++ concat (imap numbered (Embed.fields e)).
Proof.
  unfold Embed.validate, Py.enumerate. cbv zeta.
  rewrite (validate_fields_loop (Embed.fields e) 0).
  rewrite !append_if_app. simpl app at 1. f_equal.
  rewrite !over_limit_truthy. unfold embed_violations.
  rewrite <- !app_assoc. do 4 f_equal.
  unfold MAX_FIELDS.
  destruct (decide (25 < length (Embed.fields e))%nat) as [Hl|Hl].
  - apply Nat.ltb_lt in Hl. by rewrite Hl.
  - apply Nat.nlt_ge, Nat.ltb_ge in Hl. by rewrite Hl.
Qed.

(** C4. [validate] reports everything, in this order: a violation for
    each of title, description, footer and author that is over its limit
    (256, 4096, 2048 and 256 characters), one "too many fields"
    violation when there are more than 25 fields, then for every field
    in turn its own violations (a blank name, a name of more than 256
    characters, a blank value, a value of more than 1024 characters),
    each prefixed with the 1-based position of the field. None of the
    embed's own violations is a field violation; with more than 25
    fields exactly one of the violations is "too many fields". *)
Theorem validate_reports_all (e : Embed.t) :
  Embed.validate e
  = embed_violations e ++ concat (imap numbered (Embed.fields e))
  ∧ (∀ f, EmbedField.validate f = field_violations f)
  ∧ Forall (λ s, is_field_violation s = false) (embed_violations e)
  ∧ Forall (λ s, is_field_violation s = true)
           (concat (imap numbered (Embed.fields e)))
  ∧ ((MAX_FIELDS < length (Embed.fields e))%nat →
     length (List.filter is_too_many_fields (Embed.validate e)) = 1%nat
     ∧ ("Too many fields (" +:+ pretty (length (Embed.fields e)) +:+ "/25)")
         ∈ Embed.validate e)
  ∧ (∀ i f err, Embed.fields e !! i = Some f → err ∈ EmbedField.validate f →
       ("Field " +:+ pretty (S i) +:+ ": " +:+ err) ∈ Embed.validate e).
Proof.
  rewrite Embed_validate_spec.
  assert (Forall (λ s, is_field_violation s = false) (embed_violations e)) as Htop.
  { unfold embed_violations, over_limit.
    repeat apply Forall_app_2;
      by (case_decide; repeat constructor). }
  assert (List.filter is_too_many_fields (concat (imap numbered (Embed.fields e)))
          = []) as Hnone.
  { apply filter_concat_nil, Forall_forall. intros l Hl.
    apply list_elem_of_lookup in Hl as [i Hi].
    apply list_lookup_imap_Some in Hi as (f & _ & ->).
    apply numbered_not_too_many. }
  split_and!.
  - done.
  - apply EmbedField_validate_spec.
  - done.
  - apply Forall_concat, Forall_forall. intros l Hl.
    apply list_elem_of_lookup in Hl as [i Hi].
    apply list_lookup_imap_Some in Hi as (f & _ & ->).
    apply numbered_is_field_violation.
  - unfold MAX_FIELDS. intros Hlen. split.
    + rewrite List.filter_app, Hnone, app_nil_r.
      unfold embed_violations, over_limit.
      destruct (decide (25 < length (Embed.fields e))%nat); [|lia].
      rewrite !List.filter_app, !length_app.
      repeat case_decide; reflexivity.
    + apply elem_of_app. left. unfold embed_violations.
      destruct (decide (25 < length (Embed.fields e))%nat); [|lia].
      rewrite !elem_of_app. do 4 right. by left.
  - intros i f err Hf Herr. apply elem_of_app. right.
    apply list_elem_of_In, in_concat. exists (numbered i f). split.
    + apply list_elem_of_In, list_elem_of_lookup. exists i.
      by rewrite list_lookup_imap, Hf.
    + apply list_elem_of_In. unfold numbered.
      apply list_elem_of_fmap. by exists err.
Qed.

Lemma validate_reports_all_witness :
  length (List.filter is_too_many_fields (Embed.validate Samples.overfull)) = 1%nat
  ∧ "Too many fields (26/25)" ∈ Embed.validate Samples.overfull
  ∧ "Field 3: Field name cannot be empty" ∈ Embed.validate Samples.overfull
  ∧ Embed.validate Samples.long_title
    = ["Title too long (257/256)"; "Field 1: Field value cannot be empty"].
Proof.
  destruct (validate_reports_all Samples.overfull) as (_ & _ & _ & _ & Hmany & Hfield).
  destruct Hmany as [Hone Hin]; [vm_compute; lia|].
  split; [exact Hone|]. split; [exact Hin|]. split.
  - apply (Hfield 2%nat (EmbedField.mk "" "v" false) "Field name cannot be empty");
      [reflexivity|].
    vm_compute. left.
  - destruct (validate_reports_all Samples.long_title) as (-> & _).
    by vm_compute.
Defined.

(** ** Buttons *)

Lemma strip_truthy (s : string) : Py.truthy (Py.strip s) = true → Py.truthy s = true.
Proof. by destruct s. Qed.

(** C5, as the code has it. A link button without URL is reported by
    [validate]. [to_dict] of a link button with a non-empty URL has
    style code 5 and the URL, and no [custom_id]; any other button (a
    link button without URL included) has the code of its style (1 to 4
    for primary, secondary, success and danger, 1 otherwise), the
    identifier [btn_] followed by the label in lower case with spaces
    replaced by underscores, and no URL. The emoji is there exactly when
    it is not blank. *)
Theorem button_to_dict_and_validate (b : MessageButton.t) :
  (MessageButton.style b = "link" → MessageButton.url b = "" →
     "Link buttons require a URL" ∈ MessageButton.validate b)
  ∧ (MessageButton.style b = "link" → MessageButton.url b ≠ "" →
     MessageButton.to_dict b !! "style" = Some (JInt 5)
     ∧ MessageButton.to_dict b !! "url" = Some (JStr (MessageButton.url b))
     ∧ MessageButton.to_dict b !! "custom_id" = None)
  ∧ (MessageButton.style b ≠ "link" ∨ MessageButton.url b = "" →
     MessageButton.to_dict b !! "style"
       = Some (JInt (if decide (MessageButton.style b = "secondary") then 2
                     else if decide (MessageButton.style b = "success") then 3
                     else if decide (MessageButton.style b = "danger") then 4
                     else 1))
     ∧ MessageButton.to_dict b !! "custom_id"
       = Some (JStr ("btn_" +:+ Py.replace_char " " "_"
                                  (Py.lower (MessageButton.label b))))
     ∧ MessageButton.to_dict b !! "url" = None)
  ∧ (is_Some (MessageButton.to_dict b !! "emoji")
     ↔ Py.strip (MessageButton.emoji b) ≠ "").
Proof.
  split_and!.
  - intros Hs Hu. unfold MessageButton.validate. cbv zeta.
    rewrite Hs, Hu. simpl. unfold Py.append_if at 1. simpl.
    apply elem_of_app. right. by left.
  - intros Hs Hu. apply truthy_true in Hu.
    unfold MessageButton.to_dict. cbv zeta. rewrite Hs, Hu. simpl andb. cbv iota.
    split_and!; by dict_lookup.
  - intros Hcase.
    assert (String.eqb (MessageButton.style b) "link"
            && Py.truthy (MessageButton.url b) = false) as Hc.
    { destruct Hcase as [Hs| ->]; [|by rewrite andb_false_r].
      apply String.eqb_neq in Hs. by rewrite Hs. }
    unfold MessageButton.to_dict. cbv zeta. rewrite Hc.
    split_and!; dict_lookup; [|done..].
    unfold MessageButton.style_map_get.
    destruct (String.eqb_spec (MessageButton.style b) "primary") as [->|_]; [done|].
    repeat (case_decide as Hd;
            [rewrite Hd; reflexivity
            |apply String.eqb_neq in Hd; rewrite Hd; clear Hd]).
    done.
  - unfold MessageButton.to_dict. cbv zeta. dict_lookup.
    rewrite lookup_if. dict_lookup. rewrite if_same.
    rewrite <- truthy_true.
    destruct (Py.truthy (Py.strip (MessageButton.emoji b))) eqn:Hst.
    + rewrite (strip_truthy _ Hst). simpl. split; [done | by eexists].
    + rewrite andb_false_r. split; [by intros [? ?] | done].
Qed.

Lemma button_to_dict_and_validate_witness :
  "Link buttons require a URL" ∈ MessageButton.validate Samples.link_button_no_url
  ∧ (MessageButton.to_dict Samples.link_button !! "style" = Some (JInt 5)
     ∧ MessageButton.to_dict Samples.link_button !! "url" = Some (JStr "https://x")
     ∧ MessageButton.to_dict Samples.link_button !! "custom_id" = None)
  ∧ (MessageButton.to_dict Samples.danger_button !! "style" = Some (JInt 4)
     ∧ MessageButton.to_dict Samples.danger_button !! "custom_id"
       = Some (JStr "btn_delete_all")
     ∧ MessageButton.to_dict Samples.danger_button !! "url" = None)
  ∧ MessageButton.to_dict Samples.accented_button !! "custom_id"
    = Some (JStr ("btn_" +:+ String (ascii_of_nat 233) ""))
  ∧ MessageButton.to_dict Samples.accented_button !! "emoji" = None.
Proof.
  split; [|split; [|split; [|split]]].
  - by apply (proj1 (button_to_dict_and_validate Samples.link_button_no_url)).
  - by apply (proj1 (proj2 (button_to_dict_and_validate Samples.link_button))).
  - apply (proj1 (proj2 (proj2 (button_to_dict_and_validate Samples.danger_button)))).
    left. discriminate.
  - apply (proj1 (proj2 (proj2
             (button_to_dict_and_validate Samples.accented_button)))).
    left. discriminate.
  - destruct (MessageButton.to_dict Samples.accented_button !! "emoji")
      as [o|] eqn:Ho; [|reflexivity].
    exfalso.
    apply (proj1 (proj2 (proj2 (proj2
             (button_to_dict_and_validate Samples.accented_button))))
             (ex_intro _ o Ho)).
    reflexivity.
Defined.

(** C5 does not hold as stated: a link button whose URL is empty is
    serialized with style code 1 and an identifier, without URL. *)
Lemma link_button_without_url :
  MessageButton.style Samples.link_button_no_url = "link"
  ∧ MessageButton.to_dict Samples.link_button_no_url !! "style" = Some (JInt 1)
  ∧ MessageButton.to_dict Samples.link_button_no_url !! "url" = None
  ∧ MessageButton.to_dict Samples.link_button_no_url !! "custom_id"
    = Some (JStr "btn_docs").
Proof. vm_compute. done. Qed.

(** ** The history codec *)

Ltac doc_lookup :=
  repeat first
    [ rewrite lookup_delete_ne by done
    | rewrite lookup_insert_ne by done
    | rewrite lookup_insert_eq
    | rewrite lookup_delete_eq
    | rewrite lookup_empty ].

Lemma EmbedField_init_asdict (f : EmbedField.obj) :
  EmbedField.init (EmbedField.asdict f) = Ok f.
Proof.
  unfold EmbedField.init, EmbedField.asdict.
  case_decide as Hdom.
  - doc_lookup. by destruct f.
  - exfalso. apply Hdom. unfold EmbedField.attribute_names.
    rewrite !dom_insert_L, dom_empty_L. set_solver.
Qed.

Lemma comprehension_fmap_Ok {A B} (g : A → B) (f : B → result A) (l : list A) :
  (∀ x, f (g x) = Ok x) → Py.comprehension f (g <$> l) = Ok l.
Proof.
  intros Hf. induction l as [|x l IH]; [done|].
  rewrite fmap_cons. cbn [Py.comprehension]. by rewrite Hf, IH.
Qed.

Lemma load_item_asdict (e : Embed.obj) :
  PremiumEmbedDesigner.load_item (Embed.asdict e) = Ok e.
Proof.
  unfold PremiumEmbedDesigner.load_item, Embed.asdict, Py.get.
  rewrite lookup_insert_eq. simpl.
  rewrite comprehension_fmap_Ok by apply EmbedField_init_asdict.
  simpl. unfold Embed.init.
  case_decide as Hdom.
  - doc_lookup. by destruct e.
  - exfalso. apply Hdom. unfold Embed.attribute_names.
    rewrite dom_delete_L, !dom_insert_L, dom_empty_L. set_solver.
Qed.

Lemma load_items_asdict (l : list Embed.obj) :
  ∀ acc, PremiumEmbedDesigner.load_items (Embed.asdict <$> l) acc = Ok (acc ++ l).
Proof.
  induction l as [|e l IH]; intros acc; simpl.
  - by rewrite app_nil_r.
  - rewrite load_item_asdict. simpl. rewrite IH. by rewrite <- app_assoc.
Qed.

(** Reading back what [save_history] wrote gives the last 50 entries. *)
Lemma load_save_history (self : PremiumEmbedDesigner.state) :
  PremiumEmbedDesigner.history
    (PremiumEmbedDesigner.load_history (PremiumEmbedDesigner.save_history self))
  = Py.last_n 50 (PremiumEmbedDesigner.history self).
Proof.
  unfold PremiumEmbedDesigner.load_history, PremiumEmbedDesigner.save_history,
    PremiumEmbedDesigner.history_document. simpl.
  by rewrite load_items_asdict.
Qed.

#[global] Instance EmbedField_to_obj_inj : Inj (=) (=) EmbedField.to_obj.
Proof.
  intros [n1 v1 i1] [n2 v2 i2] H. unfold EmbedField.to_obj in H. simpl in H.
  by injection H as -> -> ->.
Qed.

#[global] Instance Embed_to_obj_inj : Inj (=) (=) Embed.to_obj.
Proof.
  intros [? ? ? ? ? ? ? ? ? ? ? ? fs1] [? ? ? ? ? ? ? ? ? ? ? ? fs2] H.
  unfold Embed.to_obj in H. simpl in H.
  injection H as -> -> -> -> -> -> -> -> -> -> -> -> Hf.
  f_equal. by apply (inj (fmap EmbedField.to_obj)).
Qed.

(** C3. Decoding the stored document of an embed with at most 25 fields
    gives the embed back (the object with the same attributes, which
    no other embed has), fields in order; and so does reading the
    history file in which it was saved. *)
Theorem history_round_trip (e : Embed.t) (self : PremiumEmbedDesigner.state) :
  (length (Embed.fields e) ≤ MAX_FIELDS)%nat →
  PremiumEmbedDesigner.load_item (Embed.asdict (Embed.to_obj e)) = Ok (Embed.to_obj e)
  ∧ (∀ e', Embed.to_obj e' = Embed.to_obj e → e' = e)
  ∧ Embed.fields (Embed.to_obj e) = EmbedField.to_obj <$> Embed.fields e
  ∧ PremiumEmbedDesigner.history
      (PremiumEmbedDesigner.load_history
         (PremiumEmbedDesigner.save_history
            (PremiumEmbedDesigner.set_history [Embed.to_obj e] self)))
    = [Embed.to_obj e].
Proof.
  intros _. split_and!.
  - apply load_item_asdict.
  - intros e'. apply (inj Embed.to_obj).
  - done.
  - by rewrite load_save_history.
Qed.

Lemma history_round_trip_witness :
  PremiumEmbedDesigner.load_item (Embed.asdict (Embed.to_obj Samples.full))
    = Ok (Embed.to_obj Samples.full)
  ∧ PremiumEmbedDesigner.load_item (Embed.asdict (Embed.to_obj Embed.fresh))
    = Ok (Embed.to_obj Embed.fresh).
Proof.
  split.
  - apply (history_round_trip _ PremiumEmbedDesigner.init). vm_compute. lia.
  - apply (history_round_trip _ PremiumEmbedDesigner.init). vm_compute. lia.
Defined.

Lemma comprehension_Forall2 {A B} (f : A → result B) (l : list A) :
  ∀ l', Py.comprehension f l = Ok l' → Forall2 (λ x y, f x = Ok y) l l'.
Proof.
  induction l as [|x l IH]; intros l' H; simpl in H.
  - injection H as <-. constructor.
  - destruct (f x) as [y|] eqn:Hx; [|done]. simpl in H.
    destruct (Py.comprehension f l) as [ys|] eqn:Hl; [|done]. simpl in H.
    injection H as <-. constructor; [done | by apply IH].
Qed.

Lemma load_items_raises (items : list json) :
  Exists (λ item, raises (PremiumEmbedDesigner.load_item item)) items →
  ∀ acc, raises (PremiumEmbedDesigner.load_items items acc).
Proof.
  induction items as [|item items IH]; intros Hex acc.
  - inversion Hex.
  - simpl. destruct (PremiumEmbedDesigner.load_item item) as [e|x] eqn:Hitem.
    + simpl. apply IH. inversion Hex as [? ? [x Hx]|]; [congruence | done].
    + by exists x.
Qed.

Lemma load_item_inv (m : gmap string json) (e : Embed.obj) :
  PremiumEmbedDesigner.load_item (JObj m) = Ok e →
  ∃ docs fs,
    Py.iter (default (JArr []) (m !! "fields")) = Ok docs
    ∧ Py.comprehension EmbedField.init docs = Ok fs
    ∧ Embed.init (delete "fields" m) fs = Ok e.
Proof.
  unfold PremiumEmbedDesigner.load_item, Py.get. simpl.
  destruct (Py.iter _) as [docs|] eqn:Hdocs; [|done]. simpl.
  destruct (Py.comprehension _ _) as [fs|] eqn:Hfs; [|done]. simpl.
  intros H. by exists docs, fs.
Qed.

Lemma Embed_init_unknown_key (kw : gmap string json) (fs : list EmbedField.obj)
    (k : string) :
  is_Some (kw !! k) → k ∉ Embed.attribute_names → Embed.init kw fs = Raise TypeError.
Proof.
  intros Hk Hn. unfold Embed.init. case_decide as Hdom; [|done].
  exfalso. apply Hn, Hdom. apply elem_of_union. right. by apply elem_of_dom.
Qed.

(** A stored field: [name] and [value] are required, [inline] is
    [False] when missing, and any other key is refused. *)
Lemma EmbedField_init_document (kw : gmap string json) :
  (∀ f, EmbedField.init (JObj kw) = Ok f →
     kw !! "name" = Some (EmbedField.name f)
     ∧ kw !! "value" = Some (EmbedField.value f)
     ∧ EmbedField.inline f = default (JBool false) (kw !! "inline"))
  ∧ (∀ k, is_Some (kw !! k) → k ∉ EmbedField.attribute_names →
     EmbedField.init (JObj kw) = Raise TypeError)
  ∧ (kw !! "name" = None ∨ kw !! "value" = None →
     EmbedField.init (JObj kw) = Raise TypeError).
Proof.
  unfold EmbedField.init. split_and!.
  - intros f. case_decide; [|done].
    destruct (kw !! "name") as [n|], (kw !! "value") as [v|]; try done.
    by intros [= <-].
  - intros k Hk Hn. case_decide as Hdom; [|done].
    exfalso. by apply Hn, Hdom, elem_of_dom.
  - intros Hmiss. case_decide; [|done].
    destruct Hmiss as [-> | ->]; [done|]. by destruct (kw !! "name").
Qed.

(** C6, as the code has it. [load_item] builds the fields in the order
    of the document; an attribute without key takes its default; a key
    that is no attribute makes the call fail; and when one item of the
    stored list fails, the loaded history is empty. *)
Theorem load_history_decoding :
  (∀ m docs e,
     PremiumEmbedDesigner.load_item (JObj m) = Ok e →
     m !! "fields" = Some (JArr docs) →
     Forall2 (λ doc f, EmbedField.init doc = Ok f) docs (Embed.fields e))
  ∧ (∀ m e,
     PremiumEmbedDesigner.load_item (JObj m) = Ok e →
     Embed.title e = default (JStr "") (m !! "title")
     ∧ Embed.description e = default (JStr "") (m !! "description")
     ∧ Embed.color e = default (JStr "#5865F2") (m !! "color")
     ∧ Embed.url e = default (JStr "") (m !! "url")
     ∧ Embed.footer e = default (JStr "") (m !! "footer")
     ∧ Embed.footer_icon e = default (JStr "") (m !! "footer_icon")
     ∧ Embed.author e = default (JStr "") (m !! "author")
     ∧ Embed.author_icon e = default (JStr "") (m !! "author_icon")
     ∧ Embed.author_url e = default (JStr "") (m !! "author_url")
     ∧ Embed.thumbnail e = default (JStr "") (m !! "thumbnail")
     ∧ Embed.image e = default (JStr "") (m !! "image")
     ∧ Embed.timestamp e = default (JBool false) (m !! "timestamp")
     ∧ (m !! "fields" = None → Embed.fields e = []))
  ∧ PremiumEmbedDesigner.load_item (JObj ∅) = Ok (Embed.to_obj Embed.fresh)
  ∧ (∀ m k,
     is_Some (m !! k) → k ∉ Embed.attribute_names →
     raises (PremiumEmbedDesigner.load_item (JObj m)))
  ∧ (∀ self items,
     PremiumEmbedDesigner.history_file self = PremiumEmbedDesigner.Stored (JArr items) →
     Exists (λ item, raises (PremiumEmbedDesigner.load_item item)) items →
     PremiumEmbedDesigner.history (PremiumEmbedDesigner.load_history self) = []).
Proof.
  split_and!.
  - intros m docs e He Hm.
    apply load_item_inv in He as (docs' & fs & Hdocs & Hfs & He).
    rewrite Hm in Hdocs. simpl in Hdocs. injection Hdocs as <-.
    unfold Embed.init in He. case_decide; [|done]. injection He as <-. simpl.
    by apply comprehension_Forall2.
  - intros m e He.
    apply load_item_inv in He as (docs' & fs & Hdocs & Hfs & He).
    unfold Embed.init in He. case_decide; [|done]. injection He as <-. simpl.
    rewrite !lookup_delete_ne by done. split_and!; try done.
    intros Hm. rewrite Hm in Hdocs. simpl in Hdocs. injection Hdocs as <-.
    simpl in Hfs. by injection Hfs as <-.
  - vm_compute. reflexivity.
  - intros m k Hk Hn.
    destruct (PremiumEmbedDesigner.load_item (JObj m)) as [e|x] eqn:He;
      [|by exists x].
    apply load_item_inv in He as (docs' & fs & Hdocs & Hfs & He).
    rewrite (Embed_init_unknown_key _ fs k) in He; [done| |done].
    rewrite lookup_delete_ne; [done|]. intros <-. apply Hn.
    unfold Embed.attribute_names. set_solver.
  - intros self items Hfile Hex.
    unfold PremiumEmbedDesigner.load_history. rewrite Hfile. simpl.
    destruct (load_items_raises items Hex []) as [x ->]. done.
Qed.

Lemma load_history_decoding_witness :
  (∃ e, PremiumEmbedDesigner.load_item Samples.sparse_document = Ok e
        ∧ Embed.fields e
          = [EmbedField.mk (JStr "A") (JStr "B") (JBool false);
             EmbedField.mk (JStr "C") (JStr "D") (JBool true)]
        ∧ Embed.color e = JStr "#5865F2")
  ∧ raises (PremiumEmbedDesigner.load_item Samples.newer_document)
  ∧ PremiumEmbedDesigner.history
      (PremiumEmbedDesigner.load_history
         (PremiumEmbedDesigner.set_history_file
            (PremiumEmbedDesigner.Stored
               (JArr [Samples.sparse_document; Samples.newer_document]))
            PremiumEmbedDesigner.init)) = [].
Proof.
  destruct load_history_decoding as (Horder & Hdefault & _ & Hunknown & Hreset).
  assert (raises (PremiumEmbedDesigner.load_item Samples.newer_document)) as Hr.
  { apply (Hunknown _ "schema_version").
    - by eexists.
    - apply (bool_decide_unpack _). by vm_compute. }
  split; [|split].
  - destruct (PremiumEmbedDesigner.load_item Samples.sparse_document) as [e|]
      eqn:He; [|by vm_compute in He].
    exists e. split; [done|].
    pose proof (Horder _ _ e He eq_refl) as Hfs.
    destruct (Hdefault _ e He) as (_ & _ & Hcolor & _).
    split; [|exact Hcolor].
    inversion Hfs as [|d1 f1 ds1 fs1 Hf1 Hfs1]; subst.
    inversion Hfs1 as [|d2 f2 ds2 fs2 Hf2 Hfs2]; subst.
    inversion Hfs2; subst.
    vm_compute in Hf1. vm_compute in Hf2. congruence.
  - exact Hr.
  - apply (Hreset _ [Samples.sparse_document; Samples.newer_document]);
      [reflexivity|].
    apply Exists_cons_tl, Exists_cons_hd, Hr.
Defined.

(** C6 does not hold as stated: a key written by a newer version is not
    ignored. The document fails to decode, and with it the history is
    lost. *)
Lemma unknown_key_not_ignored :
  PremiumEmbedDesigner.load_item Samples.newer_document = Raise TypeError
  ∧ PremiumEmbedDesigner.history
      (PremiumEmbedDesigner.load_history
         (PremiumEmbedDesigner.set_history_file
            (PremiumEmbedDesigner.Stored
               (JArr [Samples.sparse_document; Samples.newer_document]))
            PremiumEmbedDesigner.init)) = [].
Proof. split; by vm_compute. Qed.

(** ** Dispatch *)

Section dispatch_properties.

Import PremiumEmbedDesigner.

Variable str_of : json → string.
Variable json_dumps : json → string.
Variable post : string → json → post_outcome.
Variable utcnow : string.


Lemma append_assoc (a b c : string) : (a +:+ b) +:+ c = a +:+ (b +:+ c).
Proof.
  induction a as [|x a IH]; [done|].
  change (String x ((a +:+ b) +:+ c) = String x (a +:+ b +:+ c)).
  by rewrite IH.
Qed.

(** C7. [dispatch] posts once, the payload being the embed under
    [embeds] with [username] and [avatar_url] only when not empty, and
    then shows one message: "Success" for status 200 or 204, the embed
    being appended to the history; for another status "Discord Error"
    with the [message] of the JSON body, or the first 300 characters
    of the body when it is not JSON; "Network Error" with the cause
    when the request itself fails. *)
Theorem dispatch_classification (url username avatar_url : string)
    (self : state) (embed : gmap string json) :
  Embed.to_dict (current_embed self) utcnow = Ok embed →
  ∃ payload self' box,
    dispatch str_of json_dumps post utcnow url username avatar_url self
      = Ok (self', [Post url (JObj payload); box])
    ∧ payload !! "embeds" = Some (JArr [JObj embed])
    ∧ payload !! "username"
      = (if decide (username = "") then None else Some (JStr username))
    ∧ payload !! "avatar_url"
      = (if decide (avatar_url = "") then None else Some (JStr avatar_url))
    ∧ dom payload ⊆ {["embeds"; "username"; "avatar_url"]}
    ∧ match post url (JObj payload) with
      | Responded r =>
          if decide (status_code r = 200 ∨ status_code r = 204) then
            (∃ message, box = ShowInfo "Success" message)
            ∧ history self' = history self ++ [Embed.to_obj (current_embed self)]
          else
            self' = self
            ∧ ∃ message,
                box = ShowError "Discord Error" message
                ∧ (∀ m t, json_body r = Some (JObj m) →
                     m !! "message" = Some (JStr t) →
                     ∃ details,
                       message = error_header r +:+ "Error: " +:+ t
                                   +:+ Py.nl +:+ Py.nl +:+ details)
                ∧ (∀ m, json_body r = Some (JObj m) →
                     m !! "message" = None →
                     ∃ details,
                       message = error_header r +:+ "Error: Unknown error"
                                   +:+ Py.nl +:+ Py.nl +:+ details)
                ∧ (json_body r = None →
                     message = error_header r +:+ "Response: "
                                 +:+ Py.take 300 (text r))
      | Failed cause =>
          self' = self
          ∧ box = ShowError "Network Error"
                    ("❌ Failed to send webhook:" +:+ Py.nl +:+ Py.nl +:+ cause
                     +:+ Py.nl +:+ Py.nl
                     +:+ "Check your internet connection and webhook URL.")
      end.
Proof.
  intros Hembed. unfold dispatch. rewrite Hembed.
  cbn [mbind result_bind]. cbv zeta.
  set (payload := Py.set_if (Py.truthy avatar_url) "avatar_url" _ _).
  exists payload.
  assert (payload !! "embeds" = Some (JArr [JObj embed])) as Hp1.
  { subst payload. by dict_lookup. }
  assert (payload !! "username"
          = (if decide (username = "") then None else Some (JStr username))) as Hp2.
  { subst payload. dict_lookup. by destruct username. }
  assert (payload !! "avatar_url"
          = (if decide (avatar_url = "") then None else Some (JStr avatar_url))) as Hp3.
  { subst payload. dict_lookup. by destruct avatar_url. }
  assert (dom payload ⊆ {["embeds"; "username"; "avatar_url"]}) as Hp4.
  { intros k [v Hv]%elem_of_dom.
    rewrite !elem_of_union, !elem_of_singleton.
    destruct (decide (k = "embeds")) as [|H1]; [auto|].
    destruct (decide (k = "username")) as [|H2]; [auto|].
    destruct (decide (k = "avatar_url")) as [|H3]; [auto|].
    subst payload.
    rewrite !lookup_set_if_ne, lookup_singleton_ne in Hv by done. done. }
  destruct (post url (JObj payload)) as [r|cause].
  - destruct (decide (status_code r = 200 ∨ status_code r = 204)) as [Hst|Hst].
    + assert ((status_code r =? 200) || (status_code r =? 204) = true) as ->.
      { destruct Hst as [Hst|Hst]; rewrite Hst; reflexivity. }
      eexists _, _. split_and!; try done. by eexists.
    + assert ((status_code r =? 200) || (status_code r =? 204) = false) as ->.
      { apply orb_false_iff. split; apply Z.eqb_neq; intros Heq; apply Hst; auto. }
      eexists _, _. split_and!; try done. eexists. split_and!; [done|..].
      * intros m t Hj Hm. unfold error_message. rewrite Hj, Hm. simpl default.
        cbn [format]. unfold error_header.
        destruct (m !! "errors") as [errors|].
        -- eexists. rewrite !append_assoc. reflexivity.
        -- exists "". rewrite !append_assoc. reflexivity.
      * intros m Hj Hm. unfold error_message. rewrite Hj, Hm. simpl default.
        cbn [format]. unfold error_header.
        destruct (m !! "errors") as [errors|].
        -- eexists. rewrite !append_assoc. reflexivity.
        -- exists "". rewrite !append_assoc. reflexivity.
      * intros Hj. unfold error_message. rewrite Hj. unfold error_header.
        by rewrite !append_assoc.
  - eexists _, _. by split_and!.
Qed.

End dispatch_properties.

Lemma dispatch_classification_witness :
  ∃ payload message details,
    PremiumEmbedDesigner.dispatch Samples.no_str Samples.no_str Samples.rejecting
      Samples.now Samples.webhook "" "" PremiumEmbedDesigner.init
    = Ok (PremiumEmbedDesigner.init,
          [PremiumEmbedDesigner.Post Samples.webhook (JObj payload);
           PremiumEmbedDesigner.ShowError "Discord Error" message])
    ∧ payload !! "embeds" = Some (JArr [JObj {["color" := JInt 5793266]}])
    ∧ payload !! "username" = None
    ∧ message = error_header Samples.invalid_form +:+ "Error: Invalid Form Body"
                  +:+ Py.nl +:+ Py.nl +:+ details.
Proof.
  destruct (dispatch_classification Samples.no_str Samples.no_str
              Samples.rejecting Samples.now Samples.webhook "" ""
              PremiumEmbedDesigner.init {["color" := JInt 5793266]} eq_refl)
    as (payload & self' & box & Hd & Hembeds & Huser & _ & _ & Hclass).
  simpl in Hclass. destruct Hclass as (-> & message & -> & Hmessage & _).
  destruct (Hmessage _ "Invalid Form Body" eq_refl eq_refl) as [details Hdetails].
  exists payload, message, details. by split_and!.
Defined.

(** Status 204: the "Success" box, and the embed in the history and in
    its file. *)
Lemma dispatch_accepted :
  ∃ payload message,
    PremiumEmbedDesigner.dispatch Samples.no_str Samples.no_str Samples.accepting
      Samples.now Samples.webhook "" "" PremiumEmbedDesigner.init
    = Ok (PremiumEmbedDesigner.set_history_file
            (PremiumEmbedDesigner.Stored
               (JArr [Embed.asdict (Embed.to_obj Embed.fresh)]))
            (PremiumEmbedDesigner.set_history [Embed.to_obj Embed.fresh]
               PremiumEmbedDesigner.init),
          [PremiumEmbedDesigner.Post Samples.webhook payload;
           PremiumEmbedDesigner.ShowInfo "Success" message]).
Proof. eexists _, _. by vm_compute. Qed.

(** What the dialog hands over is trimmed: a user name or avatar URL
    made of spaces only is empty, and so left out of the payload. *)
Lemma dialog_send_trims (en : PremiumEmbedDesigner.entries)
    (r : PremiumEmbedDesigner.result_data) :
  (PremiumEmbedDesigner.dialog_send en).1 = Some r →
  PremiumEmbedDesigner.r_url r = Py.strip (PremiumEmbedDesigner.d_url_entry en)
  ∧ PremiumEmbedDesigner.r_username r
    = Py.strip (PremiumEmbedDesigner.d_username_entry en)
  ∧ PremiumEmbedDesigner.r_avatar_url r
    = Py.strip (PremiumEmbedDesigner.d_avatar_entry en).
Proof.
  unfold PremiumEmbedDesigner.dialog_send. cbv zeta.
  repeat match goal with
         | |- context [if ?c then _ else _] => destruct c
         end; simpl; try done.
  by intros [= <-].
Qed.

(** ** Sessions and the history file *)

Section session_properties.

Import PremiumEmbedDesigner.

Variable str_of : json → string.
Variable json_dumps : json → string.
Variable post : string → json → post_outcome.
Variable utcnow : string.






Lemma length_last_n {A} (n : nat) (l : list A) :
  length (Py.last_n n l) = Nat.min (length l) n.
Proof. unfold Py.last_n. rewrite length_drop. lia. Qed.





End session_properties.


(** ** What validation accepts *)

Lemma app_if_nil {A} (l : list A) (c : bool) (x : A) :
  l ++ (if c then [x] else []) = [] ↔ l = [] ∧ c = false.
Proof.
  destruct c.
  - split; [intros H; by apply app_eq_nil in H as [_ ?] | by intros [_ ?]].
  - rewrite app_nil_r. tauto.
Qed.

Lemma EmbedField_validate_nil (f : EmbedField.t) :
  EmbedField.validate f = [] ↔ field_ok f.
Proof.
  unfold EmbedField.validate, field_ok. cbv zeta.
  rewrite !append_if_app, !app_if_nil.
  rewrite !negb_false_iff, !truthy_true, !Nat.ltb_ge. simpl app. tauto.
Qed.

Lemma concat_imap_nil {A B} (g : nat → A → list B) (l : list A) :
  concat (imap g l) = [] ↔ ∀ i x, l !! i = Some x → g i x = [].
Proof.
  revert g. induction l as [|x l IH]; intros g; simpl.
  - split; [by intros _ i x | done].
  - split.
    + intros H. apply app_eq_nil in H as [Hx Hl]. intros [|i] y Hy; simpl in Hy.
      * by simplify_eq.
      * by apply (proj1 (IH _) Hl i).
    + intros H. rewrite (H 0%nat x eq_refl). simpl. apply IH.
      intros i y Hy. by apply (H (S i)).
Qed.

Lemma and_truthy_over (s : string) (n : nat) :
  Py.truthy s && (n <? String.length s)%nat = false ↔ (String.length s ≤ n)%nat.
Proof.
  destruct s as [|c s]; simpl.
  - split; [lia | done].
  - apply Nat.ltb_ge.
Qed.

(** X1. [Embed.validate] reports nothing exactly when title,
    description, footer and author are within their limits (256, 4096,
    2048 and 256 characters), there are at most 25 fields, and every
    field has a name and a value that are not blank and within 256 and
    1024 characters. Colour, URLs, icons, images and the timestamp play
    no part. *)
Theorem validate_accepts (e : Embed.t) :
  Embed.validate e = [] ↔
    (String.length (Embed.title e) ≤ MAX_TITLE)%nat
    ∧ (String.length (Embed.description e) ≤ MAX_DESC)%nat
    ∧ (String.length (Embed.footer e) ≤ MAX_FOOTER)%nat
    ∧ (String.length (Embed.author e) ≤ MAX_AUTHOR)%nat
    ∧ (length (Embed.fields e) ≤ MAX_FIELDS)%nat
    ∧ Forall field_ok (Embed.fields e).
Proof.
  unfold Embed.validate, Py.enumerate. cbv zeta.
  rewrite (validate_fields_loop (Embed.fields e) 0).
  rewrite !append_if_app. simpl app at 1.
  split.
  - intros H. apply app_eq_nil in H as [H Hfs].
    apply app_if_nil in H as [H Hn].
    apply app_if_nil in H as [H Ha].
    apply app_if_nil in H as [H Hf].
    apply app_if_nil in H as [H Hd].
    destruct (Py.truthy (Embed.title e) && _) eqn:Ht; [done|].
    apply and_truthy_over in Ht, Hd, Hf, Ha. apply Nat.ltb_ge in Hn.
    split_and!; try done.
    apply Forall_lookup. intros i f Hi.
    apply EmbedField_validate_nil.
    pose proof (proj1 (concat_imap_nil _ _) Hfs i f Hi) as Hnum.
    unfold numbered in Hnum. by apply fmap_nil_inv in Hnum.
  - intros (Ht & Hd & Hf & Ha & Hn & Hfs).
    apply and_truthy_over in Ht, Hd, Hf, Ha. apply Nat.ltb_ge in Hn.
    rewrite Ht, Hd, Hf, Ha, Hn. simpl.
    apply concat_imap_nil. intros i f Hi.
    unfold numbered.
    rewrite (proj2 (EmbedField_validate_nil f)); [done|].
    by apply (proj1 (Forall_lookup _ _) Hfs i).
Qed.

(** ** Buttons and select menus *)

(** X2. [MessageButton.validate] reports nothing exactly when the label
    is not empty and has at most 80 characters and a link button has a
    URL. A button it accepts is serialized with its label, and a link
    button it accepts with style code 5 and its URL. *)
Theorem button_validate_accepts (b : MessageButton.t) :
  (MessageButton.validate b = [] ↔
     MessageButton.label b ≠ ""
     ∧ (String.length (MessageButton.label b) ≤ 80)%nat
     ∧ (MessageButton.style b = "link" → MessageButton.url b ≠ ""))
  ∧ (MessageButton.validate b = [] →
     MessageButton.to_dict b !! "label" = Some (JStr (MessageButton.label b))
     ∧ (MessageButton.style b = "link" →
        MessageButton.to_dict b !! "style" = Some (JInt 5)
        ∧ MessageButton.to_dict b !! "url" = Some (JStr (MessageButton.url b)))).
Proof.
  assert (MessageButton.validate b = [] ↔
     MessageButton.label b ≠ ""
     ∧ (String.length (MessageButton.label b) ≤ 80)%nat
     ∧ (MessageButton.style b = "link" → MessageButton.url b ≠ "")) as Hiff.
  { unfold MessageButton.validate. cbv zeta.
    rewrite !append_if_app, !app_if_nil. simpl app.
    rewrite negb_false_iff, truthy_true, Nat.ltb_ge.
    destruct (String.eqb_spec (MessageButton.style b) "link") as [Hs|Hs]; simpl.
    - rewrite negb_false_iff, truthy_true. tauto.
    - tauto. }
  split; [exact Hiff|].
  intros Hv. apply Hiff in Hv as (Hl & _ & Hu).
  apply truthy_true in Hl.
  unfold MessageButton.to_dict. cbv zeta. split.
  - dict_lookup. rewrite lookup_if. dict_lookup. rewrite if_same.
    by rewrite Hl.
  - intros Hs. specialize (Hu Hs). apply truthy_true in Hu.
    rewrite Hs, Hu. simpl andb. cbv iota. split; by dict_lookup.
Qed.

Lemma button_validate_accepts_witness :
  MessageButton.to_dict Samples.link_button !! "label" = Some (JStr "Docs")
  ∧ MessageButton.to_dict Samples.link_button !! "style" = Some (JInt 5)
  ∧ MessageButton.to_dict Samples.link_button !! "url" = Some (JStr "https://x").
Proof.
  destruct (proj2 (button_validate_accepts Samples.link_button)) as [Hl Hs];
    [reflexivity|].
  split; [exact Hl|]. apply Hs. reflexivity.
Defined.

(** Settles [k ∈ keys] for a key [k] of a dictionary built by a
    sequence of assignments with literal keys: [H] says that [k] is
    bound. *)
Ltac key_cases k H :=
  repeat match goal with
         | |- k ∈ ?key :: _ =>
             destruct (decide (k = key)) as [->|?];
             [apply list_elem_of_here | apply list_elem_of_further]
         end;
  exfalso; dict_lookup_in H; try rewrite lookup_if in H; dict_lookup_in H;
  try rewrite if_same in H; by destruct H.

(** X3. The dictionary of a button has [type] 2 and a [style], holds
    either a [url] or a [custom_id] and never both, a [label] exactly
    when the label is not empty, [disabled] only with the value true,
    and no key beyond these and [emoji]. *)
Theorem button_to_dict_keys (b : MessageButton.t) :
  MessageButton.to_dict b !! "type" = Some (JInt 2)
  ∧ is_Some (MessageButton.to_dict b !! "style")
  ∧ (is_Some (MessageButton.to_dict b !! "url")
     ↔ MessageButton.to_dict b !! "custom_id" = None)
  ∧ MessageButton.to_dict b !! "label"
    = (if Py.truthy (MessageButton.label b)
       then Some (JStr (MessageButton.label b)) else None)
  ∧ MessageButton.to_dict b !! "disabled"
    = (if MessageButton.disabled b then Some (JBool true) else None)
  ∧ (∀ k, is_Some (MessageButton.to_dict b !! k) →
       k ∈ ["type"; "label"; "style"; "url"; "custom_id"; "emoji"; "disabled"]).
Proof.
  unfold MessageButton.to_dict. cbv zeta.
  split_and!.
  - dict_lookup. rewrite lookup_if. dict_lookup. by rewrite if_same.
  - dict_lookup. rewrite lookup_if. dict_lookup. by destruct (_ && _).
  - dict_lookup. rewrite !lookup_if. dict_lookup.
    destruct (_ && _); dict_lookup; split; try done; try by eexists.
    all: by intros [? ?].
  - dict_lookup. rewrite lookup_if. dict_lookup. by rewrite if_same.
  - dict_lookup. rewrite lookup_if. dict_lookup. by rewrite if_same.
  - intros k Hk. key_cases k Hk.
Qed.

(** X4. The dictionary of a select menu has [type] 3 and always the
    identifier [select_menu]; its [options] are those of the menu, in
    order, each with its [label] and [value] (empty or not), with
    [description] and [emoji] exactly when they are not empty and
    [default] only with the value true. [validate] reports nothing
    exactly when there are between 1 and 25 options, and never more
    than one violation. *)
Theorem select_menu_to_dict_and_validate (m : SelectMenu.t) :
  SelectMenu.to_dict m !! "type" = Some (JInt 3)
  ∧ SelectMenu.to_dict m !! "custom_id" = Some (JStr "select_menu")
  ∧ (∃ l, SelectMenu.to_dict m !! "options" = Some (JArr l)
          ∧ length l = length (SelectMenu.options m)
          ∧ ∀ i o, SelectMenu.options m !! i = Some o →
              ∃ d, l !! i = Some (JObj d)
                   ∧ d !! "label" = Some (JStr (SelectOption.label o))
                   ∧ d !! "value" = Some (JStr (SelectOption.value o))
                   ∧ d !! "description"
                     = (if Py.truthy (SelectOption.description o)
                        then Some (JStr (SelectOption.description o)) else None)
                   ∧ d !! "emoji"
                     = (if Py.truthy (SelectOption.emoji o)
                        then Some (JObj {["name" := JStr (SelectOption.emoji o)]})
                        else None)
                   ∧ d !! "default"
                     = (if SelectOption.default o then Some (JBool true) else None))
  ∧ (SelectMenu.validate m = []
     ↔ (1 ≤ length (SelectMenu.options m) ≤ 25)%nat)
  ∧ (length (SelectMenu.validate m) ≤ 1)%nat.
Proof.
  split_and!.
  - reflexivity.
  - reflexivity.
  - eexists. split; [unfold SelectMenu.to_dict; by rewrite lookup_insert_eq|].
    split; [by rewrite length_fmap|].
    intros i o Hi. eexists. rewrite list_lookup_fmap, Hi. split; [done|].
    unfold SelectOption.to_dict. cbv zeta. split_and!; by dict_lookup.
  - unfold SelectMenu.validate. cbv zeta. rewrite !append_if_app, !app_if_nil.
    simpl app. rewrite negb_false_iff, Nat.ltb_ge.
    destruct (SelectMenu.options m); simpl.
    + split; [by intros [[_ ?] _] | lia].
    + split; [lia | by intros [_ ?]].
  - unfold SelectMenu.validate. cbv zeta. rewrite !append_if_app.
    destruct (SelectMenu.options m) as [|o l]; simpl; [lia|].
    destruct (_ <? _)%nat; simpl; lia.
Qed.

(** ** Colours *)

Lemma int16_hash (s : string) : Py.int16 (String "#" s) = Raise ValueError.
Proof. by destruct s. Qed.

Lemma startswith_hash_inv (c : string) :
  Py.startswith c "#" = true → ∃ rest, c = String "#" rest.
Proof.
  destruct c as [|a rest]; [done|]. unfold Py.startswith. cbn [String.prefix].
  destruct (ascii_dec "#" a) as [<-|]; [intros _; by eexists | done].
Qed.

(** X5. A colour that [on_color_entry_change] accepts (the trimmed
    entry has seven characters, starts with [#], and [int(_, 16)] takes
    the rest) never makes [to_dict] raise: the embed is serialized with
    the number [int(_, 16)] gives. The number need not be a colour: a
    sign is accepted. *)
Theorem color_entry_accepted_serializes (entry c : string) (e : Embed.t)
    (now : string) :
  PremiumEmbedDesigner.on_color_entry_change entry = Some c →
  Embed.color e = c →
  c = Py.strip entry ∧ String.length c = 7%nat
  ∧ ∃ v d, Py.int16 (Py.drop_chars 1 c) = Ok v
           ∧ Embed.to_dict e now = Ok d ∧ d !! "color" = Some (JInt v).
Proof.
  unfold PremiumEmbedDesigner.on_color_entry_change. cbv zeta.
  destruct (Py.startswith (Py.strip entry) "#") eqn:Hp; [|done].
  destruct (String.length (Py.strip entry) =? 7)%nat eqn:Hl; [|done].
  simpl andb. cbv iota.
  destruct (Py.int16 _) as [v|] eqn:Hv; [|done].
  intros [= <-] Hc. split; [done|]. split; [by apply Nat.eqb_eq|].
  apply startswith_hash_inv in Hp as [rest Hrest].
  rewrite Hrest in Hv. simpl in Hv.
  exists v. unfold Embed.to_dict. cbv zeta. rewrite Hc, Hrest.
  assert (Py.lstrip_char "#" (String "#" rest) = rest) as ->.
  { simpl. destruct rest as [|a rest']; [done|]. simpl.
    destruct (Ascii.eqb_spec a "#") as [->|]; [|done].
    by rewrite int16_hash in Hv. }
  change (Py.truthy (String "#" rest)) with true.
  change (Py.startswith (String "#" rest) "#") with (Py.startswith ("#" +:+ rest) "#").
  rewrite startswith_hash. simpl Py.drop_chars. rewrite Hv.
  cbn [mbind result_bind].
  eexists. split; [done|]. split; [done|]. by dict_lookup.
Qed.

Lemma color_entry_accepted_serializes_witness :
  ∃ d, Embed.to_dict Samples.signed_colour Samples.now = Ok d
       ∧ d !! "color" = Some (JInt (-74565)).
Proof.
  destruct (color_entry_accepted_serializes " #-12345 " "#-12345"
              Samples.signed_colour Samples.now)
    as (_ & _ & v & d & Hv & Hd & Hc); [reflexivity | reflexivity |].
  exists d. split; [exact Hd|].
  vm_compute in Hv. injection Hv as <-. exact Hc.
Defined.

Lemma mem_spec (x : string) (l : list string) : Py.mem x l = true ↔ x ∈ l.
Proof.
  unfold Py.mem. rewrite existsb_exists. split.
  - intros (y & Hy & Heq). apply String.eqb_eq in Heq as ->.
    by apply list_elem_of_In.
  - intros Hx. exists x. split; [by apply list_elem_of_In | apply String.eqb_refl].
Qed.

Lemma remove_first_spec (x : string) (l : list string) :
  (∀ y, y ∈ Py.remove_first x l → y ∈ l)
  ∧ (∀ y, y ∈ l → y = x ∨ y ∈ Py.remove_first x l)
  ∧ (NoDup l → NoDup (Py.remove_first x l) ∧ x ∉ Py.remove_first x l)
  ∧ (x ∈ l → S (length (Py.remove_first x l)) = length l).
Proof.
  induction l as [|z l (IH1 & IH2 & IH3 & IH4)]; simpl.
  - split_and!.
    + done.
    + intros y Hy. by right.
    + intros _. split; [constructor | apply not_elem_of_nil].
    + by intros ?%not_elem_of_nil.
  - destruct (String.eqb_spec z x) as [->|Hne].
    + split_and!.
      * intros y Hy. by right.
      * intros y [Hy|Hy]%elem_of_cons; [by left | by right].
      * intros [Hx Hl]%NoDup_cons. done.
      * done.
    + split_and!.
      * intros y [Hy|Hy]%elem_of_cons; [subst; left | right; by apply IH1].
      * intros y [Hy|Hy]%elem_of_cons; [right; subst; left|].
        destruct (IH2 y Hy) as [?|?]; [by left | right; by right].
      * intros [Hz Hl]%NoDup_cons. destruct (IH3 Hl) as [Hnd Hx]. split.
        -- apply NoDup_cons. split; [|done]. intros Hin. by apply Hz, IH1.
        -- intros [Heq|Hin]%elem_of_cons; [congruence | by apply Hx].
      * intros [Heq|Hin]%elem_of_cons; [congruence|]. simpl. f_equal.
        by apply IH4.
Qed.

(** X6. After [add_color_to_history] the colour is first in the list of
    recent colours, the list has at most 10 entries, each of them the
    colour or one that was there before, and a list without repetitions
    stays without; a list that had fewer than 10 entries loses no
    colour. *)
Theorem color_history_invariant (color : string) (h : list string) :
  head (PremiumEmbedDesigner.add_color_to_history color h) = Some color
  ∧ (length (PremiumEmbedDesigner.add_color_to_history color h) ≤ 10)%nat
  ∧ (∀ c, c ∈ PremiumEmbedDesigner.add_color_to_history color h →
       c = color ∨ c ∈ h)
  ∧ (NoDup h → NoDup (PremiumEmbedDesigner.add_color_to_history color h))
  ∧ ((length h < 10)%nat →
     ∀ c, c ∈ h → c ∈ PremiumEmbedDesigner.add_color_to_history color h).
Proof.
  unfold PremiumEmbedDesigner.add_color_to_history. cbv zeta.
  destruct (remove_first_spec color h) as (Hsub & Hsup & Hnd & Hlen).
  set (h1 := if Py.mem color h then Py.remove_first color h else h).
  assert (∀ y, y ∈ h1 → y ∈ h) as H1.
  { unfold h1. destruct (Py.mem color h); [exact Hsub | done]. }
  assert (NoDup h → NoDup h1 ∧ color ∉ h1) as H2.
  { unfold h1. destruct (Py.mem color h) eqn:Hm; [exact Hnd|].
    intros Hh. split; [done|]. intros Hin. apply mem_spec in Hin. congruence. }
  assert (∀ y, y ∈ h → y = color ∨ y ∈ h1) as H3.
  { unfold h1. destruct (Py.mem color h); [exact Hsup | by right]. }
  assert (length h1 ≤ length h)%nat as H4.
  { unfold h1. destruct (Py.mem color h) eqn:Hm; [|done].
    apply mem_spec in Hm. specialize (Hlen Hm). lia. }
  clearbody h1. split_and!.
  - done.
  - rewrite length_take. lia.
  - intros c Hc. apply subseteq_take in Hc.
    apply elem_of_cons in Hc as [->|Hc]; [by left | right; by apply H1].
  - intros Hh. destruct (H2 Hh) as [Hn Hc].
    eapply sublist_NoDup; [|apply sublist_take].
    by apply NoDup_cons.
  - intros Hl c Hc. rewrite take_ge by (simpl; lia).
    destruct (H3 c Hc) as [->|?]; [by left | by right].
Qed.

Lemma color_history_invariant_witness :
  NoDup (PremiumEmbedDesigner.add_color_to_history "#ED4245" ["#5865F2"; "#ED4245"])
  ∧ "#5865F2"
    ∈ PremiumEmbedDesigner.add_color_to_history "#ED4245" ["#5865F2"; "#ED4245"].
Proof.
  destruct (color_history_invariant "#ED4245" ["#5865F2"; "#ED4245"])
    as (_ & _ & _ & Hnd & Hkeep).
  assert (NoDup ["#5865F2"; "#ED4245"]) as Hh.
  { apply (bool_decide_unpack _). by vm_compute. }
  split; [by apply Hnd|].
  apply Hkeep; [simpl; lia | by left].
Defined.

(** ** The form and the embed *)

Lemma lstrip_head (s : string) (c : ascii) (r : string) :
  Py.lstrip s = String c r → Py.is_space c = false.
Proof.
  induction s as [|a s IH]; simpl; [done|].
  destruct (Py.is_space a) eqn:Ha; [done|]. by intros [= <- _].
Qed.

Lemma rstrip_cons (c : ascii) (s : string) :
  Py.is_space c = false → Py.rstrip (String c s) = String c (Py.rstrip s).
Proof. intros Hc. simpl. rewrite Hc. by destruct (Py.rstrip s). Qed.

Lemma rstrip_idemp (s : string) : Py.rstrip (Py.rstrip s) = Py.rstrip s.
Proof.
  induction s as [|c s IH]; [done|]. simpl.
  destruct (Py.rstrip s) as [|a r] eqn:Hr.
  - destruct (Py.is_space c) eqn:Hc; [done|]. simpl. by rewrite Hc.
  - simpl. simpl in IH. by rewrite IH.
Qed.

Lemma strip_idemp (s : string) : Py.strip (Py.strip s) = Py.strip s.
Proof.
  unfold Py.strip. destruct (Py.lstrip s) as [|c t] eqn:Ht; [done|].
  pose proof (lstrip_head _ _ _ Ht) as Hc.
  rewrite (rstrip_cons c t Hc). simpl Py.lstrip. rewrite Hc.
  rewrite <- (rstrip_cons c t Hc). apply rstrip_idemp.
Qed.

Lemma or_else_truthy (x d : string) :
  Py.truthy d = true → Py.truthy (PremiumEmbedDesigner.or_else x d) = true.
Proof. unfold PremiumEmbedDesigner.or_else. by destruct (Py.truthy x) eqn:Hx. Qed.

(** X7. After [sync_embed_from_ui] the colour of the embed is never
    empty, so that every payload [to_dict] builds from it has a [color];
    a blank colour entry gives the default colour, 5793266. The list of
    fields is not touched. *)
Theorem sync_colour_never_empty (ui : PremiumEmbedDesigner.form)
    (self : PremiumEmbedDesigner.state) (now : string) :
  Embed.color (PremiumEmbedDesigner.current_embed
                 (PremiumEmbedDesigner.sync_embed_from_ui ui self)) ≠ ""
  ∧ Embed.fields (PremiumEmbedDesigner.current_embed
                    (PremiumEmbedDesigner.sync_embed_from_ui ui self))
    = Embed.fields (PremiumEmbedDesigner.current_embed self)
  ∧ (∀ d, Embed.to_dict (PremiumEmbedDesigner.current_embed
                           (PremiumEmbedDesigner.sync_embed_from_ui ui self)) now
          = Ok d → is_Some (d !! "color"))
  ∧ (Py.strip (PremiumEmbedDesigner.color_entry ui) = "" →
     ∃ d, Embed.to_dict (PremiumEmbedDesigner.current_embed
                           (PremiumEmbedDesigner.sync_embed_from_ui ui self)) now
          = Ok d ∧ d !! "color" = Some (JInt 5793266)).
Proof.
  assert (Py.truthy (Embed.color (PremiumEmbedDesigner.current_embed
            (PremiumEmbedDesigner.sync_embed_from_ui ui self))) = true) as Hc.
  { simpl. by apply or_else_truthy. }
  split_and!.
  - by apply truthy_true.
  - done.
  - intros d Hd. to_dict_inv Hd; try congruence; dict_lookup; by eexists.
  - intros Hblank.
    apply (to_dict_hex_color _ now "5865F2"); [|done].
    simpl. by rewrite Hblank.
Qed.

Lemma sync_colour_never_empty_witness :
  ∃ d, Embed.to_dict (PremiumEmbedDesigner.current_embed
                        (PremiumEmbedDesigner.sync_embed_from_ui
                           Samples.blank_form PremiumEmbedDesigner.init))
                     Samples.now = Ok d
       ∧ d !! "color" = Some (JInt 5793266).
Proof.
  apply (sync_colour_never_empty Samples.blank_form PremiumEmbedDesigner.init
           Samples.now).
  reflexivity.
Defined.

(** X8. Showing in the form an embed that [sync_embed_from_ui] produced
    and reading the form back gives the same embed: what
    [load_embed_to_ui] followed by the preview's [sync_embed_from_ui]
    leave is the embed that was restored. *)
Theorem sync_after_load_embed_to_ui (ui : PremiumEmbedDesigner.form)
    (self : PremiumEmbedDesigner.state) :
  PremiumEmbedDesigner.sync_embed_from_ui
    (PremiumEmbedDesigner.load_embed_to_ui
       (PremiumEmbedDesigner.current_embed
          (PremiumEmbedDesigner.sync_embed_from_ui ui self)))
    (PremiumEmbedDesigner.sync_embed_from_ui ui self)
  = PremiumEmbedDesigner.sync_embed_from_ui ui self.
Proof.
  unfold PremiumEmbedDesigner.sync_embed_from_ui,
    PremiumEmbedDesigner.load_embed_to_ui,
    PremiumEmbedDesigner.set_current_embed. simpl.
  rewrite !strip_idemp. f_equal. f_equal.
  unfold PremiumEmbedDesigner.or_else.
  destruct (Py.truthy (Py.strip (PremiumEmbedDesigner.color_entry ui))) eqn:Hc.
  - by rewrite strip_idemp, Hc.
  - done.
Qed.

(** ** Editing the fields *)

Section field_properties.

Import PremiumEmbedDesigner.

Lemma nonempty_false {A} (l : list A) : Py.nonempty l = false ↔ l = [].
Proof. by destruct l. Qed.

Lemma add_field_inv (en : field_entries) (fields fields' : list EmbedField.t)
    (ev : list event) :
  add_field en fields = (Some fields', ev) →
  fields' = fields ++ [entered en] ∧ field_ok (entered en) ∧ ev = [].
Proof.
  unfold add_field. cbv zeta. fold (entered en).
  destruct (negb (Py.truthy (Py.strip (f_name_entry en)))); [done|].
  destruct (negb (Py.truthy (Py.strip (f_value_text en)))); [done|].
  destruct (Py.nonempty _) eqn:He; [done|].
  apply nonempty_false, EmbedField_validate_nil in He.
  by intros [= <- <-].
Qed.

Lemma save_field_inv (index : nat) (en : field_entries)
    (fields fields' : list EmbedField.t) (ev : list event) :
  save_field index en fields = (Some fields', ev) →
  fields' = <[index := entered en]> fields ∧ field_ok (entered en) ∧ ev = [].
Proof.
  unfold save_field. cbv zeta. fold (entered en).
  destruct (negb (Py.truthy (Py.strip (f_name_entry en)))
            || negb (Py.truthy (Py.strip (f_value_text en)))); [done|].
  destruct (Py.nonempty _) eqn:He; [done|].
  apply nonempty_false, EmbedField_validate_nil in He.
  by intros [= <- <-].
Qed.

(** The list a dialog leaves is the one it found or the one its
    callback made from one of the presses. *)
Lemma field_dialog_inv
    (callback : field_entries → list EmbedField.t
                → option (list EmbedField.t) * list event)
    (presses : list field_entries) (fields : list EmbedField.t) :
  (field_dialog callback presses fields).1 = fields
  ∨ ∃ en ev, en ∈ presses
             ∧ callback en fields
               = (Some (field_dialog callback presses fields).1, ev).
Proof.
  induction presses as [|en presses IH]; simpl; [by left|].
  destruct (callback en fields) as [[fields'|] ev] eqn:Hc; simpl.
  - right. exists en, ev. split; [by left | done].
  - destruct (field_dialog callback presses fields) as [fields' ev'] eqn:Hd.
    simpl in *. destruct IH as [->|(en' & ev'' & Hin & Hen)]; [by left|].
    right. exists en', ev''. split; [by right | done].
Qed.

Lemma swap_items_inv {A} (i j : nat) (l l' : list A) :
  swap_items i j l = Some l' →
  ∃ x y, l !! i = Some x ∧ l !! j = Some y ∧ l' = <[j := x]> (<[i := y]> l).
Proof.
  unfold swap_items. destruct (l !! j) as [y|]; [|done].
  destruct (l !! i) as [x|]; [|done]. intros [= <-]. by exists x, y.
Qed.

Lemma swap_items_ok (i j : nat) (l l' : list EmbedField.t) :
  swap_items i j l = Some l' → l' ≡ₚ l.
Proof.
  intros (x & y & Hx & Hy & ->)%swap_items_inv.
  by apply Permutation_insert_swap.
Qed.

Lemma fields_ok_perm (l l' : list EmbedField.t) :
  l' ≡ₚ l → fields_ok l → fields_ok l'.
Proof.
  intros Hp [Hlen Hall]. split.
  - by rewrite Hp.
  - by rewrite Hp.
Qed.

(** X9. The field dialogs and buttons keep the list of fields within
    what [validate] accepts: from a list of at most 25 accepted fields,
    [add_field_dialog], [edit_field_dialog], [delete_field],
    [move_field_up] and [move_field_down] each give such a list
    again. *)
Theorem field_edits_keep_fields_valid (fields : list EmbedField.t) :
  fields_ok fields →
  (∀ presses, fields_ok (add_field_dialog presses fields).1)
  ∧ (∀ index presses r,
       edit_field_dialog index presses fields = Some r → fields_ok r.1)
  ∧ (∀ index answer fs,
       delete_field index answer fields = Some fs → fields_ok fs)
  ∧ (∀ index fs, move_field_up index fields = Some fs → fields_ok fs)
  ∧ (∀ index fs, move_field_down index fields = Some fs → fields_ok fs).
Proof.
  intros Hok. pose proof Hok as [Hlen Hall]. split_and!.
  - intros presses. unfold add_field_dialog.
    destruct (MAX_FIELDS <=? length fields)%nat eqn:Hfull; [done|].
    apply Nat.leb_gt in Hfull.
    destruct (field_dialog_inv add_field presses fields)
      as [->|(en & ev & _ & Hen)]; [done|].
    apply add_field_inv in Hen as (-> & Hf & _). split.
    + rewrite length_app. simpl. lia.
    + apply Forall_app. split; [done | by constructor].
  - intros index presses r. unfold edit_field_dialog.
    destruct (fields !! index); [|done]. intros [= <-].
    destruct (field_dialog_inv (save_field index) presses fields)
      as [->|(en & ev & _ & Hen)]; [done|].
    apply save_field_inv in Hen as (-> & Hf & _). split.
    + by rewrite length_insert.
    + by apply Forall_insert.
  - intros index answer fs. unfold delete_field.
    destruct answer; [|by intros [= <-]].
    destruct (fields !! index) eqn:Hi; [|done]. intros [= <-]. split.
    + rewrite length_delete by done. lia.
    + by apply Forall_delete.
  - intros index fs. unfold move_field_up.
    destruct (0 <? index)%nat; [|by intros [= <-]].
    intros Hs%swap_items_ok. by apply (fields_ok_perm fields).
  - intros index fs. unfold move_field_down.
    destruct (index <? length fields - 1)%nat; [|by intros [= <-]].
    intros Hs%swap_items_ok. by apply (fields_ok_perm fields).
Qed.

Lemma field_ok_entered (en : field_entries) :
  field_ok (entered en) →
  Py.truthy (Py.strip (f_name_entry en)) = true
  ∧ Py.truthy (Py.strip (f_value_text en)) = true
  ∧ Py.nonempty (EmbedField.validate (entered en)) = false.
Proof.
  intros Hok. pose proof Hok as (Hn & _ & Hv & _). simpl in Hn, Hv.
  rewrite strip_idemp in Hn, Hv. apply truthy_true in Hn, Hv.
  apply EmbedField_validate_nil in Hok. by rewrite Hok.
Qed.

Lemma not_field_ok_entered (en : field_entries) :
  ¬ field_ok (entered en) →
  Py.truthy (Py.strip (f_name_entry en)) = false
  ∨ Py.truthy (Py.strip (f_value_text en)) = false
  ∨ Py.nonempty (EmbedField.validate (entered en)) = true.
Proof.
  intros Hno.
  destruct (Py.truthy (Py.strip (f_name_entry en))); [|by left].
  destruct (Py.truthy (Py.strip (f_value_text en))); [|by right; left].
  right. right.
  destruct (EmbedField.validate (entered en)) eqn:He; [|done].
  by apply EmbedField_validate_nil in He.
Qed.

(** A dialog whose callback takes a press exactly when the field made
    from it is accepted, and shows one box otherwise, takes the first
    accepted press. *)
Lemma field_dialog_first
    (callback : field_entries → list EmbedField.t
                → option (list EmbedField.t) * list event)
    (change : field_entries → list EmbedField.t)
    (fields : list EmbedField.t) :
  (∀ en, field_ok (entered en) → callback en fields = (Some (change en), [])) →
  (∀ en, ¬ field_ok (entered en) → ∃ box, callback en fields = (None, [box])) →
  ∀ refused,
    Forall (λ en, ¬ field_ok (entered en)) refused →
    (∃ boxes, field_dialog callback refused fields = (fields, boxes)
              ∧ length boxes = length refused)
    ∧ ∀ en rest, field_ok (entered en) →
        ∃ boxes, field_dialog callback (refused ++ en :: rest) fields
                 = (change en, boxes)
                 ∧ length boxes = length refused.
Proof.
  intros Hyes Hno refused Href.
  induction Href as [|en' refused Hen' _ [(boxes0 & IH0 & Hlen0) IH]].
  - split; [by exists []|]. intros en rest Hen. exists []. simpl.
    by rewrite (Hyes en Hen).
  - destruct (Hno en' Hen') as [box Hbox]. split.
    + exists (box :: boxes0). simpl. rewrite Hbox, IH0. simpl. by rewrite Hlen0.
    + intros en rest Hen. destruct (IH en rest Hen) as (boxes & Hd & Hlen).
      exists (box :: boxes). simpl. rewrite Hbox, Hd. simpl. by rewrite Hlen.
Qed.

Lemma add_field_spec (fields : list EmbedField.t) :
  (∀ en, field_ok (entered en) →
     add_field en fields = (Some (fields ++ [entered en]), []))
  ∧ (∀ en, ¬ field_ok (entered en) → ∃ box, add_field en fields = (None, [box])).
Proof.
  split; intros en Hen; unfold add_field; cbv zeta; fold (entered en).
  - apply field_ok_entered in Hen as (-> & -> & ->). done.
  - apply not_field_ok_entered in Hen.
    destruct (Py.truthy (Py.strip (f_name_entry en))); [|by eexists].
    destruct (Py.truthy (Py.strip (f_value_text en))); [|by eexists].
    destruct Hen as [?|[?|Hv]]; [done..|]. rewrite Hv. by eexists.
Qed.

Lemma save_field_spec (index : nat) (fields : list EmbedField.t) :
  (∀ en, field_ok (entered en) →
     save_field index en fields = (Some (<[index := entered en]> fields), []))
  ∧ (∀ en, ¬ field_ok (entered en) →
       ∃ box, save_field index en fields = (None, [box])).
Proof.
  split; intros en Hen; unfold save_field; cbv zeta; fold (entered en).
  - apply field_ok_entered in Hen as (-> & -> & ->). done.
  - apply not_field_ok_entered in Hen.
    destruct (Py.truthy (Py.strip (f_name_entry en))); [|by eexists].
    destruct (Py.truthy (Py.strip (f_value_text en))); [|by eexists].
    destruct Hen as [?|[?|Hv]]; [done..|]. rewrite Hv. by eexists.
Qed.

(** X10. The field dialogs take the first press whose field is
    accepted. When the presses before it are refused (blank name or
    value after trimming, or one of them over its limit) each shows one
    box, and then [add_field_dialog], on a list of fewer than 25
    fields, appends the field made of the trimmed name and value and
    the inline flag of that press, and [edit_field_dialog] puts it at
    the position in place of the field there; later presses play no
    part. A list of 25 fields is not added to, a position past the end
    raises [IndexError], and when every press is refused the list is as
    it was. *)
Theorem field_dialogs_change_one_field (refused : list field_entries)
    (en : field_entries) (rest : list field_entries)
    (fields : list EmbedField.t) :
  Forall (λ en', ¬ field_ok (entered en')) refused →
  field_ok (entered en) →
  ((length fields < MAX_FIELDS)%nat →
   ∃ boxes, add_field_dialog (refused ++ en :: rest) fields
            = (fields ++ [entered en], boxes)
            ∧ length boxes = length refused)
  ∧ ((MAX_FIELDS ≤ length fields)%nat →
     (add_field_dialog (refused ++ en :: rest) fields).1 = fields)
  ∧ (∀ index, (index < length fields)%nat →
       ∃ boxes, edit_field_dialog index (refused ++ en :: rest) fields
                = Some (<[index := entered en]> fields, boxes)
                ∧ length boxes = length refused)
  ∧ (∀ index, (length fields ≤ index)%nat →
       edit_field_dialog index (refused ++ en :: rest) fields = None)
  ∧ (add_field_dialog refused fields).1 = fields
  ∧ (∀ index r, edit_field_dialog index refused fields = Some r → r.1 = fields).
Proof.
  intros Href Hen. split_and!.
  - intros Hlen. unfold add_field_dialog.
    replace (MAX_FIELDS <=? length fields)%nat with false
      by (symmetry; apply Nat.leb_gt; lia).
    destruct (add_field_spec fields) as [Hyes Hno].
    by apply (field_dialog_first add_field (λ en, fields ++ [entered en])).
  - intros Hlen. unfold add_field_dialog.
    by replace (MAX_FIELDS <=? length fields)%nat with true
      by (symmetry; apply Nat.leb_le; lia).
  - intros index Hi. unfold edit_field_dialog.
    destruct (lookup_lt_is_Some_2 fields index Hi) as [f ->].
    destruct (save_field_spec index fields) as [Hyes Hno].
    destruct (field_dialog_first (save_field index)
                (λ en, <[index := entered en]> fields) fields Hyes Hno
                refused Href) as [_ Hfirst].
    destruct (Hfirst en rest Hen) as (boxes & -> & Hlen). by exists boxes.
  - intros index Hi. unfold edit_field_dialog.
    by rewrite (proj2 (lookup_ge_None _ _) Hi).
  - unfold add_field_dialog.
    destruct (MAX_FIELDS <=? length fields)%nat; [done|].
    destruct (add_field_spec fields) as [Hyes Hno].
    destruct (field_dialog_first add_field (λ en, fields ++ [entered en])
                fields Hyes Hno refused Href) as [(boxes & -> & _) _]. done.
  - intros index r. unfold edit_field_dialog.
    destruct (fields !! index); [|done]. intros [= <-].
    destruct (save_field_spec index fields) as [Hyes Hno].
    destruct (field_dialog_first (save_field index)
                (λ en, <[index := entered en]> fields) fields Hyes Hno
                refused Href) as [(boxes & -> & _) _]. done.
Qed.

(** X11. [move_field_up] and [move_field_down] permute the fields.
    Moving the field at a position between the second and the last up
    exchanges it with the one before, and moving it down again from
    there restores the list. The first field is not moved up and the
    last not down; moving up from a position past the end raises
    [IndexError], moving down from there does nothing. *)
Theorem move_field_swaps (index : nat) (fields : list EmbedField.t) :
  (∀ fs, move_field_up index fields = Some fs → fs ≡ₚ fields)
  ∧ (∀ fs, move_field_down index fields = Some fs → fs ≡ₚ fields)
  ∧ ((0 < index < length fields)%nat →
     ∃ fs, move_field_up index fields = Some fs
           ∧ fs !! (index - 1)%nat = fields !! index
           ∧ fs !! index = fields !! (index - 1)%nat
           ∧ (∀ k, k ≠ index → k ≠ (index - 1)%nat → fs !! k = fields !! k)
           ∧ move_field_down (index - 1) fs = Some fields)
  ∧ move_field_up 0 fields = Some fields
  ∧ move_field_down (length fields - 1) fields = Some fields
  ∧ ((length fields ≤ index)%nat →
     (index ≠ 0%nat → move_field_up index fields = None)
     ∧ move_field_down index fields = Some fields).
Proof.
  split_and!.
  - intros fs. unfold move_field_up.
    destruct (0 <? index)%nat; [apply swap_items_ok | by intros [= <-]].
  - intros fs. unfold move_field_down.
    destruct (index <? length fields - 1)%nat;
      [apply swap_items_ok | by intros [= <-]].
  - intros [Hpos Hlt].
    destruct index as [|j]; [lia|]. replace (S j - 1)%nat with j by lia.
    destruct (lookup_lt_is_Some_2 fields (S j) Hlt) as [x Hx].
    destruct (lookup_lt_is_Some_2 fields j ltac:(lia)) as [y Hy].
    exists (<[j := x]> (<[S j := y]> fields)).
    assert (<[j := x]> (<[S j := y]> fields) !! j = Some x) as Hj.
    { apply list_lookup_insert_eq. rewrite length_insert. lia. }
    assert (<[j := x]> (<[S j := y]> fields) !! S j = Some y) as HSj.
    { rewrite list_lookup_insert_ne by lia. by apply list_lookup_insert_eq. }
    split_and!.
    + unfold move_field_up, swap_items. simpl.
      replace (j - 0)%nat with j by lia. by rewrite Hx, Hy.
    + by rewrite Hj.
    + by rewrite HSj.
    + intros k Hk1 Hk2. by rewrite !list_lookup_insert_ne by lia.
    + unfold move_field_down, swap_items. rewrite !length_insert.
      replace (j <? length fields - 1)%nat with true
        by (symmetry; apply Nat.ltb_lt; lia).
      replace (j + 1)%nat with (S j) by lia. rewrite HSj, Hj. f_equal.
      apply list_eq. intros k.
      destruct (decide (k = S j)) as [->|Hk1].
      * rewrite list_lookup_insert_eq by (rewrite !length_insert; lia). done.
      * rewrite list_lookup_insert_ne by done.
        destruct (decide (k = j)) as [->|Hk2].
        -- rewrite list_lookup_insert_eq by (rewrite !length_insert; lia). done.
        -- by rewrite !list_lookup_insert_ne by done.
  - done.
  - unfold move_field_down. by rewrite Nat.ltb_irrefl.
  - intros Hi. split.
    + intros Hn. unfold move_field_up, swap_items.
      replace (0 <? index)%nat with true by (symmetry; apply Nat.ltb_lt; lia).
      rewrite (proj2 (lookup_ge_None fields index) Hi).
      by destruct (fields !! (index - 1)%nat).
    + unfold move_field_down.
      by replace (index <? length fields - 1)%nat with false
        by (symmetry; apply Nat.ltb_ge; lia).
Qed.

End field_properties.

Lemma field_edits_keep_fields_valid_witness :
  fields_ok (PremiumEmbedDesigner.add_field_dialog Samples.two_presses
               Samples.three_fields).1
  ∧ fields_ok (delete 1%nat Samples.three_fields).
Proof.
  assert (fields_ok Samples.three_fields) as Hok.
  { split; [vm_compute; lia|].
    repeat constructor; vm_compute; congruence || lia. }
  destruct (field_edits_keep_fields_valid Samples.three_fields Hok)
    as (Hadd & _ & Hdel & _).
  split; [apply Hadd|].
  apply (Hdel 1%nat true). reflexivity.
Defined.

Lemma field_dialogs_change_one_field_witness :
  (PremiumEmbedDesigner.add_field_dialog Samples.two_presses Samples.three_fields).1
  = Samples.three_fields ++ [EmbedField.mk "D" "4" false]
  ∧ (∃ boxes,
       PremiumEmbedDesigner.edit_field_dialog 1 Samples.two_presses
         Samples.three_fields
       = Some ([EmbedField.mk "A" "1" false; EmbedField.mk "D" "4" false;
                EmbedField.mk "C" "3" true], boxes)
       ∧ length boxes = 1%nat)
  ∧ PremiumEmbedDesigner.edit_field_dialog 3 Samples.two_presses
      Samples.three_fields = None.
Proof.
  destruct (field_dialogs_change_one_field
              [PremiumEmbedDesigner.mk_field_entries "  " "4" false]
              (PremiumEmbedDesigner.mk_field_entries " D " "4" false) []
              Samples.three_fields)
    as (Hadd & _ & Hedit & Hpast & _).
  - repeat constructor. intros (Hn & _). by vm_compute in Hn.
  - repeat split; vm_compute; congruence || lia.
  - split; [|split].
    + destruct Hadd as (boxes & Hd & _); [vm_compute; lia|].
      change (PremiumEmbedDesigner.add_field_dialog Samples.two_presses
                Samples.three_fields)
        with (PremiumEmbedDesigner.add_field_dialog
                ([PremiumEmbedDesigner.mk_field_entries "  " "4" false]
                 ++ [PremiumEmbedDesigner.mk_field_entries " D " "4" false])
                Samples.three_fields).
      by rewrite Hd.
    + apply (Hedit 1%nat). vm_compute. lia.
    + apply (Hpast 3%nat). vm_compute. lia.
Defined.

Lemma move_field_swaps_witness :
  ∃ fs, PremiumEmbedDesigner.move_field_up 2 Samples.three_fields = Some fs
        ∧ fs !! 1%nat = Some (EmbedField.mk "C" "3" true)
        ∧ PremiumEmbedDesigner.move_field_down 1 fs = Some Samples.three_fields.
Proof.
  destruct (move_field_swaps 2 Samples.three_fields)
    as (_ & _ & Hswap & _).
  destruct Hswap as (fs & Hup & H1 & _ & _ & Hdown); [vm_compute; lia|].
  exists fs. split; [exact Hup|]. split; [exact H1 | exact Hdown].
Defined.

(** ** The history across restarts *)

Section history_properties.

Import PremiumEmbedDesigner.

Lemma load_items_Forall2 (items : list json) :
  ∀ acc h, load_items items acc = Ok h →
    ∃ h', h = acc ++ h' ∧ Forall2 (λ item e, load_item item = Ok e) items h'.
Proof.
  induction items as [|item items IH]; intros acc h; simpl.
  - intros [= <-]. exists []. by rewrite app_nil_r.
  - destruct (load_item item) as [e|] eqn:He; [|done]. simpl.
    intros (h' & -> & Hall)%IH. exists (e :: h').
    rewrite <- app_assoc. split; [done | by constructor].
Qed.

(** X12. [load_history] takes all of the file or nothing. When the file
    is there and the history loaded from it is not empty, the file
    holds a JSON list and the history has one embed for every item of
    it, in order, each decoded from its item; whatever was in the
    history before is gone. *)
Theorem load_history_all_or_nothing (self : state) (data : json) :
  history_file self = Stored data →
  history (load_history self) ≠ [] →
  ∃ items, data = JArr items
           ∧ Forall2 (λ item e, load_item item = Ok e)
                     items (history (load_history self)).
Proof.
  intros Hfile. unfold load_history. rewrite Hfile.
  destruct data as [| | | |s|items|m]; simpl; try done.
  - by destruct (String.list_ascii_of_string s) as [|c cs].
  - destruct (load_items items []) as [h|] eqn:Hh; simpl; [|done].
    intros _. exists items. split; [done|].
    by apply load_items_Forall2 in Hh as (h' & -> & Hall).
  - by destruct (map_to_list m).*1 as [|k ks].
Qed.

Lemma last_n_idemp {A} (n : nat) (l : list A) :
  Py.last_n n (Py.last_n n l) = Py.last_n n l.
Proof.
  unfold Py.last_n at 1. rewrite length_last_n.
  replace (length l `min` n - n)%nat with 0%nat by lia. done.
Qed.

(** What [load_history] makes of a file written by [save_history],
    whatever the state it is loaded into. *)
Lemma load_history_of_saved (h : list Embed.obj) (other : state) :
  history_file other = Stored (history_document h) →
  history (load_history other) = Py.last_n 50 h.
Proof.
  intros Hfile. unfold load_history. rewrite Hfile.
  unfold history_document. simpl. by rewrite load_items_asdict.
Qed.

(** X13. Restarting keeps what the history file holds. Whatever the
    state it is loaded into, [load_history] of a file written by
    [save_history] gives the last 50 entries of the history that was
    saved, and saving again leaves the file as it is. After
    [clear_history] has been confirmed the file holds the empty list,
    and loading it gives an empty history; when it is declined nothing
    changes and nothing is shown. *)
Theorem history_survives_restart (self other : state) :
  history_file other = history_file (save_history self) →
  history (load_history other) = Py.last_n 50 (history self)
  ∧ history_file (save_history (load_history other)) = history_file other
  ∧ history_file (clear_history true self).1 = Stored (JArr [])
  ∧ (∀ fresh, history_file fresh = history_file (clear_history true self).1 →
       history (load_history fresh) = [])
  ∧ clear_history false self = (self, []).
Proof.
  intros Hfile. split_and!.
  - by apply load_history_of_saved.
  - unfold save_history at 1. simpl.
    rewrite (load_history_of_saved (history self) other Hfile), Hfile.
    unfold history_document. by rewrite last_n_idemp.
  - reflexivity.
  - intros fresh Hfresh. by apply (load_history_of_saved [] fresh).
  - reflexivity.
Qed.

Lemma reverse_lookup_rev {A} (l : list A) (i : nat) :
  (i < length l)%nat → reverse l !! i = l !! (length l - 1 - i)%nat.
Proof.
  intros Hi. rewrite reverse_lookup by done. f_equal. lia.
Qed.

(** X14. [show_history] makes a card for the 20 most recent entries of
    the history, or for all when there are fewer, the most recent
    first: card [i] shows the entry [i] places before the last one. *)
Theorem history_cards_recent_first (self : state) :
  length (history_cards self) = Nat.min (length (history self)) 20
  ∧ ∀ i, (i < length (history_cards self))%nat →
      history_cards self !! i
      = history self !! (length (history self) - 1 - i)%nat.
Proof.
  unfold history_cards.
  assert (length (reverse (Py.last_n 20 (history self)))
          = Nat.min (length (history self)) 20) as Hlen.
  { by rewrite length_reverse, length_last_n. }
  split; [done|].
  intros i Hi. rewrite Hlen in Hi.
  rewrite reverse_lookup_rev by (rewrite length_last_n; lia).
  rewrite length_last_n. unfold Py.last_n. rewrite lookup_drop. f_equal. lia.
Qed.

End history_properties.

Lemma history_survives_restart_witness :
  PremiumEmbedDesigner.history
    (PremiumEmbedDesigner.load_history
       (PremiumEmbedDesigner.set_history_file
          (PremiumEmbedDesigner.history_file
             (PremiumEmbedDesigner.save_history
                (PremiumEmbedDesigner.set_history
                   (replicate 51 (Embed.to_obj Samples.full))
                   PremiumEmbedDesigner.init)))
          PremiumEmbedDesigner.init))
  = replicate 50 (Embed.to_obj Samples.full).
Proof.
  destruct (history_survives_restart
              (PremiumEmbedDesigner.set_history
                 (replicate 51 (Embed.to_obj Samples.full))
                 PremiumEmbedDesigner.init)
              (PremiumEmbedDesigner.set_history_file
                 (PremiumEmbedDesigner.history_file
                    (PremiumEmbedDesigner.save_history
                       (PremiumEmbedDesigner.set_history
                          (replicate 51 (Embed.to_obj Samples.full))
                          PremiumEmbedDesigner.init)))
                 PremiumEmbedDesigner.init))
    as [Hload _]; [reflexivity|].
  rewrite Hload. reflexivity.
Defined.

Lemma load_history_all_or_nothing_witness :
  ∃ items,
    JArr [Samples.sparse_document] = JArr items
    ∧ Forall2 (λ item e, PremiumEmbedDesigner.load_item item = Ok e) items
        (PremiumEmbedDesigner.history
           (PremiumEmbedDesigner.load_history
              (PremiumEmbedDesigner.set_history_file
                 (PremiumEmbedDesigner.Stored (JArr [Samples.sparse_document]))
                 PremiumEmbedDesigner.init))).
Proof.
  apply load_history_all_or_nothing; [reflexivity|].
  vm_compute. discriminate.
Defined.

Lemma history_cards_recent_first_witness :
  PremiumEmbedDesigner.history_cards
    (PremiumEmbedDesigner.set_history
       [Embed.to_obj Samples.full; Embed.to_obj Embed.fresh]
       PremiumEmbedDesigner.init) !! 0%nat
  = Some (Embed.to_obj Embed.fresh).
Proof.
  rewrite (proj2 (history_cards_recent_first _)) by (vm_compute; lia).
  reflexivity.
Defined.

(** ** What [to_dict] emits, and when it raises *)

Lemma http_url_truthy (s : string) :
  http_url s → Py.truthy s && Embed.is_http s = true.
Proof.
  intros Hs. rewrite (proj2 (is_http_spec s) Hs), andb_true_r.
  destruct s; [|done]. by destruct Hs.
Qed.

(** X15. What [to_dict] puts in. A title and a description that are
    not empty are there as they are; [url], [thumbnail] and [image]
    when they start with [http://] or [https://]; [footer] and [author]
    objects with the text or name that is not empty and the icon and
    URL that start so; [timestamp], when ticked, with the time of the
    call; and under [fields] every field of the embed, however many, in
    order, each with [name], [value] and [inline]. There is no other
    key than these and [color]. *)
Theorem to_dict_emits (e : Embed.t) (now : string) (d : gmap string json) :
  Embed.to_dict e now = Ok d →
  (Embed.title e ≠ "" → d !! "title" = Some (JStr (Embed.title e)))
  ∧ (Embed.description e ≠ "" →
     d !! "description" = Some (JStr (Embed.description e)))
  ∧ (http_url (Embed.url e) → d !! "url" = Some (JStr (Embed.url e)))
  ∧ (Embed.footer e ≠ "" →
     ∃ m, d !! "footer" = Some (JObj m)
          ∧ m !! "text" = Some (JStr (Embed.footer e))
          ∧ (http_url (Embed.footer_icon e) →
             m !! "icon_url" = Some (JStr (Embed.footer_icon e))))
  ∧ (Embed.author e ≠ "" →
     ∃ m, d !! "author" = Some (JObj m)
          ∧ m !! "name" = Some (JStr (Embed.author e))
          ∧ (http_url (Embed.author_icon e) →
             m !! "icon_url" = Some (JStr (Embed.author_icon e)))
          ∧ (http_url (Embed.author_url e) →
             m !! "url" = Some (JStr (Embed.author_url e))))
  ∧ (http_url (Embed.thumbnail e) →
     d !! "thumbnail" = Some (JObj {["url" := JStr (Embed.thumbnail e)]}))
  ∧ (http_url (Embed.image e) →
     d !! "image" = Some (JObj {["url" := JStr (Embed.image e)]}))
  ∧ (Embed.timestamp e = true → d !! "timestamp" = Some (JStr now))
  ∧ (Embed.fields e ≠ [] →
     ∃ l, d !! "fields" = Some (JArr l)
          ∧ length l = length (Embed.fields e)
          ∧ ∀ i f, Embed.fields e !! i = Some f →
              ∃ m, l !! i = Some (JObj m)
                   ∧ m !! "name" = Some (JStr (EmbedField.name f))
                   ∧ m !! "value" = Some (JStr (EmbedField.value f))
                   ∧ m !! "inline" = Some (JBool (EmbedField.inline f)))
  ∧ (∀ k, is_Some (d !! k) →
       k ∈ ["title"; "description"; "url"; "color"; "footer"; "author";
            "thumbnail"; "image"; "timestamp"; "fields"]).
Proof.
  intros H. split_and!.
  - intros Hn%truthy_true. to_dict_inv H; dict_lookup; by rewrite Hn.
  - intros Hn%truthy_true. to_dict_inv H; dict_lookup; by rewrite Hn.
  - intros Hn%http_url_truthy. to_dict_inv H; dict_lookup; by rewrite Hn.
  - intros Hn%truthy_true. eexists.
    split; [to_dict_inv H; dict_lookup; rewrite Hn; reflexivity|].
    split; [by dict_lookup|].
    intros Hi%http_url_truthy. dict_lookup. by rewrite Hi.
  - intros Hn%truthy_true. eexists.
    split; [to_dict_inv H; dict_lookup; rewrite Hn; reflexivity|].
    split_and!.
    + by dict_lookup.
    + intros Hi%http_url_truthy. dict_lookup. by rewrite Hi.
    + intros Hi%http_url_truthy. dict_lookup. by rewrite Hi.
  - intros Hn%http_url_truthy. to_dict_inv H; dict_lookup; by rewrite Hn.
  - intros Hn%http_url_truthy. to_dict_inv H; dict_lookup; by rewrite Hn.
  - intros Hn. to_dict_inv H; dict_lookup; by rewrite Hn.
  - intros Hn. exists (Embed.field_to_dict <$> Embed.fields e). split_and!.
    + assert (Py.nonempty (Embed.fields e) = true) as Hne
        by (by destruct (Embed.fields e)).
      to_dict_inv H; dict_lookup; by rewrite Hne.
    + by rewrite length_fmap.
    + intros i f Hi. rewrite list_lookup_fmap, Hi. eexists. split; [done|].
      split_and!; by dict_lookup.
  - intros k Hk. to_dict_inv H; key_cases k Hk.
Qed.

Lemma to_dict_emits_witness :
  ∃ d, Embed.to_dict Samples.complete Samples.now = Ok d
       ∧ d !! "title" = Some (JStr "Hi")
       ∧ d !! "thumbnail" = Some (JObj {["url" := JStr "https://t"]})
       ∧ d !! "timestamp" = Some (JStr Samples.now).
Proof.
  destruct (Embed.to_dict Samples.complete Samples.now) as [d|] eqn:Hd;
    [|by vm_compute in Hd].
  exists d. split; [done|].
  destruct (to_dict_emits _ _ _ Hd)
    as (Htitle & _ & _ & _ & _ & Hthumb & _ & Htime & _).
  split; [by apply Htitle|]. split; [|by apply Htime].
  apply Hthumb. right. reflexivity.
Defined.

Lemma int16_raises (s : string) (x : exn) : Py.int16 s = Raise x → x = ValueError.
Proof.
  unfold Py.int16.
  repeat (case_match; try done); intros [= <-]; done.
Qed.


Lemma int_literal_char_spec (c : ascii) :
  Py.is_int_space c
  || match Py.digit_value16 c with Some _ => true | None => false end
  || Py.is_underscore c || Ascii.eqb c "+" || Ascii.eqb c "-"
  || Ascii.eqb c "x" || Ascii.eqb c "X" = true →
  int_literal_char c = true.
Proof. destruct c as [[] [] [] [] [] [] [] []]; vm_compute; done. Qed.

Lemma skip_int_space_chars (s : string) :
  all_chars int_literal_char (Py.skip_int_space s) = true →
  all_chars int_literal_char s = true.
Proof.
  induction s as [|c s IH]; simpl; [done|].
  destruct (Py.is_int_space c) eqn:Hc; [|done].
  intros Hs. rewrite (IH Hs), andb_true_r.
  apply int_literal_char_spec. by rewrite Hc.
Qed.

Lemma skip_int_space_empty (s : string) :
  Py.skip_int_space s = "" → all_chars int_literal_char s = true.
Proof. intros Hs. apply skip_int_space_chars. by rewrite Hs. Qed.

Lemma long_from_binary_base_chars (s : string) :
  ∀ prev acc n z m rest,
    Py.long_from_binary_base prev acc n s = Some (z, m, rest) →
    all_chars int_literal_char rest = true →
    all_chars int_literal_char s = true.
Proof.
  induction s as [|c s IH]; intros prev acc n z m rest; simpl.
  - destruct (Py.is_underscore prev); [done|]. by intros [= _ _ <-].
  - destruct (Py.is_underscore c) eqn:Hu.
    + destruct (Py.is_underscore prev); [done|].
      intros Hl Hrest. rewrite (IH _ _ _ _ _ _ Hl Hrest), andb_true_r.
      apply int_literal_char_spec. rewrite Hu. by rewrite !orb_true_r.
    + destruct (Py.digit_value16 c) as [d|] eqn:Hd.
      * intros Hl Hrest. rewrite (IH _ _ _ _ _ _ Hl Hrest), andb_true_r.
        apply int_literal_char_spec. rewrite Hd. by rewrite !orb_true_r.
      * destruct (Py.is_underscore prev); [done|].
        intros [= _ _ <-]. done.
Qed.

(** Every character of a text that [int(_, 16)] accepts can be part
    of a number. *)
Lemma int16_chars (s : string) (v : Z) :
  Py.int16 s = Ok v → all_chars int_literal_char s = true.
Proof.
  unfold Py.int16. intros H. apply skip_int_space_chars.
  destruct (Py.skip_int_space s) as [|c s1]; [done|].
  assert (∀ sign t,
    (let s :=
       match t with
       | String c0 (String c1 s') =>
           if Ascii.eqb c0 "0" && (Ascii.eqb c1 "x" || Ascii.eqb c1 "X") then
             match s' with
             | String c2 s'' => if Py.is_underscore c2 then s'' else s'
             | EmptyString => s'
             end
           else t
       | _ => t
       end in
     let starts_with_underscore :=
       match s with
       | String c _ => Py.is_underscore c
       | EmptyString => false
       end in
     if starts_with_underscore then Raise ValueError
     else
       match Py.long_from_binary_base "000" 0 0%nat s with
       | Some (z, digits, rest) =>
           if (digits =? 0)%nat then Raise ValueError
           else
             match Py.skip_int_space rest with
             | EmptyString => Ok (sign * z)
             | String _ _ => Raise ValueError
             end
       | None => Raise ValueError
       end) = Ok v →
    all_chars int_literal_char t = true) as Hbody.
  { intros sign t. cbv zeta.
    assert (∀ u, (if match u with
                     | String c _ => Py.is_underscore c
                     | EmptyString => false
                     end
                  then Raise ValueError
                  else
                    match Py.long_from_binary_base "000" 0 0%nat u with
                    | Some (z, digits, rest) =>
                        if (digits =? 0)%nat then Raise ValueError
                        else
                          match Py.skip_int_space rest with
                          | EmptyString => Ok (sign * z)
                          | String _ _ => Raise ValueError
                          end
                    | None => Raise ValueError
                    end) = Ok v →
                 all_chars int_literal_char u = true) as Hloop.
    { intros u. destruct (match u with String _ _ => _ | _ => _ end); [done|].
      destruct (Py.long_from_binary_base _ _ _ u) as [[[z m] rest]|] eqn:Hl;
        [|done].
      destruct (m =? 0)%nat; [done|].
      destruct (Py.skip_int_space rest) eqn:Hrest; [|done]. intros _.
      apply (long_from_binary_base_chars _ _ _ _ _ _ _ Hl).
      by apply skip_int_space_empty. }
    destruct t as [|c0 [|c1 s']].
    - intros Ht. apply Hloop. exact Ht.
    - intros Ht. apply Hloop. exact Ht.
    - destruct (Ascii.eqb c0 "0" && (Ascii.eqb c1 "x" || Ascii.eqb c1 "X"))
        eqn:Hp; [|intros Ht; apply Hloop; exact Ht].
      apply andb_true_iff in Hp as [H0 Hx].
      assert (int_literal_char c0 = true) as Hc0.
      { apply Ascii.eqb_eq in H0 as ->. done. }
      assert (int_literal_char c1 = true) as Hc1.
      { apply int_literal_char_spec.
        apply orb_true_iff in Hx as [Hx|Hx]; rewrite Hx; by rewrite !orb_true_r. }
      cbn [all_chars]. rewrite Hc0, Hc1. cbn [andb].
      destruct s' as [|c2 s'']; [done|].
      destruct (Py.is_underscore c2) eqn:Hu;
        [|intros Ht; apply Hloop; exact Ht].
      intros Hs%Hloop. cbn [all_chars]. rewrite Hs, andb_true_r.
      apply int_literal_char_spec. rewrite Hu. by rewrite !orb_true_r. }
  cbv zeta in Hbody.
  destruct (Ascii.eqb c "+") eqn:Hplus.
  { simpl. rewrite (Hbody _ _ H), andb_true_r.
    apply int_literal_char_spec. rewrite Hplus. by rewrite !orb_true_r. }
  destruct (Ascii.eqb c "-") eqn:Hminus.
  { simpl. rewrite (Hbody _ _ H), andb_true_r.
    apply int_literal_char_spec. rewrite Hminus. by rewrite !orb_true_r. }
  exact (Hbody 1 (String c s1) H).
Qed.

(** X16. [to_dict] raises in one case only, and then a [ValueError]:
    the colour starts with [#] and what follows after every leading [#]
    is not accepted by [int(_, 16)]. This is so whenever one of the
    characters that follow is none of a hexadecimal digit, an
    underscore, a sign, [x], [X], and the white space [int] skips
    (codes 9 to 13, 32, 133 and 160): a control character with code 28
    before the digits makes it raise, a no-break space does not. *)
Theorem to_dict_raises_only (e : Embed.t) (now : string) :
  (∀ x, Embed.to_dict e now = Raise x
        ↔ x = ValueError
          ∧ Py.startswith (Embed.color e) "#" = true
          ∧ Py.int16 (Py.lstrip_char "#" (Embed.color e)) = Raise ValueError)
  ∧ (Py.startswith (Embed.color e) "#" = true →
     all_chars int_literal_char (Py.lstrip_char "#" (Embed.color e)) = false →
     Embed.to_dict e now = Raise ValueError).
Proof.
  assert (∀ x, Embed.to_dict e now = Raise x
        ↔ x = ValueError
          ∧ Py.startswith (Embed.color e) "#" = true
          ∧ Py.int16 (Py.lstrip_char "#" (Embed.color e)) = Raise ValueError)
    as Hiff.
  { intros x. unfold Embed.to_dict. cbv zeta.
    destruct (Py.startswith (Embed.color e) "#") eqn:Hs.
    - pose proof Hs as Hs'. apply startswith_hash_inv in Hs' as [rest Hrest].
      rewrite Hrest. rewrite <- Hrest.
      replace (Py.truthy (Embed.color e)) with true by (by rewrite Hrest).
      destruct (Py.int16 _) as [c|y] eqn:Hc; cbn [mbind result_bind].
      + split; [done | by intros (_ & _ & ?)].
      + apply int16_raises in Hc as Hy. subst y.
        split; [by intros [= <-] | by intros (-> & _)].
    - destruct (Py.truthy (Embed.color e)); cbn [mbind result_bind];
        (split; [done | by intros (_ & ? & _)]). }
  split; [exact Hiff|].
  intros Hs Hbad. apply Hiff. split; [done|]. split; [done|].
  destruct (Py.int16 _) as [v|x] eqn:Hv.
  - apply int16_chars in Hv. congruence.
  - by apply int16_raises in Hv as ->.
Qed.

Lemma to_dict_raises_only_witness :
  Embed.to_dict Samples.bare_hash Samples.now = Raise ValueError
  ∧ Embed.to_dict Samples.control_colour Samples.now = Raise ValueError
  ∧ Embed.to_dict Samples.no_break_colour Samples.now
    = Ok (<["title" := JStr "Hi"]> {["color" := JInt 255]}).
Proof.
  split; [|split].
  - apply (proj1 (to_dict_raises_only Samples.bare_hash Samples.now)).
    split; [done|]. split; reflexivity.
  - apply (proj2 (to_dict_raises_only Samples.control_colour Samples.now));
      reflexivity.
  - reflexivity.
Defined.

(** ** Sending *)

Section send_properties.

Import PremiumEmbedDesigner.

Variable str_of : json → string.
Variable json_dumps : json → string.
Variable post : string → json → post_outcome.
Variable utcnow : string.

(** A press either is accepted, without a box, or shows one box. *)
Lemma dialog_send_events (en : entries) :
  match (dialog_send en).1 with
  | Some _ => (dialog_send en).2 = []
  | None => ∃ box, (dialog_send en).2 = [box] ∧ posts [box] = []
  end.
Proof.
  unfold dialog_send. cbv zeta.
  repeat match goal with
         | |- context [if ?c then _ else _] =>
             match type of c with bool => destruct c end
         end; simpl; try done; by eexists.
Qed.

(** X17. A press of the send button is accepted only with a webhook
    URL that, trimmed, is not empty and names Discord's webhook path
    somewhere in it, and with an avatar URL that, trimmed, is empty or
    starts with [http://] or [https://]; user name and URLs are handed
    over trimmed and no box is shown. A press that is not accepted
    shows exactly one box. *)
Theorem dialog_send_accepts (en : entries) :
  (∀ r, (dialog_send en).1 = Some r →
     r = mk_result_data (Py.strip (d_url_entry en))
                        (Py.strip (d_username_entry en))
                        (Py.strip (d_avatar_entry en)) (d_remember en)
     ∧ r_url r ≠ "" ∧ names_webhook (r_url r)
     ∧ (r_avatar_url r = "" ∨ http_url (r_avatar_url r))
     ∧ (dialog_send en).2 = [])
  ∧ ((dialog_send en).1 = None → ∃ box, (dialog_send en).2 = [box]
                                        ∧ posts [box] = []).
Proof.
  unfold dialog_send, names_webhook. cbv zeta.
  destruct (Py.truthy (Py.strip (d_url_entry en))) eqn:Hu; simpl negb; cbv iota.
  2: { split; [done|]. intros _. by eexists. }
  destruct (Py.contains "discord.com/api/webhooks/" _) eqn:H1;
    [|destruct (Py.contains "discordapp.com/api/webhooks/" _) eqn:H2];
    simpl negb; simpl andb; cbv iota.
  3: { split; [done|]. intros _. by eexists. }
  all: destruct (Py.truthy (Py.strip (d_avatar_entry en))) eqn:Ha;
    [destruct (Embed.is_http (Py.strip (d_avatar_entry en))) eqn:Hh|];
    simpl negb; simpl andb; cbv iota.
  all: try (split; [done|]; intros _; by eexists).
  all: split; [|done]; intros r [= <-]; simpl;
    apply truthy_true in Hu; split_and!; try done; auto.
  all: try (right; by apply is_http_spec).
  all: left; by apply truthy_false.
Qed.

Lemma posts_app (ev1 ev2 : list event) : posts (ev1 ++ ev2) = posts ev1 ++ posts ev2.
Proof. apply omap_app. Qed.

Lemma wait_window_inv (presses : list entries) :
  posts (wait_window presses).2 = []
  ∧ ∀ r, (wait_window presses).1 = Some r →
      ∃ en, en ∈ presses ∧ (dialog_send en).1 = Some r.
Proof.
  induction presses as [|en presses [IHp IHr]]; [done|].
  cbn [wait_window].
  pose proof (dialog_send_events en) as Hev.
  destruct (dialog_send en) as [[r|] ev] eqn:Hen; cbn [fst snd] in *.
  - rewrite Hev. split; [done|].
    intros r' [= <-]. exists en. split; [by left | by rewrite Hen].
  - destruct Hev as (box & -> & Hbox).
    destruct (wait_window presses) as [r' ev'] eqn:Hw. cbn [fst snd] in *.
    split; [by rewrite posts_app, Hbox, IHp|].
    intros r Hr. destruct (IHr r Hr) as (en' & Hin & Hen').
    exists en'. split; [by right | done].
Qed.

(** What [dispatch] sends when it returns. *)
Lemma dispatch_posts (url username avatar_url : string) (self self' : state)
    (events : list event) :
  dispatch str_of json_dumps post utcnow url username avatar_url self
    = Ok (self', events) →
  ∃ embed payload,
    Embed.to_dict (current_embed self) utcnow = Ok embed
    ∧ posts events = [(url, JObj payload)]
    ∧ payload !! "embeds" = Some (JArr [JObj embed])
    ∧ payload !! "username"
      = (if Py.truthy username then Some (JStr username) else None)
    ∧ payload !! "avatar_url"
      = (if Py.truthy avatar_url then Some (JStr avatar_url) else None)
    ∧ (∀ k, is_Some (payload !! k) → k ∈ ["embeds"; "username"; "avatar_url"]).
Proof.
  unfold dispatch.
  destruct (Embed.to_dict _ _) as [embed|]; [|done].
  cbn [mbind result_bind]. cbv zeta. intros H.
  exists embed. eexists. split; [done|]. split.
  - destruct (post _ _) as [r|cause]; [destruct (_ || _)|];
      injection H as <- <-; reflexivity.
  - split_and!; try by dict_lookup.
    intros k Hk.
    repeat match goal with
           | |- k ∈ ?key :: _ =>
               destruct (decide (k = key)) as [->|?];
               [apply list_elem_of_here | apply list_elem_of_further]
           end.
    exfalso. dict_lookup_in Hk. by destruct Hk.
Qed.

(** The three ways [send_webhook] goes: it stops at the question
    "Send anyway?", the dialog is closed, or a press is accepted. *)
Lemma send_webhook_cases (u : user) (self : state) :
  let self1 := sync_embed_from_ui (u_form u) self in
  ∃ ev1, (posts ev1 = [] ∧ (Embed.validate (current_embed self1) = [] → ev1 = []))
    ∧ ((Embed.validate (current_embed self1) ≠ []
        ∧ u_send_anyway u ≠ Some true
        ∧ send_webhook str_of json_dumps post utcnow u self = (self1, ev1, None))
       ∨ (Embed.validate (current_embed self1) = [] ∨ u_send_anyway u = Some true)
         ∧ ((wait_window (u_presses u)).1 = None
            ∧ send_webhook str_of json_dumps post utcnow u self
              = (self1, ev1 ++ (wait_window (u_presses u)).2, None)
            ∨ ∃ r, (wait_window (u_presses u)).1 = Some r
                ∧ send_webhook str_of json_dumps post utcnow u self
                  = let self2 :=
                      if r_remember r then
                        save_webhook_settings
                          (set_webhook_settings
                             (mk_settings (r_url r) (r_username r) (r_avatar_url r))
                             self1)
                      else self1 in
                    match dispatch str_of json_dumps post utcnow (r_url r)
                            (r_username r) (r_avatar_url r) self2 with
                    | Ok (self', ev3) =>
                        (self', ev1 ++ (wait_window (u_presses u)).2 ++ ev3, None)
                    | Raise x =>
                        (self2, ev1 ++ (wait_window (u_presses u)).2, Some x)
                    end)).
Proof.
  cbv zeta. unfold send_webhook. cbv zeta.
  set (self1 := sync_embed_from_ui (u_form u) self).
  set (prompt := AskYesNoCancel _ _).
  destruct (Embed.validate (current_embed self1)) as [|err errs] eqn:Hv.
  - exists []. split; [done|]. right. split; [by left|].
    simpl negb. cbv iota.
    destruct (wait_window (u_presses u)) as [[r|] ev2]; simpl.
    + right. exists r. split; [done|].
      by destruct (dispatch _ _ _ _ _ _ _ _) as [[? ?]|].
    + by left.
  - exists [prompt]. split; [done|].
    destruct (u_send_anyway u) as [[]|] eqn:Hgo; simpl.
    + right. split; [by right|].
      destruct (wait_window (u_presses u)) as [[r|] ev2]; simpl.
      * right. exists r. split; [done|].
        by destruct (dispatch _ _ _ _ _ _ _ _) as [[? ?]|].
      * by left.
    + left. by split_and!.
    + left. by split_and!.
Qed.

(** X18. [send_webhook] sends at most one request, and none unless
    validation found nothing or the user answered yes to "Send
    anyway?". The request goes to the URL of an accepted press of the
    dialog; its payload holds the dictionary of the embed as read from
    the form under [embeds], the user name and the avatar URL when they
    are not empty, and nothing else. *)
Theorem send_webhook_posts_once (u : user) (self : state) :
  posts (send_webhook str_of json_dumps post utcnow u self).1.2 = []
  ∨ ∃ en r embed payload,
      (Embed.validate (current_embed (sync_embed_from_ui (u_form u) self)) = []
       ∨ u_send_anyway u = Some true)
      ∧ en ∈ u_presses u ∧ (dialog_send en).1 = Some r
      ∧ Embed.to_dict (current_embed (sync_embed_from_ui (u_form u) self)) utcnow
        = Ok embed
      ∧ posts (send_webhook str_of json_dumps post utcnow u self).1.2
        = [(r_url r, JObj payload)]
      ∧ payload !! "embeds" = Some (JArr [JObj embed])
      ∧ payload !! "username"
        = (if Py.truthy (r_username r) then Some (JStr (r_username r)) else None)
      ∧ payload !! "avatar_url"
        = (if Py.truthy (r_avatar_url r) then Some (JStr (r_avatar_url r))
           else None)
      ∧ (∀ k, is_Some (payload !! k) → k ∈ ["embeds"; "username"; "avatar_url"]).
Proof.
  destruct (send_webhook_cases u self)
    as (ev1 & [Hev1 _] & [(_ & _ & ->)|[Hgo [[_ ->]|(r & Hr & ->)]]]);
    cbv zeta; cbn [fst snd].
  - by left.
  - left. rewrite posts_app, Hev1. apply wait_window_inv.
  - destruct (wait_window_inv (u_presses u)) as [Hq Hen].
    destruct (Hen r Hr) as (en & Hin & Hacc).
    set (self2 := if r_remember r then _ else _).
    assert (current_embed self2
            = current_embed (sync_embed_from_ui (u_form u) self)) as Hc.
    { subst self2. by destruct (r_remember r). }
    destruct (dispatch _ _ _ _ _ _ _ _) as [[self3 ev3]|x] eqn:Hd;
      cbn [fst snd].
    + apply dispatch_posts in Hd
        as (embed & payload & Hembed & Hposts & He & Hu & Ha & Hk).
      rewrite Hc in Hembed.
      right. exists en, r, embed, payload.
      rewrite !posts_app, Hev1, Hq, Hposts. by split_and!.
    + left. by rewrite posts_app, Hev1, Hq.
Qed.

Lemma dispatch_settings (url username avatar_url : string) (self self' : state)
    (events : list event) :
  dispatch str_of json_dumps post utcnow url username avatar_url self
    = Ok (self', events) →
  webhook_settings self' = webhook_settings self
  ∧ webhook_settings_file self' = webhook_settings_file self.
Proof.
  unfold dispatch.
  destruct (Embed.to_dict _ _) as [embed|]; [|done].
  cbn [mbind result_bind]. cbv zeta.
  destruct (post _ _) as [r|cause]; [destruct (_ || _)|];
    intros H; by injection H as <- <-.
Qed.

(** X19. When a press of the dialog is accepted with "remember"
    ticked, the URL, user name and avatar URL are kept as the webhook
    settings and written to the settings file before anything is sent:
    they are there afterwards whether the request succeeds, fails, or
    [to_dict] raises. When no press is accepted with "remember"
    ticked, settings and file are as before. *)
Theorem send_webhook_remembers (u : user) (self : state) :
  (∀ r, Embed.validate (current_embed (sync_embed_from_ui (u_form u) self)) = []
        ∨ u_send_anyway u = Some true →
        (wait_window (u_presses u)).1 = Some r → r_remember r = true →
        webhook_settings (send_webhook str_of json_dumps post utcnow u self).1.1
        = mk_settings (r_url r) (r_username r) (r_avatar_url r)
        ∧ webhook_settings_file
            (send_webhook str_of json_dumps post utcnow u self).1.1
          = Stored (settings_document r))
  ∧ ((∀ r, (wait_window (u_presses u)).1 = Some r → r_remember r = false) →
     webhook_settings (send_webhook str_of json_dumps post utcnow u self).1.1
     = webhook_settings self
     ∧ webhook_settings_file
         (send_webhook str_of json_dumps post utcnow u self).1.1
       = webhook_settings_file self).
Proof.
  destruct (send_webhook_cases u self)
    as (ev1 & [Hev1 _] & [(Hv & Hno & ->)|[Hgo [[Hw ->]|(r & Hr & ->)]]]);
    cbv zeta; cbn [fst snd].
  - split; [|done]. intros r [?|?]; done.
  - split; [|done]. intros r _. by rewrite Hw.
  - split.
    + intros r' _. rewrite Hr. intros [= <-] Hrem. rewrite Hrem.
      destruct (dispatch _ _ _ _ _ _ _ _) as [[self3 ev3]|x] eqn:Hd;
        cbn [fst snd]; [|done].
      by apply dispatch_settings in Hd as [-> ->].
    + intros Hrem. rewrite (Hrem r Hr).
      destruct (dispatch _ _ _ _ _ _ _ _) as [[self3 ev3]|x] eqn:Hd;
        cbn [fst snd]; [|done].
      by apply dispatch_settings in Hd as [-> ->].
Qed.


End send_properties.

Lemma dialog_send_accepts_witness :
  ∃ r, (PremiumEmbedDesigner.dialog_send Samples.odd_press).1 = Some r
       ∧ PremiumEmbedDesigner.r_url r
         = "ftp://example.org/discord.com/api/webhooks/"
       ∧ PremiumEmbedDesigner.r_username r = "".
Proof.
  destruct (PremiumEmbedDesigner.dialog_send Samples.odd_press).1 as [r|] eqn:Hr;
    [|by vm_compute in Hr].
  exists r. split; [done|].
  destruct (proj1 (dialog_send_accepts Samples.odd_press) r) as (-> & _);
    [exact Hr|].
  split; reflexivity.
Defined.

Lemma send_webhook_posts_once_witness :
  ∃ payload,
    posts (PremiumEmbedDesigner.send_webhook Samples.no_str Samples.no_str
             Samples.accepting Samples.now Samples.remembering_user
             PremiumEmbedDesigner.init).1.2
    = [(Samples.webhook, JObj payload)]
    ∧ payload !! "username" = Some (JStr "Bot")
    ∧ payload !! "avatar_url" = None.
Proof.
  destruct (send_webhook_posts_once Samples.no_str Samples.no_str
              Samples.accepting Samples.now Samples.remembering_user
              PremiumEmbedDesigner.init)
    as [Hnone|(en & r & embed & payload & _ & Hin & Hr & _ & Hp & _ & Hu & Ha & _)];
    [by vm_compute in Hnone|].
  apply list_elem_of_singleton in Hin. subst en.
  vm_compute in Hr. injection Hr as <-.
  exists payload. split; [exact Hp|]. split; [exact Hu | exact Ha].
Defined.

Lemma send_webhook_remembers_witness :
  PremiumEmbedDesigner.webhook_settings
    (PremiumEmbedDesigner.send_webhook Samples.no_str Samples.no_str
       Samples.accepting Samples.now Samples.remembering_off_colour_user
       PremiumEmbedDesigner.init).1.1
  = PremiumEmbedDesigner.mk_settings Samples.webhook "Bot" ""
  ∧ (PremiumEmbedDesigner.send_webhook Samples.no_str Samples.no_str
       Samples.accepting Samples.now Samples.remembering_off_colour_user
       PremiumEmbedDesigner.init).2 = Some ValueError.
Proof.
  split; [|reflexivity].
  apply (proj1 (send_webhook_remembers Samples.no_str Samples.no_str
                  Samples.accepting Samples.now
                  Samples.remembering_off_colour_user PremiumEmbedDesigner.init)
           (PremiumEmbedDesigner.mk_result_data Samples.webhook "Bot" "" true));
    [left; reflexivity | reflexivity | reflexivity].
Defined.


(** ** Templates *)

Section template_properties.

Import PremiumEmbedDesigner.

Variable str_of : json → string.
Variable shows : Embed.obj → bool.

Lemma Embed_init_fields (kw : gmap string json) (fs : list EmbedField.obj)
    (e : Embed.obj) :
  Embed.init kw fs = Ok e → Embed.fields e = fs.
Proof. unfold Embed.init. case_decide; [|done]. by intros [= <-]. Qed.

Lemma install_fields (name : option json) (kw : gmap string json)
    (fs : list EmbedField.obj) (e : Embed.obj) (box : event) :
  install str_of shows name kw fs = (Some e, box) → Embed.fields e = fs.
Proof.
  unfold install. destruct (Embed.init kw fs) as [e'|] eqn:He; [|done].
  apply Embed_init_fields in He.
  destruct (shows e'); [destruct name|]; by intros [= <- _].
Qed.

Lemma dump_templates_app (l1 l2 : list template) :
  dump_templates (l1 ++ l2)
  = match dump_templates l1, dump_templates l2 with
    | Some d1, Some d2 => Some (d1 ++ d2)
    | _, _ => None
    end.
Proof.
  induction l1 as [|t l1 IH]; simpl.
  - by destruct (dump_templates l2).
  - rewrite IH. destruct (dump_template t); [|done].
    by destruct (dump_templates l1), (dump_templates l2).
Qed.

(** X21. A template saved with [save_as_template] can be loaded: the
    embed [load_template] builds from it is the one that was saved (as
    read from the form at the time), and, when the form can show it,
    the box names the template. The templates file then holds every
    template when all of them can be serialized. *)
Theorem template_round_trip (name : string) (desc : option string) (ui : form)
    (self : state) (templates : list template) :
  name ≠ "" →
  shows (Embed.to_obj (current_embed (sync_embed_from_ui ui self))) = true →
  ∃ doc,
    save_as_template (Some name) desc ui self templates
    = (sync_embed_from_ui ui self, templates ++ [Document doc],
       Some (save_templates (templates ++ [Document doc])),
       [ShowInfo "Saved" "Template saved successfully!"])
    ∧ (load_template str_of shows (Document doc)).1.2
      = Some (Embed.to_obj (current_embed (sync_embed_from_ui ui self)))
    ∧ (load_template str_of shows (Document doc)).2
      = ShowInfo "Loaded" ("Template '" +:+ name +:+ "' loaded!")
    ∧ (∀ docs, dump_templates templates = Some docs →
         save_templates (templates ++ [Document doc]) = Stored (JArr (docs ++ [doc]))).
Proof.
  intros Hname Hshows. apply truthy_true in Hname.
  unfold save_as_template, new_template. rewrite Hname.
  eexists. split; [reflexivity|].
  set (e := current_embed (sync_embed_from_ui ui self)) in *.
  pose proof (load_item_asdict (Embed.to_obj e)) as Hload.
  apply load_item_inv in Hload as (docs & fs & Hdocs & Hfs & Hinit).
  split_and!.
  - unfold load_template. rewrite lookup_insert_eq.
    unfold Embed.asdict at 1. fold (Embed.asdict (Embed.to_obj e)).
    unfold Embed.asdict in *. rewrite Hdocs. cbn [mbind result_bind].
    rewrite Hfs. unfold install. rewrite Hinit, Hshows.
    rewrite lookup_insert_ne by done. rewrite lookup_insert_ne by done.
    by rewrite lookup_singleton_eq.
  - unfold load_template. rewrite lookup_insert_eq.
    unfold Embed.asdict in *. rewrite Hdocs. cbn [mbind result_bind].
    rewrite Hfs. unfold install. rewrite Hinit, Hshows.
    rewrite lookup_insert_ne by done. rewrite lookup_insert_ne by done.
    by rewrite lookup_singleton_eq.
  - intros ds Hds. unfold save_templates. rewrite dump_templates_app, Hds.
    done.
Qed.

(** X22. Loading a template changes it: the list under [fields] of its
    embed is replaced by the field objects built. A template with at
    least one field that has been loaded can therefore not be loaded
    again as it is: the second [load_template] installs nothing and
    shows "Failed to load template". Nor can it be serialized: as long
    as it is among the templates, [save_templates] leaves a file that
    is no JSON document, also when [save_as_template] calls it, and
    [load_templates] then starts from no template. *)
Theorem template_loaded_once (item item' : template) (e : Embed.obj)
    (box : event) :
  load_template str_of shows item = (item', Some e, box) →
  Embed.fields e ≠ [] →
  load_template str_of shows item' = (item', None, load_failed)
  ∧ (∀ before after,
       save_templates (before ++ item' :: after) = Unreadable
       ∧ ∀ name desc ui self, name ≠ "" →
           (save_as_template (Some name) desc ui self
              (before ++ item' :: after)).1.2 = Some Unreadable)
  ∧ load_templates Unreadable = [].
Proof.
  intros Hload Hfs.
  assert (∃ t kw f fs, item' = Loaded t kw (f :: fs)) as (t & kw & f & fs & ->).
  { unfold load_template in Hload.
    destruct item as [doc|t kw fs].
    - destruct doc as [| | | | | |t]; try done.
      destruct (t !! "embed") as [[| | | | | |m]|]; try done.
      destruct (_ ≫= _) as [fs|]; [|done].
      destruct (install _ _ _ _ _) as [e' box'] eqn:Hi.
      injection Hload as <- -> ->.
      apply install_fields in Hi. rewrite Hi in Hfs.
      destruct fs as [|f fs]; [done|]. by eexists _, _, _, _.
    - destruct fs as [|f fs]; [|done].
      destruct (install _ _ _ _ _) as [e' box'] eqn:Hi.
      injection Hload as <- -> ->.
      apply install_fields in Hi. by rewrite Hi in Hfs. }
  split_and!.
  - done.
  - intros before after.
    assert (save_templates (before ++ Loaded t kw (f :: fs) :: after)
            = Unreadable) as Hsave.
    { unfold save_templates. rewrite dump_templates_app. simpl.
      by destruct (dump_templates before). }
    split; [done|].
    intros name desc ui self Hname. apply truthy_true in Hname.
    unfold save_as_template, new_template. rewrite Hname. simpl.
    rewrite <- app_assoc. simpl.
    unfold save_templates. rewrite dump_templates_app. simpl.
    by destruct (dump_templates before).
  - done.
Qed.

End template_properties.

Lemma template_round_trip_witness :
  ∃ doc,
    (PremiumEmbedDesigner.load_template Samples.no_str Samples.showing
       (PremiumEmbedDesigner.Document doc)).1.2
    = Some (Embed.to_obj
              (PremiumEmbedDesigner.current_embed
                 (PremiumEmbedDesigner.sync_embed_from_ui Samples.blank_form
                    PremiumEmbedDesigner.init)))
    ∧ (PremiumEmbedDesigner.load_template Samples.no_str Samples.showing
         (PremiumEmbedDesigner.Document doc)).2
      = PremiumEmbedDesigner.ShowInfo "Loaded" "Template 'News' loaded!".
Proof.
  destruct (template_round_trip Samples.no_str Samples.showing "News" None
              Samples.blank_form PremiumEmbedDesigner.init [])
    as (doc & _ & He & Hbox & _); [discriminate | reflexivity |].
  exists doc. split; [exact He | exact Hbox].
Defined.

Lemma template_loaded_once_witness :
  ∃ item',
    (PremiumEmbedDesigner.load_template Samples.no_str Samples.showing
       Samples.stored_template).1.1 = item'
    ∧ PremiumEmbedDesigner.load_template Samples.no_str Samples.showing item'
      = (item', None, PremiumEmbedDesigner.load_failed)
    ∧ PremiumEmbedDesigner.save_templates [item']
      = PremiumEmbedDesigner.Unreadable.
Proof.
  destruct (PremiumEmbedDesigner.load_template Samples.no_str Samples.showing
              Samples.stored_template) as [[item' e] box] eqn:Hload.
  destruct e as [e|]; [|by vm_compute in Hload].
  exists item'. split; [reflexivity|].
  destruct (template_loaded_once Samples.no_str Samples.showing
              Samples.stored_template item' e box Hload)
    as (Hagain & Hsave & _).
  - vm_compute in Hload. injection Hload as _ <- _. discriminate.
  - split; [exact Hagain|]. apply (Hsave [] []).
Defined.

(** ** The status bar and the export *)

Section display_properties.

Import PremiumEmbedDesigner.

Variable str_of : json → string.
Variable json_dumps : json → string.
Variable post : string → json → post_outcome.
Variable utcnow : string.

Lemma lstrip_length (s : string) : (String.length (Py.lstrip s) ≤ String.length s)%nat.
Proof.
  induction s as [|c s IH]; simpl; [done|].
  destruct (Py.is_space c); simpl; lia.
Qed.

Lemma rstrip_length (s : string) : (String.length (Py.rstrip s) ≤ String.length s)%nat.
Proof.
  induction s as [|c s IH]; simpl; [done|].
  destruct (Py.rstrip s); [destruct (Py.is_space c)|]; simpl in *; lia.
Qed.

Lemma strip_length (s : string) : (String.length (Py.strip s) ≤ String.length s)%nat.
Proof.
  unfold Py.strip. pose proof (rstrip_length (Py.lstrip s)).
  pose proof (lstrip_length s). lia.
Qed.

(** X23. What the status bar says about validation. [update_status_bar]
    shows "Valid" exactly when [validate] reports nothing for the embed
    read from the form, and keeps the violations otherwise. Its title
    and description counters count the characters of the form before
    trimming: a counter that is not red means the title, or the
    description, of the embed is within its limit, but not the other
    way round. The fields counter turns to the warning colour from 21
    fields on. *)
Theorem status_bar_and_validation (ui : form) (self : state) :
  (update_status_bar ui self).1 = sync_embed_from_ui ui self
  ∧ validation_errors (update_status_bar ui self).2
    = Embed.validate (current_embed (sync_embed_from_ui ui self))
  ∧ (status_validation (update_status_bar ui self).2
       = ("✅ Valid", PREMIUM_SUCCESS)
     ↔ Embed.validate (current_embed (sync_embed_from_ui ui self)) = [])
  ∧ ((status_title (update_status_bar ui self).2).2 ≠ PREMIUM_DANGER →
     (String.length (Embed.title (current_embed (sync_embed_from_ui ui self)))
      ≤ MAX_TITLE)%nat)
  ∧ ((status_desc (update_status_bar ui self).2).2 ≠ PREMIUM_DANGER →
     (String.length
        (Embed.description (current_embed (sync_embed_from_ui ui self)))
      ≤ MAX_DESC)%nat)
  ∧ ((status_fields (update_status_bar ui self).2).2 = PREMIUM_WARNING
     ↔ (20 < length (Embed.fields (current_embed self)))%nat).
Proof.
  unfold update_status_bar. cbv zeta. cbn [fst snd].
  set (errors := Embed.validate (current_embed (sync_embed_from_ui ui self))).
  split_and!.
  - done.
  - cbn [validation_errors]. by destruct errors.
  - cbn [status_validation]. destruct errors; simpl; split; done.
  - cbn [status_title snd].
    destruct (MAX_TITLE <? String.length (title_entry ui))%nat eqn:Hl; [done|].
    intros _. apply Nat.ltb_ge in Hl. simpl.
    pose proof (strip_length (title_entry ui)). lia.
  - cbn [status_desc snd].
    destruct (MAX_DESC <? String.length (desc_text ui))%nat eqn:Hl; [done|].
    intros _. apply Nat.ltb_ge in Hl. simpl.
    pose proof (strip_length (desc_text ui)). lia.
  - cbn [status_fields snd].
    destruct (20 <? length (Embed.fields (current_embed self)))%nat eqn:Hl.
    + apply Nat.ltb_lt in Hl. done.
    + apply Nat.ltb_ge in Hl. split; [done | lia].
Qed.

(** X24. [export_json] does not validate. With a path it writes the
    document whose only key, [embeds], holds the dictionary [to_dict]
    gives for the embed read from the form: the payload that
    [send_webhook] posts when user name and avatar URL are empty. When
    [to_dict] raises, nothing is written and the exception leaves
    [export_json]; without a path nothing happens beyond the reading of
    the form. *)
Theorem export_json_writes_payload (ui : form) (file_path : string)
    (self : state) :
  (export_json utcnow ui file_path self).1 = sync_embed_from_ui ui self
  ∧ (file_path = "" → (export_json utcnow ui file_path self).2 = Ok (None, []))
  ∧ (file_path ≠ "" →
     (∀ x, Embed.to_dict (current_embed (sync_embed_from_ui ui self)) utcnow
           = Raise x →
           (export_json utcnow ui file_path self).2 = Raise x)
     ∧ (∀ d, Embed.to_dict (current_embed (sync_embed_from_ui ui self)) utcnow
             = Ok d →
             (export_json utcnow ui file_path self).2
             = Ok (Some (JObj {["embeds" := JArr [JObj d]]}),
                   [ShowInfo "Exported"
                      ("Exported to:" +:+ Py.nl +:+ file_path)])
             ∧ ∀ url, ∃ self' events,
                 dispatch str_of json_dumps post utcnow url "" ""
                   (sync_embed_from_ui ui self) = Ok (self', events)
                 ∧ posts events
                   = [(url, JObj {["embeds" := JArr [JObj d]]})])).
Proof.
  unfold export_json. cbv zeta. cbn [fst snd]. split_and!.
  - done.
  - by intros ->.
  - intros Hp%truthy_true. rewrite Hp. split.
    + intros x ->. done.
    + intros d Hd. rewrite Hd. split; [done|].
      intros url. unfold dispatch. rewrite Hd.
      cbn [mbind result_bind]. cbv zeta. unfold Py.set_if. simpl Py.truthy.
      cbv iota.
      destruct (post url _) as [r|cause]; [destruct (_ || _)|];
        by eexists _, _.
Qed.

End display_properties.

Lemma status_bar_and_validation_witness :
  (String.length
     (Embed.title
        (PremiumEmbedDesigner.current_embed
           (PremiumEmbedDesigner.sync_embed_from_ui Samples.blank_form
              PremiumEmbedDesigner.init)))
   ≤ MAX_TITLE)%nat
  ∧ (PremiumEmbedDesigner.status_title
       (PremiumEmbedDesigner.update_status_bar Samples.padded_title_form
          PremiumEmbedDesigner.init).2).2
    = PremiumEmbedDesigner.PREMIUM_DANGER
  ∧ PremiumEmbedDesigner.status_validation
      (PremiumEmbedDesigner.update_status_bar Samples.padded_title_form
         PremiumEmbedDesigner.init).2
    = ("✅ Valid", PremiumEmbedDesigner.PREMIUM_SUCCESS).
Proof.
  split; [|split].
  - apply (status_bar_and_validation Samples.blank_form PremiumEmbedDesigner.init).
    vm_compute. discriminate.
  - by vm_compute.
  - apply (status_bar_and_validation Samples.padded_title_form
             PremiumEmbedDesigner.init).
    by vm_compute.
Defined.

Lemma export_json_writes_payload_witness :
  (PremiumEmbedDesigner.export_json Samples.now Samples.blank_form "" 
     PremiumEmbedDesigner.init).2 = Ok (None, [])
  ∧ (PremiumEmbedDesigner.export_json Samples.now Samples.blank_form "e.json"
       PremiumEmbedDesigner.init).2
    = Ok (Some (JObj {["embeds" :=
                         JArr [JObj (<["title" := JStr "Hi"]>
                                     {["color" := JInt 5793266]})]]}),
          [PremiumEmbedDesigner.ShowInfo "Exported"
             ("Exported to:" +:+ Py.nl +:+ "e.json")]).
Proof.
  destruct (export_json_writes_payload Samples.no_str Samples.no_str
              Samples.accepting Samples.now Samples.blank_form ""
              PremiumEmbedDesigner.init) as (_ & Hnone & _).
  destruct (export_json_writes_payload Samples.no_str Samples.no_str
              Samples.accepting Samples.now Samples.blank_form "e.json"
              PremiumEmbedDesigner.init) as (_ & _ & Hsome).
  split; [by apply Hnone|].
  destruct Hsome as [_ Hdoc]; [discriminate|].
  apply (Hdoc (<["title" := JStr "Hi"]> {["color" := JInt 5793266]})).
  reflexivity.
Defined.
